(** * Text-layer augmentation of layout annotations: a verification development

    Shallow embedding of
      - [augment_coco_json_with_pdf_text_layer.py]     (Dialect A, module [Coco])
      - [augment_labelme_json_with_pdf_text_layer.py]  (Dialect B, module [Labelme])
    together with the fragments of the Python runtime, [os.path] and PyMuPDF
    that these two scripts rely on.

    Modelling conventions.
      - Python [str] is [string]; character classes ([str.isdigit], [\d],
        [str.lower], [str.strip], [re.IGNORECASE]) are the ASCII ones.
      - Python [int] is [Z]; Python [float] is idealised as an exact rational
        [Q] (no rounding, no NaN, no infinities).
      - A parsed JSON document is a [json] tree; a Python [dict] is an
        association list in insertion order whose update overwrites in place.
      - Exceptions are values of [exn]; every class listed there derives from
        Python's [Exception], so [except Exception] catches all of them.
      - Console output is a list of structured [message]s, the file system a
        pair of finite maps. *)

From Stdlib Require Import ZArith QArith Qminmax Lia Ascii String List Permutation Sorted.
From stdpp Require Import base option list strings gmap.

Close Scope Q_scope.
Local Open Scope Z_scope.
Local Open Scope string_scope.

(* ===================================================================== *)
(** * Python runtime fragments *)
(* ===================================================================== *)

Module Py.

(** Exception classes raised by the modelled code. [FitzError] stands for any
    exception raised inside PyMuPDF (the text query, page loading, opening). *)
Inductive exn : Type :=
| KeyError | IndexError | TypeError | ValueError | AttributeError
| ZeroDivisionError | JSONDecodeError | OSError | FitzError.

Inductive result (A : Type) : Type :=
| Ok (a : A)
| Raise (e : exn).
Arguments Ok {A} a.
Arguments Raise {A} e.

#[export] Instance result_ret : MRet result := fun _ a => Ok a.
#[export] Instance result_bind : MBind result := fun _ _ f m =>
  match m with Ok a => f a | Raise e => Raise e end.

(** ** Strings *)

Definition isdigit (c : ascii) : bool :=
  let n := nat_of_ascii c in (48 <=? n)%nat && (n <=? 57)%nat.

Definition isupper (c : ascii) : bool :=
  let n := nat_of_ascii c in (65 <=? n)%nat && (n <=? 90)%nat.

(** [str.isspace] on the ASCII range: TAB, LF, VT, FF, CR, FS, GS, RS, US, SPACE. *)
Definition isspace (c : ascii) : bool :=
  let n := nat_of_ascii c in
  ((9 <=? n)%nat && (n <=? 13)%nat) || ((28 <=? n)%nat && (n <=? 32)%nat).

Definition lower_char (c : ascii) : ascii :=
  if isupper c then ascii_of_nat (nat_of_ascii c + 32) else c.

Fixpoint lower (s : string) : string :=
  match s with
  | EmptyString => EmptyString
  | String c s' => String (lower_char c) (lower s')
  end.

(** [''.join(filter(p, s))] *)
Fixpoint filter_chars (p : ascii -> bool) (s : string) : string :=
  match s with
  | EmptyString => EmptyString
  | String c s' => if p c then String c (filter_chars p s') else filter_chars p s'
  end.

Definition startswith (s pre : string) : bool := String.prefix pre s.

Definition endswith (s suf : string) : bool :=
  let n := String.length s in
  let k := String.length suf in
  (k <=? n)%nat && String.eqb (substring (n - k) k s) suf.

(** [sub in s] for two strings. *)
Fixpoint contains (s sub : string) : bool :=
  String.prefix sub s ||
  match s with
  | EmptyString => false
  | String _ s' => contains s' sub
  end.

Fixpoint lstrip (s : string) : string :=
  match s with
  | EmptyString => EmptyString
  | String c s' => if isspace c then lstrip s' else s
  end.

Definition reverse_string (s : string) : string :=
  string_of_list_ascii (rev (list_ascii_of_string s)).

Definition rstrip (s : string) : string :=
  reverse_string (lstrip (reverse_string s)).

(** [s.strip()] *)
Definition strip (s : string) : string := rstrip (lstrip s).

Definition digit_value (c : ascii) : Z := Z.of_nat (nat_of_ascii c) - 48.

Fixpoint int_acc (acc : Z) (s : string) : Z :=
  match s with
  | EmptyString => acc
  | String c s' => int_acc (10 * acc + digit_value c) s'
  end.

(** [int(s)] for a non-empty string of decimal digits (the only way the
    scripts call it). *)
Definition int_of_digits (s : string) : Z := int_acc 0 s.

(** Longest prefix of digits and what follows it: the greedy [\d*]. *)
Fixpoint span_digits (s : string) : string * string :=
  match s with
  | EmptyString => (EmptyString, EmptyString)
  | String c s' =>
      if isdigit c then let '(d, r) := span_digits s' in (String c d, r)
      else (EmptyString, s)
  end.

(** [s.rfind(c)]: index of the last occurrence, [None] for Python's -1. *)
Fixpoint rfind (c : ascii) (s : string) : option nat :=
  match s with
  | EmptyString => None
  | String a s' =>
      match rfind c s' with
      | Some i => Some (S i)
      | None => if Ascii.eqb a c then Some O else None
      end
  end.

(** [s[i:]] *)
Definition slice_from (i : nat) (s : string) : string :=
  substring i (String.length s - i) s.

(** [s[:i]] *)
Definition slice_to (i : nat) (s : string) : string := substring 0 i s.

(** ** Numbers and JSON values *)

Inductive pynum : Type :=
| PInt (z : Z)
| PFloat (q : Q).

Definition num_val (n : pynum) : Q :=
  match n with PInt z => inject_Z z | PFloat q => q end.

#[warnings="-register-all"]
Inductive json : Type :=
| JNull
| JBool (b : bool)
| JInt (z : Z)
| JFloat (q : Q)
| JStr (s : string)
| JArr (items : list json)
| JObj (fields : list (string * json)).

(** Numeric view of a value; [bool] is a subclass of [int] in Python. *)
Definition num_of (j : json) : option pynum :=
  match j with
  | JBool b => Some (PInt (if b then 1 else 0))
  | JInt z => Some (PInt z)
  | JFloat q => Some (PFloat q)
  | _ => None
  end.

Definition as_num (j : json) : result pynum :=
  match num_of j with Some n => Ok n | None => Raise TypeError end.

(** ** Dictionaries *)

Fixpoint dict_lookup (k : string) (d : list (string * json)) : option json :=
  match d with
  | [] => None
  | (k', v) :: d' => if String.eqb k' k then Some v else dict_lookup k d'
  end.

(** [d[k] = v]: overwrite the value of an existing key where it stands,
    append a new key at the end. *)
Fixpoint dict_set (k : string) (v : json) (d : list (string * json))
  : list (string * json) :=
  match d with
  | [] => [(k, v)]
  | (k', v') :: d' =>
      if String.eqb k' k then (k', v) :: d' else (k', v') :: dict_set k v d'
  end.

Definition dict_keys (d : list (string * json)) : list string := map fst d.

(** [a == b] *)
Fixpoint py_eq (a b : json) : bool :=
  match num_of a, num_of b with
  | Some x, Some y => Qeq_bool (num_val x) (num_val y)
  | _, _ =>
      match a, b with
      | JNull, JNull => true
      | JStr s, JStr t => String.eqb s t
      | JArr l, JArr m =>
          (fix go (l m : list json) : bool :=
             match l, m with
             | [], [] => true
             | x :: l', y :: m' => py_eq x y && go l' m'
             | _, _ => false
             end) l m
      | JObj d, JObj e =>
          (length d =? length e)%nat &&
          (fix go (d : list (string * json)) : bool :=
             match d with
             | [] => true
             | (k, v) :: d' =>
                 match dict_lookup k e with
                 | Some w => py_eq v w
                 | None => false
                 end && go d'
             end) d
      | _, _ => false
      end
  end.

(** ** Operations on dynamically typed values *)

(** [j[k]] with a string key. *)
Definition getitem_key (j : json) (k : string) : result json :=
  match j with
  | JObj d => match dict_lookup k d with Some v => Ok v | None => Raise KeyError end
  | _ => Raise TypeError
  end.

(** [j[i]] with a non-negative integer index. *)
Definition getitem_idx (j : json) (i : nat) : result json :=
  match j with
  | JArr l => match l !! i with Some v => Ok v | None => Raise IndexError end
  | JStr s =>
      match String.get i s with
      | Some c => Ok (JStr (String c EmptyString))
      | None => Raise IndexError
      end
  | JObj _ => Raise KeyError
  | _ => Raise TypeError
  end.

(** [j[k] = v] with a string key. *)
Definition setitem_key (j : json) (k : string) (v : json) : result json :=
  match j with
  | JObj d => Ok (JObj (dict_set k v d))
  | _ => Raise TypeError
  end.

(** [j.get(k, dflt)] *)
Definition get_default (j : json) (k : string) (dflt : json) : result json :=
  match j with
  | JObj d => Ok (default dflt (dict_lookup k d))
  | _ => Raise AttributeError
  end.

Fixpoint chars (s : string) : list json :=
  match s with
  | EmptyString => []
  | String c s' => JStr (String c EmptyString) :: chars s'
  end.

(** The items a [for] loop (or an unpacking assignment) draws from [j]. *)
Definition py_iter (j : json) : result (list json) :=
  match j with
  | JArr l => Ok l
  | JObj d => Ok (map JStr (dict_keys d))
  | JStr s => Ok (chars s)
  | _ => Raise TypeError
  end.

(** [len(j)] *)
Definition py_len (j : json) : result nat :=
  match j with
  | JArr l => Ok (length l)
  | JObj d => Ok (length d)
  | JStr s => Ok (String.length s)
  | _ => Raise TypeError
  end.

(** [k in j] for a string [k]. *)
Definition py_in (k : string) (j : json) : result bool :=
  match j with
  | JObj d => Ok (bool_decide (is_Some (dict_lookup k d)))
  | JArr l => Ok (existsb (py_eq (JStr k)) l)
  | JStr s => Ok (contains s k)
  | _ => Raise TypeError
  end.

(** [j - 1] *)
Definition minus_one (j : json) : result pynum :=
  match num_of j with
  | Some (PInt z) => Ok (PInt (z - 1))
  | Some (PFloat q) => Ok (PFloat (q - 1)%Q)
  | None => Raise TypeError
  end.

End Py.

Import Py.

(* ===================================================================== *)
(** * [os.path] (POSIX flavour) *)
(* ===================================================================== *)

Module OsPath.

Definition sep : ascii := "/"%char.
Definition extsep : ascii := "."%char.

(** [os.path.basename(p)]: [i = p.rfind('/') + 1; return p[i:]] *)
Definition basename (p : string) : string :=
  match rfind sep p with
  | Some i => slice_from (S i) p
  | None => p
  end.

(** Is some character of [p[i:i+n]] different from the extension separator?
    (the "skip all leading dots" loop of [genericpath._splitext]) *)
Fixpoint has_non_dot (p : string) (i n : nat) : bool :=
  match n with
  | O => false
  | S n' =>
      match String.get i p with
      | Some c => if Ascii.eqb c extsep then has_non_dot p (S i) n' else true
      | None => true
      end
  end.

(** [os.path.splitext(p)] *)
Definition splitext (p : string) : string * string :=
  let filenameIndex := match rfind sep p with Some i => S i | None => O end in
  match rfind extsep p with
  | Some dotIndex =>
      if (filenameIndex <=? dotIndex)%nat
         && has_non_dot p filenameIndex (dotIndex - filenameIndex)
      then (slice_to dotIndex p, slice_from dotIndex p)
      else (p, EmptyString)
  | None => (p, EmptyString)
  end.

(** [os.path.join(a, b)] *)
Definition join (a b : string) : string :=
  if startswith b "/" then b
  else if String.eqb a "" || endswith a "/" then a ++ b
  else a ++ "/" ++ b.

End OsPath.

(* ===================================================================== *)
(** * PyMuPDF ([fitz]): the opened document abstraction *)
(* ===================================================================== *)

Module Fitz.

(** [fitz.Rect(x0, y0, x1, y1)] *)
Record Rect : Type := mkRect { x0 : Q; y0 : Q; x1 : Q; y1 : Q }.

(** A page exposes the size of [page.rect] and the clipped text query
    [page.get_text("text", clip=rect)], which may raise. *)
Record Page : Type := mkPage {
  width : Q;
  height : Q;
  get_text : Rect -> result string
}.

(** An opened document: [pdf_doc.page_count] and [pdf_doc[i]].  How the
    library answers an index is left to the document; the theorems below
    quantify over every such behaviour. *)
Record Document : Type := mkDocument {
  page_count : Z;
  getitem : Z -> result Page
}.

(** A document backed by a list of pages, indexed the way PyMuPDF documents
    it: an index [>= page_count] is refused, a negative index has
    [page_count] added until it is no longer negative. *)
Definition document_of_pages (pages : list Page) : Document :=
  let n := Z.of_nat (length pages) in
  {| page_count := n;
     getitem i :=
       if ((n <=? i) || (n =? 0))%Z then Raise IndexError
       else match pages !! Z.to_nat (i mod n) with
            | Some p => Ok p
            | None => Raise IndexError
            end |}.

Definition rect_eq (r s : Rect) : Prop :=
  (x0 r == x0 s /\ y0 r == y0 s /\ x1 r == x1 s /\ y1 r == y1 s)%Q.

End Fitz.

Import Fitz.

(* ===================================================================== *)
(** * The world the scripts run in: files, directories, console *)
(* ===================================================================== *)

Inductive file : Type :=
| FJson (j : json)        (* a text file that [json.load] parses to [j] *)
| FPdf (d : Document)     (* a file that [fitz.open] opens as [d] *)
| FOther.                 (* anything else *)

(** One constructor per [print] of the two scripts that the properties
    mention, [Info] for the remaining progress lines. *)
Inductive message : Type :=
| Info (text : string)
| Warning (text : string)
| Error (text : string) (e : exn)
| WarnExtractAnnotation (annotation_id : json) (e : exn)
| WarnExtractShape (e : exn)
| WarnShapeMissingPoints
| WarnNoImageDimensions (path : string)
| WarnNotLabelMe (path : string)
| WarnPageCountMismatch (pdf_pages : Z) (json_files : nat)
| WarnPageBeyondDocument (page_num_1based : Z) (pdf_pages : Z).

Record world : Type := mkWorld {
  files : gmap string file;           (* path -> content *)
  dirs : gmap string (list string);   (* directory -> what [os.listdir] returns *)
  stdout : list message
}.

(** Computations that read and write the world and may raise. *)
Definition M (A : Type) : Type := world -> result A * world.

#[export] Instance M_ret : MRet M := fun _ a w => (Ok a, w).
#[export] Instance M_bind : MBind M := fun _ _ f m w =>
  match m w with
  | (Ok a, w') => f a w'
  | (Raise e, w') => (Raise e, w')
  end.

Definition lift {A} (r : result A) : M A := fun w => (r, w).

(** [try: body  except Exception as e: handler(e)] *)
Definition try_except {A} (body : M A) (handler : exn -> M A) : M A := fun w =>
  match body w with
  | (Ok a, w') => (Ok a, w')
  | (Raise e, w') => handler e w'
  end.

(** The world after the lines [ms] were printed. *)
Definition log (w : world) (ms : list message) : world :=
  {| files := files w; dirs := dirs w; stdout := (stdout w ++ ms)%list |}.

Definition print (m : message) : M unit := fun w => (Ok tt, log w [m]).

Definition when (b : bool) (m : M unit) : M unit := if b then m else mret tt.

(** [os.path.exists(p)] *)
Definition path_exists (p : string) : M bool := fun w =>
  (Ok (bool_decide (is_Some (files w !! p) \/ is_Some (dirs w !! p))), w).

(** [os.listdir(p)] *)
Definition listdir (p : string) : M (list string) := fun w =>
  (match dirs w !! p with Some l => Ok l | None => Raise OSError end, w).

(** [with open(p, 'r') as f: json.load(f)] *)
Definition json_load (p : string) : M json := fun w =>
  (match files w !! p with
   | Some (FJson j) => Ok j
   | Some _ => Raise JSONDecodeError
   | None => Raise OSError
   end, w).

(** [with open(p, 'w') as f: json.dump(data, f, ...)]: the file is replaced
    as a whole. *)
Definition json_dump (data : json) (p : string) : M unit := fun w =>
  (Ok tt, {| files := <[p := FJson data]> (files w); dirs := dirs w;
             stdout := stdout w |}).

(** [fitz.open(p)] *)
Definition fitz_open (p : string) : M Document := fun w =>
  (match files w !! p with
   | Some (FPdf d) => Ok d
   | Some _ => Raise FitzError
   | None => Raise OSError
   end, w).

(** The field both scripts write. *)
Definition text_layer_key : string := "original_pdf_text_layer".

(* ===================================================================== *)
(** * Dialect A: [augment_coco_json_with_pdf_text_layer.py] *)
(* ===================================================================== *)

Module Coco.

(** The choice [find_coco_json] makes among the names [os.listdir] returned. *)
Definition select_coco_json (layout_folder : string) (names : list string)
  : option string :=
  let json_files := List.filter (fun f => endswith f ".json") names in
  (* Look for common COCO JSON naming patterns *)
  let coco_candidates :=
    List.filter (fun f => contains (lower f) "coco"
                          || contains (lower f) "annotations") json_files in
  match coco_candidates, json_files with
  | c :: _, _ => Some (OsPath.join layout_folder c)
  | [], f :: _ => Some (OsPath.join layout_folder f)
  | [], [] => None
  end.

(** [find_coco_json(layout_folder)] *)
Definition find_coco_json (layout_folder : string) : M (option string) :=
  names ← listdir layout_folder;
  mret (select_coco_json layout_folder names).

(** The [for image in ...] loop of [get_page_number_from_image_id],
    including the fallback after the loop. *)
Fixpoint page_number_loop (images : list json) (image_id : json) : result pynum :=
  match images with
  | [] =>
      (* Fallback: assume image_id corresponds to page number *)
      minus_one image_id
  | image :: rest =>
      id ← getitem_key image "id";
      if py_eq id image_id then
        filename ← getitem_key image "file_name";
        match filename with
        | JStr filename =>
            let basename := fst (OsPath.splitext (OsPath.basename filename)) in
            let numbers := filter_chars isdigit basename in
            if negb (String.eqb numbers "")
            then Ok (PInt (int_of_digits numbers - 1))
            else minus_one image_id
        | _ => Raise TypeError
        end
      else page_number_loop rest image_id
  end.

(** [get_page_number_from_image_id(coco_data, image_id)] *)
Definition get_page_number_from_image_id (coco_data image_id : json)
  : result pynum :=
  images ← get_default coco_data "images" (JArr []);
  images ← py_iter images;
  page_number_loop images image_id.

(** [extract_text_from_bbox(pdf_doc, page_num, bbox_coco)].  A page number
    that is not an [int] is refused by PyMuPDF's indexing. *)
Definition extract_text_from_bbox (pdf_doc : Document) (page_num : pynum)
    (bbox_coco : json) : result string :=
  if Qle_bool (inject_Z (page_count pdf_doc)) (num_val page_num) then Ok ""
  else
    page ← match page_num with
           | PInt i => getitem pdf_doc i
           | PFloat _ => Raise FitzError
           end;
    items ← py_iter bbox_coco;
    match items with
    | [x; y; width; height] =>
        x ← as_num x; y ← as_num y;
        width ← as_num width; height ← as_num height;
        let rect := mkRect (num_val x) (num_val y)
                           (num_val x + num_val width)%Q
                           (num_val y + num_val height)%Q in
        text ← get_text page rect;
        Ok (strip text)
    | _ => Raise ValueError
    end.

(** Body of the [for i, annotation in enumerate(annotations)] loop of
    [process_pdf_layout_pair]; returns the annotation as mutated and its
    contribution to [updated_count].  When the handler runs after the [try]
    body has already assigned the field, it is because [annotation['id']]
    raised, and it raises again in the handler's own [print]. *)
Definition annotation_step (coco_data : json) (pdf_doc : Document)
    (i : nat) (annotation : json) : M (json * nat) :=
  when ((i mod 50 =? 0)%nat && (0 <? i)%nat) (print (Info "Processed annotations..."));;
  image_id ← lift (getitem_key annotation "image_id");
  bbox ← lift (getitem_key annotation "bbox");
  page_num ← lift (get_page_number_from_image_id coco_data image_id);
  try_except
    (extracted_text ← lift (extract_text_from_bbox pdf_doc page_num bbox);
     annotation' ← lift (setitem_key annotation text_layer_key (JStr extracted_text));
     when (50 <? String.length extracted_text)%nat
       (_ ← lift (getitem_key annotation' "id");
        print (Info "Annotation: Extracted characters"));;
     mret (annotation', 1%nat))
    (fun e =>
       id ← lift (getitem_key annotation "id");
       print (WarnExtractAnnotation id e);;
       annotation' ← lift (setitem_key annotation text_layer_key (JStr ""));
       mret (annotation', 0%nat)).

(** The loop itself, over the items of [annotations] in their order. *)
Fixpoint annotations_loop (coco_data : json) (pdf_doc : Document)
    (i : nat) (annotations : list json) : M (list json * nat) :=
  match annotations with
  | [] => mret ([], 0%nat)
  | annotation :: rest =>
      '(annotation', c) ← annotation_step coco_data pdf_doc i annotation;
      '(rest', updated_count) ← annotations_loop coco_data pdf_doc (S i) rest;
      mret (annotation' :: rest', (c + updated_count)%nat)
  end.

(** [coco_data] after the loop: the annotation objects were mutated in place,
    so the list stored under ['annotations'] now holds the mutated objects.
    When the key is absent the loop ran over the default [[]], which is not
    part of [coco_data]. *)
Definition store_annotations (coco_data : json) (annotations' : list json) : json :=
  match coco_data with
  | JObj d =>
      match dict_lookup "annotations" d with
      | Some (JArr _) => JObj (dict_set "annotations" (JArr annotations') d)
      | _ => coco_data
      end
  | _ => coco_data
  end.

(** [process_pdf_layout_pair(pdf_path, layout_folder)] *)
Definition process_pdf_layout_pair (pdf_path layout_folder : string) : M bool :=
  print (Info "=== Processing PDF ===");;
  layout_exists ← path_exists layout_folder;
  if negb layout_exists then
    print (Warning "Layout folder not found");; mret false
  else
    coco_json_path ← find_coco_json layout_folder;
    match coco_json_path with
    | None => print (Warning "No JSON file found");; mret false
    | Some coco_json_path =>
        print (Info "Found COCO JSON");;
        coco_data ← try_except
                      (coco_data ← json_load coco_json_path; mret (Some coco_data))
                      (fun e => print (Error "Failed to load JSON file" e);; mret None);
        match coco_data with
        | None => mret false
        | Some coco_data =>
            pdf_doc ← try_except
                        (pdf_doc ← fitz_open pdf_path;
                         print (Info "Opened PDF");; mret (Some pdf_doc))
                        (fun e => print (Error "Failed to open PDF" e);; mret None);
            match pdf_doc with
            | None => mret false
            | Some pdf_doc =>
                annotations ← lift (get_default coco_data "annotations" (JArr []));
                _ ← lift (py_len annotations);
                print (Info "Processing annotations...");;
                items ← lift (py_iter annotations);
                '(items', updated_count) ← annotations_loop coco_data pdf_doc 0 items;
                (* pdf_doc.close() *)
                try_except
                  (json_dump (store_annotations coco_data items') coco_json_path;;
                   print (Info "SUCCESS: Updated annotations");; mret true)
                  (fun e => print (Error "Failed to save updated JSON" e);; mret false)
            end
        end
    end.

(** The [for pdf_file in pdf_files] loop of [main], threading
    [success_count]. *)
Fixpoint pairs_loop (pdf_directory layout_directory : string)
    (success_count : nat) (pdf_files : list string) : M nat :=
  match pdf_files with
  | [] => mret success_count
  | pdf_file :: rest =>
      let pdf_path := OsPath.join pdf_directory pdf_file in
      let pdf_name := fst (OsPath.splitext pdf_file) in
      let layout_folder := OsPath.join layout_directory pdf_name in
      succeeded ← process_pdf_layout_pair pdf_path layout_folder;
      pairs_loop pdf_directory layout_directory
        (if succeeded : bool then S success_count else success_count) rest
  end.

(** [main()], after [argparse] has delivered [args.pdf_directory] and
    [args.layout_directory]; the value is the function's return value. *)
Definition main (pdf_directory layout_directory : string) : M Z :=
  (* Validate directories *)
  pdf_directory_exists ← path_exists pdf_directory;
  if negb pdf_directory_exists then
    print (Info "ERROR: PDF directory does not exist");; mret 1
  else
    layout_directory_exists ← path_exists layout_directory;
    if negb layout_directory_exists then
      print (Info "ERROR: Layout directory does not exist");; mret 1
    else
      print (Info "PDF Directory");;
      print (Info "Layout Directory");;
      (* Find all PDF files (not recursive) *)
      names ← listdir pdf_directory;
      let pdf_files := List.filter (fun f => endswith (lower f) ".pdf") names in
      match pdf_files with
      | [] => print (Warning "No PDF files found in the specified directory");; mret 1
      | _ :: _ =>
          print (Info "Found PDF files to process");;
          (* Process each PDF *)
          success_count ← pairs_loop pdf_directory layout_directory 0 pdf_files;
          print (Info "=== SUMMARY ===");;
          print (Info "Total PDFs processed");;
          print (Info "Successfully processed");;
          print (Info "Failed");;
          mret 0
      end.

End Coco.

(* ===================================================================== *)
(** * Dialect B: [augment_labelme_json_with_pdf_text_layer.py] *)
(* ===================================================================== *)

Module Labelme.

(** [min(a, b)] and [max(a, b)] on the coordinates of a point.  On values
    that are not numbers Python raises here or, at the latest, at the
    multiplication by the scale factor below. *)
Definition py_min (a b : json) : result Q :=
  a ← as_num a; b ← as_num b; Ok (Qmin (num_val a) (num_val b)).

Definition py_max (a b : json) : result Q :=
  a ← as_num a; b ← as_num b; Ok (Qmax (num_val a) (num_val b)).

(** [a / b] with a float numerator. *)
Definition py_div (a : Q) (b : json) : result Q :=
  b ← as_num b;
  if Qeq_bool (num_val b) 0 then Raise ZeroDivisionError
  else Ok (a / num_val b)%Q.

(** [extract_text_from_labelme_bbox(pdf_doc, page_num, labelme_points,
    image_width, image_height)] *)
Definition extract_text_from_labelme_bbox (pdf_doc : Document) (page_num : Z)
    (labelme_points image_width image_height : json) : result string :=
  if (page_count pdf_doc <=? page_num)%Z then Ok ""
  else
    page ← getitem pdf_doc page_num;
    (* Convert LabelMe image coordinates to PDF coordinates *)
    point1 ← getitem_idx labelme_points 0;
    point2 ← getitem_idx labelme_points 1;
    (* Get bounding box in image coordinates *)
    p1x ← getitem_idx point1 0; p2x ← getitem_idx point2 0;
    img_x0 ← py_min p1x p2x;
    p1y ← getitem_idx point1 1; p2y ← getitem_idx point2 1;
    img_y0 ← py_min p1y p2y;
    img_x1 ← py_max p1x p2x;
    img_y1 ← py_max p1y p2y;
    (* Calculate scaling factors *)
    scale_x ← py_div (width page) image_width;
    scale_y ← py_div (height page) image_height;
    (* Convert to PDF coordinates *)
    let pdf_x0 := (img_x0 * scale_x)%Q in
    let pdf_y0 := (img_y0 * scale_y)%Q in
    let pdf_x1 := (img_x1 * scale_x)%Q in
    let pdf_y1 := (img_y1 * scale_y)%Q in
    let rect := mkRect pdf_x0 pdf_y0 pdf_x1 pdf_y1 in
    text ← get_text page rect;
    Ok (strip text).

(** [re.match(r'page_(\d+)\.json', filename, re.IGNORECASE)]: the text of
    group 1 when the pattern matches at the start of [filename]. *)
Definition match_page_json (filename : string) : option string :=
  if String.eqb (lower (slice_to 5 filename)) "page_" then
    let '(digits, rest) := span_digits (slice_from 5 filename) in
    if negb (String.eqb digits "") && String.eqb (lower (slice_to 5 rest)) ".json"
    then Some digits
    else None
  else None.

(** The [for filename in os.listdir(images_dir)] loop. *)
Fixpoint collect_page_files (images_dir : string) (filenames : list string)
  : list (Z * string) :=
  match filenames with
  | [] => []
  | filename :: rest =>
      if endswith (lower filename) ".json" then
        match match_page_json filename with
        | Some group1 =>
            let page_num := int_of_digits group1 in
            let filepath := OsPath.join images_dir filename in
            (page_num, filepath) :: collect_page_files images_dir rest
        | None => collect_page_files images_dir rest
        end
      else collect_page_files images_dir rest
  end.

(** [list.sort(key=lambda x: x[0])]: Python's sort is stable, and the stable
    sorted arrangement of a list is unique; insertion from the right, placing
    each element before the first one whose key is not smaller, computes it. *)
Fixpoint insert_by_key (x : Z * string) (l : list (Z * string)) : list (Z * string) :=
  match l with
  | [] => [x]
  | y :: l' => if (fst x <=? fst y)%Z then x :: l else y :: insert_by_key x l'
  end.

Fixpoint sort_by_key (l : list (Z * string)) : list (Z * string) :=
  match l with
  | [] => []
  | x :: l' => insert_by_key x (sort_by_key l')
  end.

(** [get_page_json_files(images_dir)] *)
Definition get_page_json_files (images_dir : string) : M (list (Z * string)) :=
  dir_exists ← path_exists images_dir;
  if negb dir_exists then mret []
  else
    filenames ← listdir images_dir;
    let json_files := collect_page_files images_dir filenames in
    (* Sort by page number (not lexicographically) *)
    mret (sort_by_key json_files).

(** Body of the [for shape in data.get('shapes', [])] loop of
    [process_labelme_json]; returns the shape as mutated and its contribution
    to [shapes_processed].  Nothing raises in the [try] body once the field
    is assigned ([shape] is a dict there), so the handler always sees the
    shape as it was. *)
Definition shape_step (pdf_doc : Document) (page_num : Z)
    (image_width image_height : json) (verbose : bool) (shape : json)
  : M (json * nat) :=
  has_points ← lift (py_in "points" shape);
  valid ← (if has_points : bool then
             points ← lift (getitem_key shape "points");
             n ← lift (py_len points);
             mret (2 <=? n)%nat
           else mret false);
  if valid : bool then
    try_except
      (points ← lift (getitem_key shape "points");
       extracted_text ← lift (extract_text_from_labelme_bbox
                                pdf_doc page_num points image_width image_height);
       shape' ← lift (setitem_key shape text_layer_key (JStr extracted_text));
       (if verbose && (30 <? String.length extracted_text)%nat
        then print (Info "Shape: Extracted characters")
        else when (verbose && negb (String.eqb extracted_text ""))
               (print (Info "Shape: preview")));;
       mret (shape', 1%nat))
      (fun e =>
         when verbose (print (WarnExtractShape e));;
         shape' ← lift (setitem_key shape text_layer_key (JStr ""));
         mret (shape', 0%nat))
  else
    when verbose (print WarnShapeMissingPoints);;
    shape' ← lift (setitem_key shape text_layer_key (JStr ""));
    mret (shape', 0%nat).

Fixpoint shapes_loop (pdf_doc : Document) (page_num : Z)
    (image_width image_height : json) (verbose : bool) (shapes : list json)
  : M (list json * nat) :=
  match shapes with
  | [] => mret ([], 0%nat)
  | shape :: rest =>
      '(shape', c) ← shape_step pdf_doc page_num image_width image_height verbose shape;
      '(rest', shapes_processed) ←
        shapes_loop pdf_doc page_num image_width image_height verbose rest;
      mret (shape' :: rest', (c + shapes_processed)%nat)
  end.

(** [data] after the loop: the shape objects were mutated in place. *)
Definition store_shapes (data : json) (shapes' : list json) : json :=
  match data with
  | JObj d =>
      match dict_lookup "shapes" d with
      | Some (JArr _) => JObj (dict_set "shapes" (JArr shapes') d)
      | _ => data
      end
  | _ => data
  end.

(** [process_labelme_json(json_path, pdf_doc, page_num, verbose)] *)
Definition process_labelme_json (json_path : string) (pdf_doc : Document)
    (page_num : Z) (verbose : bool) : M Z :=
  try_except
    (data ← json_load json_path;
     (* Check if this is a LabelMe JSON (should have 'shapes' key) *)
     has_shapes ← lift (py_in "shapes" data);
     if negb has_shapes then
       when verbose (print (WarnNotLabelMe json_path));; mret 0
     else
       (* Get image dimensions from JSON *)
       image_width ← lift (get_default data "imageWidth" (JInt 0));
       image_height ← lift (get_default data "imageHeight" (JInt 0));
       if py_eq image_width (JInt 0) || py_eq image_height (JInt 0) then
         when verbose (print (WarnNoImageDimensions json_path));; mret 0
       else
         shapes ← lift (get_default data "shapes" (JArr []));
         shapes ← lift (py_iter shapes);
         '(shapes', shapes_processed) ←
           shapes_loop pdf_doc page_num image_width image_height verbose shapes;
         (* Save the updated JSON *)
         json_dump (store_shapes data shapes') json_path;;
         when (verbose && (0 <? shapes_processed)%nat) (print (Info "Updated shapes"));;
         mret (Z.of_nat shapes_processed))
    (fun e =>
       when verbose
         (print (match e with
                 | JSONDecodeError => Error "Invalid JSON format" e
                 | _ => Error "Failed to process" e
                 end));;
       mret (-1)).

(** The [for page_num_1based, json_path in page_json_files] loop of
    [process_pdf_layout_pair], threading [total_shapes_processed]. *)
Fixpoint pages_loop (pdf_doc : Document) (pdf_page_count : Z) (verbose : bool)
    (total_shapes_processed : Z) (page_json_files : list (Z * string)) : M Z :=
  match page_json_files with
  | [] => mret total_shapes_processed
  | (page_num_1based, json_path) :: rest =>
      let page_num_0based := page_num_1based - 1 in
      when verbose (print (Info "Processing page JSON"));;
      if (pdf_page_count <=? page_num_0based)%Z then
        when verbose (print (WarnPageBeyondDocument page_num_1based pdf_page_count));;
        pages_loop pdf_doc pdf_page_count verbose total_shapes_processed rest
      else
        shapes_processed ← process_labelme_json json_path pdf_doc page_num_0based verbose;
        pages_loop pdf_doc pdf_page_count verbose
          (if (0 <? shapes_processed)%Z
           then total_shapes_processed + shapes_processed
           else total_shapes_processed) rest
  end.

(** [process_pdf_layout_pair(pdf_path, layout_folder, verbose)] *)
Definition process_pdf_layout_pair (pdf_path layout_folder : string)
    (verbose : bool) : M bool :=
  when verbose (print (Info "=== Processing PDF ==="));;
  layout_exists ← path_exists layout_folder;
  if negb layout_exists then
    when verbose (print (Warning "Layout folder not found"));; mret false
  else
    let images_dir := OsPath.join layout_folder "images" in
    images_exists ← path_exists images_dir;
    if negb images_exists then
      when verbose (print (Warning "Images subfolder not found"));; mret false
    else
      when verbose (print (Info "Found images directory"));;
      (* Get page JSON files in proper numerical order *)
      page_json_files ← get_page_json_files images_dir;
      match page_json_files with
      | [] => when verbose (print (Warning "No page_X.json files found"));; mret false
      | _ :: _ =>
          when verbose (print (Info "Found page JSON files"));;
          pdf_doc ← try_except
                      (pdf_doc ← fitz_open pdf_path;
                       when verbose (print (Info "Opened PDF"));;
                       mret (Some pdf_doc))
                      (fun e =>
                         when verbose (print (Error "Failed to open PDF" e));;
                         mret None);
          match pdf_doc with
          | None => mret false
          | Some pdf_doc =>
              let pdf_page_count := page_count pdf_doc in
              (* Verify page count matches *)
              when (negb (Z.of_nat (length page_json_files) =? pdf_page_count)%Z && verbose)
                (print (WarnPageCountMismatch pdf_page_count (length page_json_files)));;
              (* Process each page JSON *)
              _ ← pages_loop pdf_doc pdf_page_count verbose 0 page_json_files;
              (* pdf_doc.close() *)
              when verbose (print (Info "SUCCESS: Processed shapes"));;
              mret true
          end
      end.

(** The [for pdf_file in pdf_files] loop of [main], threading
    [success_count]. *)
Fixpoint pairs_loop (pdf_directory layout_directory : string) (verbose : bool)
    (success_count : nat) (pdf_files : list string) : M nat :=
  match pdf_files with
  | [] => mret success_count
  | pdf_file :: rest =>
      let pdf_path := OsPath.join pdf_directory pdf_file in
      let pdf_name := fst (OsPath.splitext pdf_file) in
      let layout_folder := OsPath.join layout_directory pdf_name in
      succeeded ← process_pdf_layout_pair pdf_path layout_folder verbose;
      pairs_loop pdf_directory layout_directory verbose
        (if succeeded : bool then S success_count else success_count) rest
  end.

(** [main()], after [argparse] has delivered [args.pdf_directory],
    [args.layout_directory] and [args.quiet]; the value is the function's
    return value. *)
Definition main (pdf_directory layout_directory : string) (quiet : bool) : M Z :=
  let verbose := negb quiet in
  (* Validate directories *)
  pdf_directory_exists ← path_exists pdf_directory;
  if negb pdf_directory_exists then
    print (Info "ERROR: PDF directory does not exist");; mret 1
  else
    layout_directory_exists ← path_exists layout_directory;
    if negb layout_directory_exists then
      print (Info "ERROR: Layout directory does not exist");; mret 1
    else
      when verbose (print (Info "PDF Directory"));;
      when verbose (print (Info "Layout Directory"));;
      (* Find all PDF files (not recursive) *)
      names ← listdir pdf_directory;
      let pdf_files := List.filter (fun f => endswith (lower f) ".pdf") names in
      match pdf_files with
      | [] => print (Warning "No PDF files found in the specified directory");; mret 1
      | _ :: _ =>
          when verbose (print (Info "Found PDF files to process"));;
          (* Process each PDF *)
          success_count ← pairs_loop pdf_directory layout_directory verbose 0 pdf_files;
          when verbose (print (Info "=== SUMMARY ===");;
                        print (Info "Total PDFs processed");;
                        print (Info "Successfully processed");;
                        print (Info "Failed"));;
          mret 0
      end.

End Labelme.

(* ===================================================================== *)
(** * Notions used to state the properties *)
(* ===================================================================== *)

Module Spec.

(** A number as it appears in a parsed JSON document. *)
Definition jnum (n : pynum) : json :=
  match n with PInt z => JInt z | PFloat q => JFloat q end.

(** The maximal contiguous runs of decimal digits of a string, left to right
    (the specification's wording for the Dialect A page resolver). *)
Fixpoint digit_runs (s : string) : list string :=
  match s with
  | EmptyString => []
  | String c s' =>
      if isdigit c then
        match s' with
        | String c' _ =>
            if isdigit c' then
              match digit_runs s' with
              | r :: rs => String c r :: rs
              | [] => [String c EmptyString]
              end
            else String c EmptyString :: digit_runs s'
        | EmptyString => [String c EmptyString]
        end
      else digit_runs s'
  end.

Fixpoint concat_strings (l : list string) : string :=
  match l with
  | [] => EmptyString
  | s :: l' => s ++ concat_strings l'
  end.

Fixpoint all_chars (p : ascii -> bool) (s : string) : bool :=
  match s with
  | EmptyString => true
  | String c s' => p c && all_chars p s'
  end.

(** The file name is [page_<N>.json] up to letter case, [<N>] a non-empty
    run of decimal digits (the specification's wording for Dialect B). *)
Definition is_page_N_json (filename : string) : bool :=
  let s := lower filename in
  let n := String.length s in
  (10 <? n)%nat
  && String.eqb (slice_to 5 s) "page_"
  && all_chars isdigit (substring 5 (n - 10) s)
  && String.eqb (slice_from (n - 5) s) ".json".

(** An image record that carries an id different from [image_id]. *)
Definition other_record (image_id image : json) : Prop :=
  exists id, getitem_key image "id" = Ok id /\ py_eq id image_id = false.

(** What a run leaves behind apart from console output. *)
Definition same_store (w1 w2 : world) : Prop :=
  files w1 = files w2 /\ dirs w1 = dirs w2.

(** A computation that neither reads nor writes files and directories: it
    yields the same value in every world and only prints. *)
Definition logs_only {A} (m : M A) : Prop :=
  exists r ms, forall w, m w = (r, log w ms).

(** A computation whose value and whose effect on files and directories
    depend on files and directories alone, not on what was printed before. *)
Definition store_determined {A} (m : M A) : Prop :=
  forall w1 w2, same_store w1 w2 ->
    fst (m w1) = fst (m w2) /\ same_store (snd (m w1)) (snd (m w2)).

(** The value stored under the text-layer field of a region, if any. *)
Definition text_layer_of (region : json) : option json :=
  match region with
  | JObj d => dict_lookup text_layer_key d
  | _ => None
  end.

(** The regions of a Dialect B page file. *)
Definition shapes_of (data : json) : list json :=
  match data with
  | JObj d => match dict_lookup "shapes" d with Some (JArr l) => l | _ => [] end
  | _ => []
  end.

(** The regions of a Dialect A group. *)
Definition annotations_of (coco_data : json) : list json :=
  match coco_data with
  | JObj d => match dict_lookup "annotations" d with Some (JArr l) => l | _ => [] end
  | _ => []
  end.

(** The regions stored in a JSON file of the world, with their text layer. *)
Definition text_layers_at (regions_of : json -> list json) (path : string)
    (w : world) : list (option json) :=
  match files w !! path with
  | Some (FJson data) => map text_layer_of (regions_of data)
  | _ => []
  end.

(** Zero-based index [N - 1] of a page mapping lies in [0, pageCount). *)
Definition in_page_range (pdf_doc : Document) (f : Z * string) : bool :=
  (0 <=? fst f - 1)%Z && (fst f - 1 <? page_count pdf_doc)%Z.

(** Zero-based index [N - 1] of a page mapping lies below the page count
    (the test the page loop makes). *)
Definition below_page_count (pdf_doc : Document) (f : Z * string) : bool :=
  (fst f - 1 <? page_count pdf_doc)%Z.

(** A computation that never takes back what was printed. *)
Definition appends_only {A} (m : M A) : Prop :=
  forall w, exists ms, stdout (snd (m w)) = (stdout w ++ ms)%list.

(** Processing the listed page files one after the other, each with the
    zero-based index [N - 1]. *)
Fixpoint process_each (pdf_doc : Document) (verbose : bool)
    (page_json_files : list (Z * string)) (w : world) : world :=
  match page_json_files with
  | [] => w
  | (n, path) :: rest =>
      process_each pdf_doc verbose rest
        (snd (Labelme.process_labelme_json path pdf_doc (n - 1) verbose w))
  end.

(** The value-level reading of the per-region steps. *)

Definition attach (text : string) (region : list (string * json)) : json :=
  JObj (dict_set text_layer_key (JStr text) region).

(** What the Dialect A loop body attaches to an annotation object and what it
    adds to [updated_count]. *)
Definition annotation_outcome (coco_data : json) (pdf_doc : Document)
    (annotation : list (string * json)) : result (string * nat) :=
  image_id ← getitem_key (JObj annotation) "image_id";
  bbox ← getitem_key (JObj annotation) "bbox";
  page_num ← Coco.get_page_number_from_image_id coco_data image_id;
  match Coco.extract_text_from_bbox pdf_doc page_num bbox with
  | Ok text =>
      if (50 <? String.length text)%nat
      then _ ← getitem_key (JObj annotation) "id"; Ok (text, 1%nat)
      else Ok (text, 1%nat)
  | Raise _ => _ ← getitem_key (JObj annotation) "id"; Ok ("", 0%nat)
  end.

Definition annotation_value (coco_data : json) (pdf_doc : Document)
    (annotation : json) : result (json * nat) :=
  match annotation with
  | JObj d =>
      '(text, c) ← annotation_outcome coco_data pdf_doc d; Ok (attach text d, c)
  | _ => Raise TypeError
  end.

(** What the Dialect B loop body attaches to a shape object and what it adds
    to [shapes_processed]. *)
Definition shape_outcome (pdf_doc : Document) (page_num : Z)
    (image_width image_height : json) (shape : list (string * json))
  : result (string * nat) :=
  match dict_lookup "points" shape with
  | Some points =>
      n ← py_len points;
      if (2 <=? n)%nat then
        match Labelme.extract_text_from_labelme_bbox pdf_doc page_num points
                image_width image_height with
        | Ok text => Ok (text, 1%nat)
        | Raise _ => Ok ("", 0%nat)
        end
      else Ok ("", 0%nat)
  | None => Ok ("", 0%nat)
  end.

Definition shape_value (pdf_doc : Document) (page_num : Z)
    (image_width image_height : json) (shape : json) : result (json * nat) :=
  match shape with
  | JObj d =>
      '(text, c) ← shape_outcome pdf_doc page_num image_width image_height d;
      Ok (attach text d, c)
  | _ => Raise TypeError
  end.

(** A loop over regions, value only. *)
Fixpoint regions_value (step : json -> result (json * nat)) (regions : list json)
  : result (list json * nat) :=
  match regions with
  | [] => Ok ([], 0%nat)
  | region :: rest =>
      '(region', c) ← step region;
      '(rest', n) ← regions_value step rest;
      Ok (region' :: rest', (c + n)%nat)
  end.

(** The content a Dialect B page file is rewritten with, [None] when the
    call leaves the file alone. *)
Definition augment_page (pdf_doc : Document) (page_num : Z) (data : json)
  : option json :=
  match py_in "shapes" data,
        get_default data "imageWidth" (JInt 0),
        get_default data "imageHeight" (JInt 0),
        get_default data "shapes" (JArr []) ≫= py_iter with
  | Ok true, Ok image_width, Ok image_height, Ok shapes =>
      if py_eq image_width (JInt 0) || py_eq image_height (JInt 0) then None
      else
        match regions_value (shape_value pdf_doc page_num image_width image_height)
                shapes with
        | Ok (shapes', _) => Some (Labelme.store_shapes data shapes')
        | Raise _ => None
        end
  | _, _, _, _ => None
  end.

(** The effect of one per-page call on the files. *)
Definition page_effect (pdf_doc : Document) (page_num : Z) (json_path : string)
    (fs : gmap string file) : gmap string file :=
  match fs !! json_path with
  | Some (FJson data) =>
      match augment_page pdf_doc page_num data with
      | Some data' => <[json_path := FJson data']> fs
      | None => fs
      end
  | _ => fs
  end.

(** The content a Dialect A group file is rewritten with, [None] when the
    run does not reach the point of saving. *)
Definition augment_group (pdf_doc : Document) (coco_data : json) : option json :=
  match get_default coco_data "annotations" (JArr []) with
  | Ok annotations =>
      match py_len annotations, py_iter annotations with
      | Ok _, Ok items =>
          match regions_value (annotation_value coco_data pdf_doc) items with
          | Ok (items', _) => Some (Coco.store_annotations coco_data items')
          | Raise _ => None
          end
      | _, _ => None
      end
  | Raise _ => None
  end.

(** A file has reached its final content for page [page_num]: processing it
    again would write back what it already holds, or not write at all. *)
Definition settled (pdf_doc : Document) (page_num : Z) (content : option file) : Prop :=
  match content with
  | Some (FJson data) =>
      match augment_page pdf_doc page_num data with
      | Some data' => data' = data
      | None => True
      end
  | _ => True
  end.

(** The effect of a sequence of per-page calls on the files. *)
Definition pages_effect (pdf_doc : Document) (page_json_files : list (Z * string))
    (fs : gmap string file) : gmap string file :=
  fold_left (fun fs f => page_effect pdf_doc (fst f - 1) (snd f) fs)
            page_json_files fs.

(** No path is listed under two different page numbers. *)
Definition one_number_per_path (page_json_files : list (Z * string)) : Prop :=
  forall f g, In f page_json_files -> In g page_json_files ->
              snd f = snd g -> fst f = fst g.

(** The effect of a Dialect B run on the files, as a function of the files
    and directories it starts from. *)
Definition labelme_effect (pdf_path layout_folder : string)
    (fs : gmap string file) (ds : gmap string (list string)) : gmap string file :=
  let images_dir := OsPath.join layout_folder "images" in
  if bool_decide (is_Some (fs !! layout_folder) \/ is_Some (ds !! layout_folder)) then
    match ds !! images_dir with
    | Some filenames =>
        let page_json_files :=
          Labelme.sort_by_key (Labelme.collect_page_files images_dir filenames) in
        match page_json_files, fs !! pdf_path with
        | _ :: _, Some (FPdf pdf_doc) =>
            pages_effect pdf_doc
              (List.filter (below_page_count pdf_doc) page_json_files) fs
        | _, _ => fs
        end
    | None => fs
    end
  else fs.

(** The effect of a Dialect A run on the files. *)
Definition coco_effect (pdf_path layout_folder : string)
    (fs : gmap string file) (ds : gmap string (list string)) : gmap string file :=
  if bool_decide (is_Some (fs !! layout_folder) \/ is_Some (ds !! layout_folder)) then
    match ds !! layout_folder ≫= Coco.select_coco_json layout_folder with
    | Some coco_json_path =>
        match fs !! coco_json_path, fs !! pdf_path with
        | Some (FJson coco_data), Some (FPdf pdf_doc) =>
            match augment_group pdf_doc coco_data with
            | Some coco_data' => <[coco_json_path := FJson coco_data']> fs
            | None => fs
            end
        | _, _ => fs
        end
    | None => fs
    end
  else fs.

(** [fs'] differs from [fs] only in the content of JSON files. *)
Definition rewrites_json_only (fs fs' : gmap string file) : Prop :=
  forall p, fs' !! p = fs !! p
            \/ exists j j', fs !! p = Some (FJson j) /\ fs' !! p = Some (FJson j').

(** Page numbers never decrease along the list. *)
Definition ascending (l : list (Z * string)) : Prop :=
  StronglySorted (fun f g => fst f <= fst g) l.

(** A region object and the same object with some text attached. *)
Definition attached (region region' : json) : Prop :=
  exists d text, region = JObj d /\ region' = attach text d.

(** A computation that prints nothing. *)
Definition silent {A} (m : M A) : Prop :=
  forall w, stdout (snd (m w)) = stdout w.

End Spec.

(* ===================================================================== *)
(** * Concrete documents, groups and directories *)
(* ===================================================================== *)

Module Examples.

Import Spec.

(** A page whose text layer reads [text] wherever it is queried. *)
Definition page_reading (w h : Q) (text : string) : Page :=
  mkPage w h (fun _ => Ok text).

(** A page whose text layer is damaged: every query raises. *)
Definition damaged_page (w h : Q) : Page :=
  mkPage w h (fun _ => Raise FitzError).

(** A page that answers with the rectangle it was asked for, so that the
    rectangle of a query can be read off the result. *)
Definition probe_page (w h : Q) : Page :=
  mkPage w h (fun r =>
    if Qeq_bool (x0 r) 50 && Qeq_bool (y0 r) 50
       && Qeq_bool (x1 r) 150 && Qeq_bool (y1 r) 150
    then Ok "inside (50,50,150,150)" else Ok "elsewhere").

Definition two_page_doc : Document :=
  document_of_pages [probe_page 600 800; page_reading 600 800 "second page"].

Definition one_page_doc : Document :=
  document_of_pages [page_reading 600 800 "hello"].

Definition damaged_doc : Document :=
  document_of_pages [damaged_page 600 800].

Definition corner_points : json :=
  JArr [JArr [JInt 100; JInt 100]; JArr [JInt 300; JInt 300]].

(** A Dialect A group whose first image name carries two runs of digits. *)
Definition coco_group : json :=
  JObj [("images",
         JArr [JObj [("id", JInt 1); ("file_name", JStr "scans/doc2_page_3.jpg")];
               JObj [("id", JInt 2); ("file_name", JStr "scans/page_007.png")];
               JObj [("id", JInt 3); ("file_name", JStr "cover.png")]]);
        ("annotations",
         JArr [JObj [("id", JInt 11); ("image_id", JInt 2);
                     ("bbox", JArr [JInt 10; JInt 20; JInt 30; JInt 40])]])].

(** A Dialect B page file with one region. *)
Definition labelme_page (image_width image_height : Z) : json :=
  JObj [("imageWidth", JInt image_width); ("imageHeight", JInt image_height);
        ("shapes", JArr [JObj [("label", JStr "text"); ("points", corner_points)]])].

(** A Dialect A group with one annotation on the image [scans/page_2.png]. *)
Definition coco_small_group : json :=
  JObj [("images", JArr [JObj [("id", JInt 1); ("file_name", JStr "scans/page_2.png")]]);
        ("annotations",
         JArr [JObj [("id", JInt 11); ("image_id", JInt 1);
                     ("bbox", JArr [JInt 10; JInt 20; JInt 30; JInt 40])]])].

Definition empty_world : world := mkWorld ∅ ∅ [].

(** A layout folder [layouts/doc] holding the group file [coco.json] for the
    two-page document [pdfs/doc.pdf]. *)
Definition coco_world : world :=
  mkWorld
    (<["pdfs/doc.pdf" := FPdf two_page_doc]>
       (<["layouts/doc/coco.json" := FJson coco_small_group]> ∅))
    (<["layouts/doc" := ["coco.json"]]> ∅)
    [].

(** A layout folder [layouts/doc] for the one-page document [pdfs/doc.pdf]
    whose [images] directory lists [names]; every listed file holds
    [content]. *)
Definition layout_world (pdf_doc : Document) (names : list string)
    (content : json) : world :=
  mkWorld
    (<["pdfs/doc.pdf" := FPdf pdf_doc]>
       (list_to_map (map (fun f => (OsPath.join "layouts/doc/images" f, FJson content)) names)))
    (<["layouts/doc" := ["images"]]> (<["layouts/doc/images" := names]> ∅))
    [].

End Examples.

(* ===================================================================== *)
(** * Properties *)
(* ===================================================================== *)

Import Spec Examples.

(** ** Basic facts about the runtime fragments *)

Lemma num_of_jnum (n : pynum) : num_of (jnum n) = Some n.
Proof. by destruct n. Qed.

Lemma as_num_jnum (n : pynum) : as_num (jnum n) = Ok n.
Proof. unfold as_num. by rewrite num_of_jnum. Qed.

Lemma Qle_bool_inject_Z (a b : Z) :
  Qle_bool (inject_Z a) (inject_Z b) = (a <=? b)%Z.
Proof. unfold Qle_bool. simpl. by rewrite !Z.mul_1_r. Qed.

Lemma Qeq_bool_false (q r : Q) : ~ (q == r)%Q -> Qeq_bool q r = false.
Proof.
  intros H. destruct (Qeq_bool q r) eqn:E; [|done].
  by apply Qeq_bool_iff in E.
Qed.

Lemma string_eqb_false (s t : string) : s ≠ t -> String.eqb s t = false.
Proof. intros H. by apply String.eqb_neq. Qed.

Lemma dict_lookup_set_eq k v d : dict_lookup k (dict_set k v d) = Some v.
Proof.
  induction d as [|[k' v'] d IH]; simpl.
  - by rewrite String.eqb_refl.
  - destruct (String.eqb k' k) eqn:E; simpl; by rewrite E.
Qed.

Lemma dict_lookup_set_ne k k' v d :
  k ≠ k' -> dict_lookup k' (dict_set k v d) = dict_lookup k' d.
Proof.
  intros Hne. induction d as [|[k0 v0] d IH]; simpl.
  - rewrite string_eqb_false; done.
  - destruct (String.eqb k0 k) eqn:E; simpl.
    + apply String.eqb_eq in E as ->. by rewrite string_eqb_false.
    + by rewrite IH.
Qed.

(** Assigning a key twice leaves one entry: the second assignment overwrites. *)
Lemma dict_set_set k v v' d : dict_set k v (dict_set k v' d) = dict_set k v d.
Proof.
  induction d as [|[k0 v0] d IH]; simpl.
  - by rewrite String.eqb_refl.
  - destruct (String.eqb k0 k) eqn:E; simpl; rewrite E; [done|by rewrite IH].
Qed.

Lemma dict_set_same k v d : dict_lookup k d = Some v -> dict_set k v d = d.
Proof.
  induction d as [|[k0 v0] d IH]; simpl; [done|].
  destruct (String.eqb k0 k) eqn:E.
  - by intros [= ->].
  - intros H. by rewrite IH.
Qed.

Lemma dict_keys_set k v d :
  dict_keys (dict_set k v d) =
  if bool_decide (is_Some (dict_lookup k d)) then dict_keys d else (dict_keys d ++ [k])%list.
Proof.
  unfold dict_keys.
  induction d as [|[k0 v0] d IH]; [done|].
  cbn [dict_set dict_lookup].
  destruct (String.eqb k0 k) eqn:E; [done|].
  cbn [map fst]. rewrite IH.
  by destruct (dict_lookup k d).
Qed.

(** ** The coordinate mappers *)

(** C1. A Dialect B region given by two corner points, on a page that the
    document serves, with non-zero declared image width and height: the text
    query runs on the rectangle (minX, minY)-(maxX, maxY) of the two points
    with x multiplied by pageWidth / imageWidth and y multiplied by
    pageHeight / imageHeight, top-left origin kept (no vertical flip).  On a
    600 x 800 page with imageWidth 1200, imageHeight 1600 and points
    [[100,100],[300,300]] that rectangle is (50, 50, 150, 150). *)
Theorem labelme_rect_scaled_min_max
    (pdf_doc : Document) (page_num : Z) (page : Page)
    (px1 py1 px2 py2 image_width image_height : pynum) :
  (page_num < page_count pdf_doc)%Z ->
  getitem pdf_doc page_num = Ok page ->
  ~ (num_val image_width == 0)%Q ->
  ~ (num_val image_height == 0)%Q ->
  let scaleX := (width page / num_val image_width)%Q in
  let scaleY := (height page / num_val image_height)%Q in
  let minX := Qmin (num_val px1) (num_val px2) in
  let minY := Qmin (num_val py1) (num_val py2) in
  let maxX := Qmax (num_val px1) (num_val px2) in
  let maxY := Qmax (num_val py1) (num_val py2) in
  let rect := mkRect (minX * scaleX) (minY * scaleY) (maxX * scaleX) (maxY * scaleY) in
  Labelme.extract_text_from_labelme_bbox pdf_doc page_num
    (JArr [JArr [jnum px1; jnum py1]; JArr [jnum px2; jnum py2]])
    (jnum image_width) (jnum image_height)
  = (text ← get_text page rect; Ok (strip text))
  /\ ((width page == 600)%Q -> (height page == 800)%Q ->
      image_width = PInt 1200 -> image_height = PInt 1600 ->
      px1 = PInt 100 -> py1 = PInt 100 -> px2 = PInt 300 -> py2 = PInt 300 ->
      rect_eq rect (mkRect 50 50 150 150)).
Proof.
  intros Hlt Hpage Hw Hh scaleX scaleY minX minY maxX maxY rect. split.
  - unfold Labelme.extract_text_from_labelme_bbox.
    destruct (Z.leb_spec (page_count pdf_doc) page_num) as [Hge|_]; [lia|].
    rewrite Hpage. cbn -[Qmin Qmax Qdiv Qmult strip].
    unfold Labelme.py_min, Labelme.py_max, Labelme.py_div.
    rewrite !as_num_jnum. cbn -[Qmin Qmax Qdiv Qmult strip].
    rewrite (Qeq_bool_false _ _ Hw). cbn -[Qmin Qmax Qdiv Qmult strip].
    by rewrite (Qeq_bool_false _ _ Hh).
  - intros HW HH -> -> -> -> -> ->.
    subst rect scaleX scaleY minX minY maxX maxY. unfold rect_eq. simpl.
    rewrite HW, HH. repeat split; reflexivity.
Qed.

Lemma labelme_rect_scaled_min_max_witness :
  Labelme.extract_text_from_labelme_bbox two_page_doc 0 corner_points
    (JInt 1200) (JInt 1600)
  = Ok "inside (50,50,150,150)".
Proof.
  pose proof (labelme_rect_scaled_min_max two_page_doc 0 (probe_page 600 800)
                (PInt 100) (PInt 100) (PInt 300) (PInt 300)
                (PInt 1200) (PInt 1600)) as H.
  destruct H as [H _]; [reflexivity | reflexivity | by vm_compute | by vm_compute |].
  exact H.
Defined.

(** C2. A Dialect A region [bbox = [x, y, w, h]] on a page that the document
    serves: the text query runs on the rectangle (x, y, x+w, y+h), whatever
    the width and height of the page. *)
Theorem coco_rect_is_bbox_unscaled
    (pdf_doc : Document) (page_num : Z) (page_width page_height : Q)
    (query : Rect -> result string) (x y w h : pynum) :
  (page_num < page_count pdf_doc)%Z ->
  getitem pdf_doc page_num = Ok (mkPage page_width page_height query) ->
  Coco.extract_text_from_bbox pdf_doc (PInt page_num)
    (JArr [jnum x; jnum y; jnum w; jnum h])
  = (text ← query (mkRect (num_val x) (num_val y)
                          (num_val x + num_val w)%Q (num_val y + num_val h)%Q);
     Ok (strip text)).
Proof.
  intros Hlt Hpage. unfold Coco.extract_text_from_bbox.
  cbn [num_val]. rewrite Qle_bool_inject_Z.
  destruct (Z.leb_spec (page_count pdf_doc) page_num) as [Hge|_]; [lia|].
  rewrite Hpage. cbn -[strip Qplus]. by rewrite !as_num_jnum.
Qed.

Lemma coco_rect_is_bbox_unscaled_witness :
  Coco.extract_text_from_bbox two_page_doc (PInt 1)
    (JArr [JInt 10; JInt 20; JInt 30; JInt 40])
  = Ok "second page".
Proof.
  pose proof (coco_rect_is_bbox_unscaled two_page_doc 1 600 800
                (fun _ => Ok "second page")
                (PInt 10) (PInt 20) (PInt 30) (PInt 40)) as H.
  apply H; reflexivity.
Defined.

(** ** The text extractors at the page-range boundary *)

Lemma labelme_extract_beyond_last_page pdf_doc page_num points iw ih :
  (page_count pdf_doc <= page_num)%Z ->
  Labelme.extract_text_from_labelme_bbox pdf_doc page_num points iw ih = Ok "".
Proof.
  intros H. unfold Labelme.extract_text_from_labelme_bbox.
  by destruct (Z.leb_spec (page_count pdf_doc) page_num); [|lia].
Qed.

Lemma coco_extract_beyond_last_page pdf_doc page_num bbox :
  (inject_Z (page_count pdf_doc) <= num_val page_num)%Q ->
  Coco.extract_text_from_bbox pdf_doc page_num bbox = Ok "".
Proof.
  intros H. unfold Coco.extract_text_from_bbox.
  apply Qle_bool_iff in H. by rewrite H.
Qed.

(** Below zero the guard does not fire: the answer is whatever the document
    makes of the negative index. *)
Lemma labelme_extract_defers_to_document pdf_doc page_num points iw ih e :
  (page_num < page_count pdf_doc)%Z ->
  getitem pdf_doc page_num = Raise e ->
  Labelme.extract_text_from_labelme_bbox pdf_doc page_num points iw ih = Raise e.
Proof.
  intros H Hget. unfold Labelme.extract_text_from_labelme_bbox.
  destruct (Z.leb_spec (page_count pdf_doc) page_num); [lia|].
  by rewrite Hget.
Qed.

(** C5. Page index -1 on a one-page document whose text layer reads "hello":
    both extractors pass their guard, index the document with -1, which
    PyMuPDF resolves to the last page, and return that page's text instead of
    the empty string. *)
Theorem negative_page_index_reads_last_page :
  Labelme.extract_text_from_labelme_bbox one_page_doc (-1) corner_points
    (JInt 1200) (JInt 1600) = Ok "hello"
  /\ Coco.extract_text_from_bbox one_page_doc (PInt (-1))
       (JArr [JInt 10; JInt 20; JInt 30; JInt 40]) = Ok "hello"
  /\ ~ (0 <= -1 < page_count one_page_doc)%Z.
Proof. split; [reflexivity|]. split; [reflexivity|]. lia. Qed.

(** ** The Dialect A page resolver *)

Lemma page_number_loop_skips (before rest : list json) (image_id : json) :
  Forall (other_record image_id) before ->
  Coco.page_number_loop (before ++ rest) image_id
  = Coco.page_number_loop rest image_id.
Proof.
  induction 1 as [|image before (id & Hid & Hne) _ IH]; [done|].
  simpl. rewrite Hid. simpl. by rewrite Hne.
Qed.

(** C10. When no record of the images list carries the annotation's
    [image_id], the resolver returns [image_id - 1]: no exception, no
    sentinel. *)
Theorem resolver_without_record_falls_back
    (d : list (string * json)) (images : list json) (image_id : Z) :
  default (JArr []) (dict_lookup "images" d) = JArr images ->
  Forall (other_record (JInt image_id)) images ->
  Coco.get_page_number_from_image_id (JObj d) (JInt image_id)
  = Ok (PInt (image_id - 1)).
Proof.
  intros Himages Hnone. unfold Coco.get_page_number_from_image_id.
  cbn [get_default]. rewrite Himages. cbn.
  rewrite <- (app_nil_r images). by rewrite page_number_loop_skips.
Qed.

Lemma resolver_without_record_falls_back_witness :
  Coco.get_page_number_from_image_id coco_group (JInt 7) = Ok (PInt 6).
Proof.
  apply (resolver_without_record_falls_back _
           [JObj [("id", JInt 1); ("file_name", JStr "scans/doc2_page_3.jpg")];
            JObj [("id", JInt 2); ("file_name", JStr "scans/page_007.png")];
            JObj [("id", JInt 3); ("file_name", JStr "cover.png")]] 7).
  - reflexivity.
  - repeat constructor; eexists; (split; [reflexivity|reflexivity]).
Defined.

Lemma append_empty (s : string) : s ++ "" = s.
Proof.
  induction s as [|c s IH]; [done|].
  change (String c s ++ "") with (String c (s ++ "")). by rewrite IH.
Qed.

Lemma digit_runs_not_empty (s : string) : Forall (fun run => run ≠ "") (digit_runs s).
Proof.
  induction s as [|c s IH]; [constructor|].
  change (digit_runs (String c s)) with
    (if isdigit c then
       match s with
       | String c' _ =>
           if isdigit c' then
             match digit_runs s with
             | r :: rs => String c r :: rs
             | [] => [String c EmptyString]
             end
           else String c EmptyString :: digit_runs s
       | EmptyString => [String c EmptyString]
       end
     else digit_runs s).
  destruct (isdigit c); [|done].
  destruct s as [|c' s']; [by repeat constructor|].
  destruct (isdigit c').
  - destruct (digit_runs (String c' s')) as [|r rs]; [by repeat constructor|].
    inversion IH; subst. by constructor.
  - by constructor.
Qed.

Lemma digit_runs_concat (s : string) :
  concat_strings (digit_runs s) = filter_chars isdigit s.
Proof.
  induction s as [|c s IH]; [done|].
  cbn [digit_runs filter_chars].
  destruct (isdigit c) eqn:Ec; [|done].
  destruct s as [|c' s']; [done|].
  destruct (isdigit c') eqn:Ec'.
  - rewrite <- IH. destruct (digit_runs (String c' s')) as [|r rs] eqn:Er; [|done].
    exfalso. cbn [filter_chars] in IH. rewrite Ec' in IH. discriminate IH.
  - cbn [concat_strings]. by rewrite IH.
Qed.

(** C3 when there is a matching record whose file name is a string: the
    resolver joins ALL decimal digits of the base name, in order, and returns
    that number minus 1; this is "the run of digits minus 1" exactly when the
    base name holds a single run.  Without any digit it returns
    [image_id - 1].  No exception is raised. *)
Theorem resolver_joins_all_digits
    (d : list (string * json)) (before after : list json)
    (image : list (string * json)) (id : json) (filename : string)
    (image_id : Z) :
  default (JArr []) (dict_lookup "images" d) = JArr (before ++ JObj image :: after) ->
  Forall (other_record (JInt image_id)) before ->
  dict_lookup "id" image = Some id ->
  py_eq id (JInt image_id) = true ->
  dict_lookup "file_name" image = Some (JStr filename) ->
  let basename := fst (OsPath.splitext (OsPath.basename filename)) in
  let numbers := concat_strings (digit_runs basename) in
  let page := Coco.get_page_number_from_image_id (JObj d) (JInt image_id) in
  page = Ok (PInt (if String.eqb numbers "" then image_id - 1
                   else int_of_digits numbers - 1))
  /\ (forall run, digit_runs basename = [run] ->
        page = Ok (PInt (int_of_digits run - 1)))
  /\ (digit_runs basename = [] -> page = Ok (PInt (image_id - 1))).
Proof.
  intros Himages Hbefore Hid Heq Hname basename numbers page.
  assert (Hpage : page = Ok (PInt (if String.eqb numbers "" then image_id - 1
                                   else int_of_digits numbers - 1))).
  { subst page. unfold Coco.get_page_number_from_image_id.
    cbn [get_default]. rewrite Himages. cbn [py_iter mbind result_bind].
    rewrite page_number_loop_skips by done.
    cbn [Coco.page_number_loop getitem_key]. rewrite Hid.
    cbn [mbind result_bind]. rewrite Heq, Hname. cbn [mbind result_bind].
    subst numbers. rewrite digit_runs_concat. fold basename.
    by destruct (String.eqb (filter_chars isdigit basename) ""). }
  split; [exact Hpage|]. split.
  - intros run Hrun. rewrite Hpage. subst numbers. rewrite Hrun.
    cbn [concat_strings]. rewrite append_empty.
    destruct (String.eqb run "") eqn:E; [|done].
    apply String.eqb_eq in E as ->.
    pose proof (digit_runs_not_empty basename) as Hne.
    rewrite Hrun in Hne. by inversion Hne.
  - intros Hnone. rewrite Hpage. subst numbers. by rewrite Hnone.
Qed.

Lemma resolver_joins_all_digits_witness :
  Coco.get_page_number_from_image_id coco_group (JInt 2) = Ok (PInt 6).
Proof.
  pose proof (resolver_joins_all_digits
    [("images",
      JArr [JObj [("id", JInt 1); ("file_name", JStr "scans/doc2_page_3.jpg")];
            JObj [("id", JInt 2); ("file_name", JStr "scans/page_007.png")];
            JObj [("id", JInt 3); ("file_name", JStr "cover.png")]]);
     ("annotations",
      JArr [JObj [("id", JInt 11); ("image_id", JInt 2);
                  ("bbox", JArr [JInt 10; JInt 20; JInt 30; JInt 40])]])]
    [JObj [("id", JInt 1); ("file_name", JStr "scans/doc2_page_3.jpg")]]
    [JObj [("id", JInt 3); ("file_name", JStr "cover.png")]]
    [("id", JInt 2); ("file_name", JStr "scans/page_007.png")]
    (JInt 2) "scans/page_007.png" 2) as H.
  destruct H as (_ & H & _).
  - reflexivity.
  - repeat constructor. eexists. split; reflexivity.
  - reflexivity.
  - reflexivity.
  - reflexivity.
  - exact (H "007" eq_refl).
Defined.

(** C3 as stated fails on a base name with two runs of digits: for
    [scans/doc2_page_3.jpg] the resolver returns 23 - 1 = 22, which is not
    "a maximal run of digits, minus 1" for any run of [doc2_page_3]. *)
Lemma resolver_two_runs_counterexample :
  fst (OsPath.splitext (OsPath.basename "scans/doc2_page_3.jpg")) = "doc2_page_3"
  /\ digit_runs "doc2_page_3" = ["2"; "3"]
  /\ Coco.get_page_number_from_image_id coco_group (JInt 1) = Ok (PInt 22)
  /\ ~ (exists run, In run (digit_runs "doc2_page_3")
          /\ Coco.get_page_number_from_image_id coco_group (JInt 1)
             = Ok (PInt (int_of_digits run - 1))).
Proof.
  repeat split; try reflexivity.
  intros (run & Hin & Heq). vm_compute in Hin.
  destruct Hin as [<-|[<-|[]]]; vm_compute in Heq; discriminate Heq.
Qed.

(** ** The Dialect B page-file scan *)

(** C6. A directory holding the single file [page_1.json.old.json]: the name
    is not [page_<N>.json], yet the scan collects it as page 1, because the
    pattern is only matched at the start of the name. *)
Theorem backup_copy_collected_as_page :
  is_page_N_json "page_1.json.old.json" = false
  /\ fst (Labelme.get_page_json_files "layouts/doc/images"
            (layout_world one_page_doc ["page_1.json.old.json"]
               (labelme_page 1200 1600)))
     = Ok [(1, "layouts/doc/images/page_1.json.old.json")].
Proof. split; vm_compute; reflexivity. Qed.

(** The scan lists its finds by ascending page number, keeping the listing
    order among files with the same number. *)

Lemma insert_by_key_perm x l : Permutation (x :: l) (Labelme.insert_by_key x l).
Proof.
  induction l as [|y l IH]; cbn [Labelme.insert_by_key]; [done|].
  destruct (fst x <=? fst y)%Z; [done|].
  rewrite perm_swap. by constructor.
Qed.

Lemma sort_by_key_perm l : Permutation l (Labelme.sort_by_key l).
Proof.
  induction l as [|x l IH]; cbn [Labelme.sort_by_key]; [done|].
  rewrite <- insert_by_key_perm. by constructor.
Qed.


Lemma insert_by_key_ascending x l :
  ascending l -> ascending (Labelme.insert_by_key x l).
Proof.
  unfold ascending. induction 1 as [|y l Hl IH Hy]; cbn [Labelme.insert_by_key].
  - repeat constructor.
  - destruct (Z.leb_spec (fst x) (fst y)) as [Hle|Hgt].
    + constructor; [by constructor|]. constructor; [done|].
      eapply Forall_impl; [exact Hy|]. intros g ?. cbn beta in *. lia.
    + constructor; [done|].
      rewrite <- insert_by_key_perm. constructor; [lia|done].
Qed.

Lemma sort_by_key_ascending l : ascending (Labelme.sort_by_key l).
Proof.
  induction l as [|x l IH]; cbn [Labelme.sort_by_key]; [constructor|].
  by apply insert_by_key_ascending.
Qed.

Lemma collect_page_files_elements images_dir filenames f :
  In f (Labelme.collect_page_files images_dir filenames) <->
  exists filename group1,
    In filename filenames
    /\ endswith (lower filename) ".json" = true
    /\ Labelme.match_page_json filename = Some group1
    /\ f = (int_of_digits group1, OsPath.join images_dir filename).
Proof.
  induction filenames as [|name rest IH]; cbn [Labelme.collect_page_files].
  - split; [done|]. by intros (? & ? & [] & _).
  - destruct (endswith (lower name) ".json") eqn:Hjson;
      [destruct (Labelme.match_page_json name) as [g|] eqn:Hmatch|].
    + cbn [In]. rewrite IH. split.
      * intros [<-|(n & g' & ? & ? & ? & ?)].
        -- exists name, g. repeat split; [by left|done..].
        -- exists n, g'. repeat split; [by right|done..].
      * intros (n & g' & [<-|?] & ? & Hm & ->).
        -- left. rewrite Hmatch in Hm. by injection Hm as <-.
        -- right. by exists n, g'.
    + rewrite IH. split.
      * intros (n & g' & ? & ? & ? & ?). exists n, g'. repeat split; [by right|done..].
      * intros (n & g' & [<-|?] & ? & Hm & ->); [congruence|]. by exists n, g'.
    + rewrite IH. split.
      * intros (n & g' & ? & ? & ? & ?). exists n, g'. repeat split; [by right|done..].
      * intros (n & g' & [<-|?] & ? & Hm & ->); [congruence|]. by exists n, g'.
Qed.

Lemma append_assoc (a b c : string) : (a ++ b) ++ c = a ++ b ++ c.
Proof.
  induction a as [|x a IH]; [done|].
  change ((String x a ++ b) ++ c) with (String x ((a ++ b) ++ c)).
  change (String x a ++ b ++ c) with (String x (a ++ b ++ c)). by rewrite IH.
Qed.

Lemma match_page_json_relative filename group1 :
  Labelme.match_page_json filename = Some group1 -> startswith filename "/" = false.
Proof.
  destruct filename as [|c rest]; [done|].
  unfold startswith. cbn [String.prefix].
  destruct (Ascii.ascii_dec "/"%char c) as [<-|Hne]; [|done].
  unfold Labelme.match_page_json, slice_to. by destruct rest.
Qed.

Lemma join_relative_inj images_dir name1 name2 :
  startswith name1 "/" = false -> startswith name2 "/" = false ->
  OsPath.join images_dir name1 = OsPath.join images_dir name2 -> name1 = name2.
Proof.
  unfold OsPath.join. intros -> ->.
  destruct (String.eqb images_dir "" || endswith images_dir "/").
  - apply String.app_inj.
  - rewrite <- !append_assoc. apply String.app_inj.
Qed.

Lemma page_files_one_number_per_path images_dir filenames pdf_doc :
  one_number_per_path
    (List.filter (below_page_count pdf_doc)
       (Labelme.sort_by_key (Labelme.collect_page_files images_dir filenames))).
Proof.
  intros f g Hf Hg Hpath.
  apply filter_In in Hf as [Hf _]. apply filter_In in Hg as [Hg _].
  apply (Permutation_in _ (Permutation_sym (sort_by_key_perm _))) in Hf, Hg.
  apply collect_page_files_elements in Hf as (n1 & g1 & _ & _ & Hm1 & ->).
  apply collect_page_files_elements in Hg as (n2 & g2 & _ & _ & Hm2 & ->).
  cbn [fst snd] in *.
  apply join_relative_inj in Hpath; eauto using match_page_json_relative.
  subst n2. congruence.
Qed.

(** On a directory that holds [page_10.json] and [page_2.json] (in this
    listing order) the scan puts page 2 before page 10; their zero-based
    indices are 1 and 9. *)
Lemma page_2_before_page_10 :
  fst (Labelme.get_page_json_files "layouts/doc/images"
         (layout_world two_page_doc ["page_10.json"; "page_2.json"]
            (labelme_page 1200 1600)))
  = Ok [(2, "layouts/doc/images/page_2.json");
        (10, "layouts/doc/images/page_10.json")]
  /\ 2 - 1 = 1 /\ 10 - 1 = 9.
Proof. by vm_compute. Qed.

(** ** Running computations: equations and frame properties *)

Lemma run_bind {A B} (m : M A) (f : A -> M B) (w : world) :
  (m ≫= f) w = match m w with
               | (Ok a, w') => f a w'
               | (Raise e, w') => (Raise e, w')
               end.
Proof. reflexivity. Qed.

Lemma run_lift_ok {A B} (a : A) (f : A -> M B) (w : world) :
  (lift (Ok a) ≫= f) w = f a w.
Proof. reflexivity. Qed.

Lemma run_lift_raise {A B} (e : exn) (f : A -> M B) (w : world) :
  (lift (Raise e) ≫= f) w = (Raise e, w).
Proof. reflexivity. Qed.

Lemma run_ret {A B} (a : A) (f : A -> M B) (w : world) :
  (mret a ≫= f) w = f a w.
Proof. reflexivity. Qed.

Lemma run_print {B} (m : message) (f : unit -> M B) (w : world) :
  (print m ≫= f) w = f tt (log w [m]).
Proof. reflexivity. Qed.

Lemma run_when {B} (b : bool) (m : message) (f : unit -> M B) (w : world) :
  (when b (print m) ≫= f) w = f tt (log w (if b then [m] else [])).
Proof.
  destruct b; [reflexivity|]. unfold log. rewrite app_nil_r. by destruct w.
Qed.

Lemma run_path_exists {B} (p : string) (f : bool -> M B) (w : world) :
  (path_exists p ≫= f) w
  = f (bool_decide (is_Some (files w !! p) \/ is_Some (dirs w !! p))) w.
Proof. reflexivity. Qed.

Lemma run_listdir {B} (p : string) (f : list string -> M B) (w : world) :
  (listdir p ≫= f) w
  = match dirs w !! p with Some l => f l w | None => (Raise OSError, w) end.
Proof. rewrite run_bind. unfold listdir. by destruct (dirs w !! p). Qed.

Lemma run_json_load {B} (p : string) (f : json -> M B) (w : world) :
  (json_load p ≫= f) w
  = match files w !! p with
    | Some (FJson j) => f j w
    | Some _ => (Raise JSONDecodeError, w)
    | None => (Raise OSError, w)
    end.
Proof. rewrite run_bind. unfold json_load. by destruct (files w !! p) as [[]|]. Qed.

Lemma run_json_dump {B} (data : json) (p : string) (f : unit -> M B) (w : world) :
  (json_dump data p ≫= f) w
  = f tt (mkWorld (<[p := FJson data]> (files w)) (dirs w) (stdout w)).
Proof. reflexivity. Qed.

Lemma run_fitz_open {B} (p : string) (f : Document -> M B) (w : world) :
  (fitz_open p ≫= f) w
  = match files w !! p with
    | Some (FPdf d) => f d w
    | Some _ => (Raise FitzError, w)
    | None => (Raise OSError, w)
    end.
Proof. rewrite run_bind. unfold fitz_open. by destruct (files w !! p) as [[]|]. Qed.

Lemma run_try_except {A B} (body : M A) (handler : exn -> M A) (f : A -> M B)
    (w : world) :
  (try_except body handler ≫= f) w
  = match body w with
    | (Ok a, w') => f a w'
    | (Raise e, w') => (handler e ≫= f) w'
    end.
Proof. rewrite run_bind. unfold try_except. by destruct (body w) as [[a|e] w']. Qed.

Lemma files_log w ms : files (log w ms) = files w.
Proof. reflexivity. Qed.

Lemma dirs_log w ms : dirs (log w ms) = dirs w.
Proof. reflexivity. Qed.

Lemma log_nil (w : world) : log w [] = w.
Proof. unfold log. rewrite app_nil_r. by destruct w. Qed.

Lemma log_log (w : world) (ms ms' : list message) :
  log (log w ms) ms' = log w (ms ++ ms').
Proof. unfold log. simpl. by rewrite app_assoc. Qed.

Lemma same_store_log (w : world) (ms : list message) : same_store (log w ms) w.
Proof. by split. Qed.

Lemma same_store_refl (w : world) : same_store w w.
Proof. by split. Qed.

Lemma same_store_sym (w1 w2 : world) : same_store w1 w2 -> same_store w2 w1.
Proof. by intros [? ?]. Qed.

Lemma same_store_trans (w1 w2 w3 : world) :
  same_store w1 w2 -> same_store w2 w3 -> same_store w1 w3.
Proof. intros [? ?] [? ?]. split; congruence. Qed.

Section LogsOnly.
Context {A B : Type}.

Lemma logs_only_ret (a : A) : logs_only (mret a : M A).
Proof. exists (Ok a), []. intros w. by rewrite log_nil. Qed.

Lemma logs_only_lift (r : result A) : logs_only (lift r).
Proof. exists r, []. intros w. by rewrite log_nil. Qed.

Lemma logs_only_print (m : message) : logs_only (print m).
Proof. by exists (Ok tt), [m]. Qed.

Lemma logs_only_when (b : bool) (m : M unit) :
  logs_only m -> logs_only (when b m).
Proof.
  destruct b; [done|]. intros _. exists (Ok tt), []. intros w. by rewrite log_nil.
Qed.

Lemma logs_only_bind (m : M A) (f : A -> M B) :
  logs_only m -> (forall a, logs_only (f a)) -> logs_only (m ≫= f).
Proof.
  intros (r & ms & Hm) Hf. destruct r as [a|e].
  - destruct (Hf a) as (r' & ms' & Hfa). exists r', (ms ++ ms')%list.
    intros w. by rewrite run_bind, Hm, Hfa, log_log.
  - exists (Raise e), ms. intros w. by rewrite run_bind, Hm.
Qed.

Lemma logs_only_try_except (body : M A) (handler : exn -> M A) :
  logs_only body -> (forall e, logs_only (handler e)) ->
  logs_only (try_except body handler).
Proof.
  intros (r & ms & Hm) Hh. destruct r as [a|e].
  - exists (Ok a), ms. intros w. unfold try_except. by rewrite Hm.
  - destruct (Hh e) as (r' & ms' & Hhe). exists r', (ms ++ ms')%list.
    intros w. unfold try_except. by rewrite Hm, Hhe, log_log.
Qed.

Lemma logs_only_store_determined (m : M A) :
  logs_only m -> store_determined m.
Proof.
  intros (r & ms & Hm) w1 w2 [Hf Hd]. rewrite !Hm. simpl. by split.
Qed.

Lemma store_determined_bind (m : M A) (f : A -> M B) :
  store_determined m -> (forall a, store_determined (f a)) ->
  store_determined (m ≫= f).
Proof.
  intros Hm Hf w1 w2 Hw. rewrite !run_bind.
  destruct (Hm w1 w2 Hw) as [Hr Hs].
  destruct (m w1) as [r1 u1], (m w2) as [r2 u2]. simpl in *. subst r2.
  destruct r1 as [a|e]; [by apply Hf|done].
Qed.

Lemma store_determined_try_except (body : M A) (handler : exn -> M A) :
  store_determined body -> (forall e, store_determined (handler e)) ->
  store_determined (try_except body handler).
Proof.
  intros Hm Hh w1 w2 Hw. unfold try_except.
  destruct (Hm w1 w2 Hw) as [Hr Hs].
  destruct (body w1) as [r1 u1], (body w2) as [r2 u2]. simpl in *. subst r2.
  destruct r1 as [a|e]; [done|by apply Hh].
Qed.
End LogsOnly.

Lemma store_determined_path_exists p : store_determined (path_exists p).
Proof. intros w1 w2 [Hf Hd]. unfold path_exists. simpl. by rewrite Hf, Hd. Qed.

Lemma store_determined_listdir p : store_determined (listdir p).
Proof. intros w1 w2 [Hf Hd]. unfold listdir. simpl. by rewrite Hd. Qed.

Lemma store_determined_json_load p : store_determined (json_load p).
Proof. intros w1 w2 [Hf Hd]. unfold json_load. simpl. by rewrite Hf. Qed.

Lemma store_determined_json_dump data p : store_determined (json_dump data p).
Proof. intros w1 w2 [Hf Hd]. unfold json_dump, same_store. simpl. by rewrite Hf, Hd. Qed.

Lemma store_determined_fitz_open p : store_determined (fitz_open p).
Proof. intros w1 w2 [Hf Hd]. unfold fitz_open. simpl. by rewrite Hf. Qed.

Section AppendsOnly.
Context {A B : Type}.

Lemma logs_only_appends_only (m : M A) : logs_only m -> appends_only m.
Proof. intros (r & ms & Hm) w. exists ms. by rewrite Hm. Qed.

Lemma appends_only_bind (m : M A) (f : A -> M B) :
  appends_only m -> (forall a, appends_only (f a)) -> appends_only (m ≫= f).
Proof.
  intros Hm Hf w. rewrite run_bind. destruct (Hm w) as [ms Hms].
  destruct (m w) as [[a|e] w']; simpl in *; [|by exists ms].
  destruct (Hf a w') as [ms' Hms']. exists (ms ++ ms')%list.
  by rewrite Hms', Hms, app_assoc.
Qed.

Lemma appends_only_try_except (body : M A) (handler : exn -> M A) :
  appends_only body -> (forall e, appends_only (handler e)) ->
  appends_only (try_except body handler).
Proof.
  intros Hm Hh w. unfold try_except. destruct (Hm w) as [ms Hms].
  destruct (body w) as [[a|e] w']; simpl in *; [by exists ms|].
  destruct (Hh e w') as [ms' Hms']. exists (ms ++ ms')%list.
  by rewrite Hms', Hms, app_assoc.
Qed.
End AppendsOnly.

Lemma appends_only_path_exists p : appends_only (path_exists p).
Proof. intros w. exists []. simpl. by rewrite app_nil_r. Qed.

Lemma appends_only_listdir p : appends_only (listdir p).
Proof. intros w. exists []. simpl. by rewrite app_nil_r. Qed.

Lemma appends_only_json_load p : appends_only (json_load p).
Proof. intros w. exists []. simpl. by rewrite app_nil_r. Qed.

Lemma appends_only_json_dump data p : appends_only (json_dump data p).
Proof. intros w. exists []. simpl. by rewrite app_nil_r. Qed.

Lemma appends_only_fitz_open p : appends_only (fitz_open p).
Proof. intros w. exists []. simpl. by rewrite app_nil_r. Qed.

(** Decompose a frame goal along the shape of the program. *)
Ltac frame :=
  repeat first
    [ progress intros
    | apply logs_only_bind
    | apply logs_only_try_except
    | apply logs_only_when
    | apply logs_only_print
    | apply logs_only_lift
    | apply logs_only_ret
    | apply appends_only_bind
    | apply appends_only_try_except
    | apply appends_only_path_exists
    | apply appends_only_listdir
    | apply appends_only_json_load
    | apply appends_only_json_dump
    | apply appends_only_fitz_open
    | apply store_determined_bind
    | apply store_determined_try_except
    | apply store_determined_path_exists
    | apply store_determined_listdir
    | apply store_determined_json_load
    | apply store_determined_json_dump
    | apply store_determined_fitz_open
    | match goal with
      | |- logs_only (if ?b then _ else _) => destruct b
      | |- logs_only (match ?x with _ => _ end) => destruct x
      | |- store_determined (if ?b then _ else _) => destruct b
      | |- store_determined (match ?x with _ => _ end) => destruct x
      | |- store_determined _ => apply logs_only_store_determined
      | |- appends_only (if ?b then _ else _) => destruct b
      | |- appends_only (match ?x with _ => _ end) => destruct x
      | |- appends_only _ => apply logs_only_appends_only
      end ].

Lemma annotation_step_logs_only coco_data pdf_doc i annotation :
  logs_only (Coco.annotation_step coco_data pdf_doc i annotation).
Proof. unfold Coco.annotation_step. frame. Qed.

Lemma annotations_loop_logs_only coco_data pdf_doc annotations :
  forall i, logs_only (Coco.annotations_loop coco_data pdf_doc i annotations).
Proof.
  induction annotations as [|a rest IH]; intros i; cbn [Coco.annotations_loop].
  - apply logs_only_ret.
  - apply logs_only_bind; [apply annotation_step_logs_only|].
    intros [a' c]. apply logs_only_bind; [apply IH|]. intros [rest' n]. frame.
Qed.

Lemma shape_step_logs_only pdf_doc page_num iw ih verbose shape :
  logs_only (Labelme.shape_step pdf_doc page_num iw ih verbose shape).
Proof. unfold Labelme.shape_step. frame. Qed.

Lemma shapes_loop_logs_only pdf_doc page_num iw ih verbose shapes :
  logs_only (Labelme.shapes_loop pdf_doc page_num iw ih verbose shapes).
Proof.
  induction shapes as [|s rest IH]; cbn [Labelme.shapes_loop].
  - apply logs_only_ret.
  - apply logs_only_bind; [apply shape_step_logs_only|].
    intros [s' c]. apply logs_only_bind; [apply IH|]. intros [rest' n]. frame.
Qed.

Lemma process_labelme_json_store_determined json_path pdf_doc page_num verbose :
  store_determined (Labelme.process_labelme_json json_path pdf_doc page_num verbose).
Proof.
  unfold Labelme.process_labelme_json.
  apply store_determined_try_except; [|frame].
  apply store_determined_bind; [frame|]. intros data.
  apply store_determined_bind; [frame|]. intros has_shapes.
  destruct (negb has_shapes); [frame|].
  apply store_determined_bind; [frame|]. intros iw.
  apply store_determined_bind; [frame|]. intros ih.
  destruct (_ || _); [frame|].
  apply store_determined_bind; [frame|]. intros shapes.
  apply store_determined_bind; [frame|]. intros items.
  apply store_determined_bind.
  - apply logs_only_store_determined, shapes_loop_logs_only.
  - intros [shapes' n]. frame.
Qed.

(** ** Degenerate image size (Dialect B) *)

(** C4, as the code has it.  A page file that is a LabelMe object whose
    [imageWidth] or [imageHeight] is zero (or absent): the call returns 0
    without raising, nothing is divided or scaled, and the world is left as it
    was apart from one warning line when verbose; in particular the file is
    not rewritten and no region receives the text-layer field. *)
Theorem zero_image_size_skips_file
    (json_path : string) (pdf_doc : Document) (page_num : Z)
    (verbose : bool) (w : world) (d : list (string * json)) :
  files w !! json_path = Some (FJson (JObj d)) ->
  is_Some (dict_lookup "shapes" d) ->
  py_eq (default (JInt 0) (dict_lookup "imageWidth" d)) (JInt 0) = true
  \/ py_eq (default (JInt 0) (dict_lookup "imageHeight" d)) (JInt 0) = true ->
  Labelme.process_labelme_json json_path pdf_doc page_num verbose w
  = (Ok 0, log w (if verbose then [WarnNoImageDimensions json_path] else [])).
Proof.
  intros Hfile Hshapes Hzero.
  unfold Labelme.process_labelme_json, try_except.
  rewrite run_bind. unfold json_load at 1. rewrite Hfile.
  cbn [py_in]. rewrite bool_decide_eq_true_2 by done.
  rewrite run_lift_ok. cbn [negb get_default].
  rewrite !run_lift_ok.
  assert (py_eq (default (JInt 0) (dict_lookup "imageWidth" d)) (JInt 0)
          || py_eq (default (JInt 0) (dict_lookup "imageHeight" d)) (JInt 0) = true) as ->.
  { destruct Hzero as [-> | ->]; [done|by rewrite orb_true_r]. }
  by rewrite run_when.
Qed.

Lemma zero_image_size_skips_file_witness :
  Labelme.process_labelme_json "layouts/doc/images/page_1.json" one_page_doc 0 false
    (layout_world one_page_doc ["page_1.json"] (labelme_page 1200 0))
  = (Ok 0, log (layout_world one_page_doc ["page_1.json"] (labelme_page 1200 0)) []).
Proof.
  apply (zero_image_size_skips_file _ _ _ false _
           [("imageWidth", JInt 1200); ("imageHeight", JInt 0);
            ("shapes", JArr [JObj [("label", JStr "text"); ("points", corner_points)]])]).
  - reflexivity.
  - by eexists.
  - right. reflexivity.
Defined.

(** C4 as stated fails: with [imageWidth = 0] the file keeps its single
    region exactly as it was, without any text-layer field, empty or not. *)
Lemma zero_image_width_counterexample :
  let path := "layouts/doc/images/page_1.json" in
  let w := layout_world one_page_doc ["page_1.json"] (labelme_page 0 1600) in
  let '(r, w') := Labelme.process_labelme_json path one_page_doc 0 true w in
  r = Ok 0
  /\ files w' !! path = Some (FJson (labelme_page 0 1600))
  /\ map text_layer_of (shapes_of (labelme_page 0 1600)) = [None].
Proof. vm_compute. by repeat split. Qed.

(** ** Failures of the text query *)

Lemma coco_text_query_failure_absorbed
    (coco_data : json) (pdf_doc : Document) (i : nat)
    (annotation : list (string * json)) (image_id bbox id : json)
    (page_num : pynum) (e : exn) (w : world) :
  dict_lookup "image_id" annotation = Some image_id ->
  dict_lookup "bbox" annotation = Some bbox ->
  dict_lookup "id" annotation = Some id ->
  Coco.get_page_number_from_image_id coco_data image_id = Ok page_num ->
  Coco.extract_text_from_bbox pdf_doc page_num bbox = Raise e ->
  Coco.annotation_step coco_data pdf_doc i (JObj annotation) w
  = (Ok (JObj (dict_set text_layer_key (JStr "") annotation), 0%nat),
     log w ((if ((i mod 50 =? 0)%nat && (0 <? i)%nat)
             then [Info "Processed annotations..."] else [])
            ++ [WarnExtractAnnotation id e])).
Proof.
  intros Himg Hbbox Hid Hpage Hfail.
  unfold Coco.annotation_step. rewrite run_when.
  cbn [getitem_key]. rewrite Himg, Hbbox, Hid. rewrite !run_lift_ok.
  rewrite Hpage, run_lift_ok. unfold try_except.
  rewrite Hfail, run_lift_raise, run_lift_ok, run_print.
  cbn [setitem_key]. by rewrite run_lift_ok, log_log.
Qed.

Lemma labelme_text_query_failure_absorbed
    (pdf_doc : Document) (page_num : Z) (image_width image_height : json)
    (verbose : bool) (shape : list (string * json)) (points : json) (n : nat)
    (e : exn) (w : world) :
  dict_lookup "points" shape = Some points ->
  py_len points = Ok n -> (2 <= n)%nat ->
  Labelme.extract_text_from_labelme_bbox pdf_doc page_num points
    image_width image_height = Raise e ->
  Labelme.shape_step pdf_doc page_num image_width image_height verbose
    (JObj shape) w
  = (Ok (JObj (dict_set text_layer_key (JStr "") shape), 0%nat),
     log w (if verbose then [WarnExtractShape e] else [])).
Proof.
  intros Hpoints Hlen Hn Hfail.
  unfold Labelme.shape_step. cbn [py_in getitem_key]. rewrite Hpoints.
  rewrite bool_decide_eq_true_2 by done. rewrite !run_lift_ok.
  rewrite run_bind. rewrite !run_lift_ok. rewrite Hlen, run_lift_ok.
  destruct (Nat.leb_spec 2 n) as [_|?]; [|lia].
  cbn [mret M_ret]. unfold try_except.
  rewrite run_lift_ok, Hfail, run_lift_raise, run_when.
  cbn [setitem_key]. by rewrite run_lift_ok.
Qed.

(** C7, as the code has it.  When the extractor raises for a region (an
    annotation carrying [image_id], [bbox] and [id] whose page resolves, or a
    shape with at least two points), the per-region step returns normally
    with the empty string attached, and the loop goes on with the remaining
    regions.  A warning line is printed by the Dialect A script always, by
    the Dialect B script only when verbose. *)
Theorem text_query_failure_is_absorbed
    (coco_data : json) (pdf_doc : Document) (i : nat)
    (annotation : list (string * json)) (other_annotations : list json)
    (image_id bbox id : json) (page_num : pynum) (e : exn)
    (pdf_doc_b : Document) (page_num_b : Z) (image_width image_height : json)
    (verbose : bool) (shape : list (string * json)) (other_shapes : list json)
    (points : json) (n : nat) (e_b : exn) (w : world) :
  dict_lookup "image_id" annotation = Some image_id ->
  dict_lookup "bbox" annotation = Some bbox ->
  dict_lookup "id" annotation = Some id ->
  Coco.get_page_number_from_image_id coco_data image_id = Ok page_num ->
  Coco.extract_text_from_bbox pdf_doc page_num bbox = Raise e ->
  dict_lookup "points" shape = Some points ->
  py_len points = Ok n -> (2 <= n)%nat ->
  Labelme.extract_text_from_labelme_bbox pdf_doc_b page_num_b points
    image_width image_height = Raise e_b ->
  let annotation' := JObj (dict_set text_layer_key (JStr "") annotation) in
  let shape' := JObj (dict_set text_layer_key (JStr "") shape) in
  let progress := if ((i mod 50 =? 0)%nat && (0 <? i)%nat)
                  then [Info "Processed annotations..."] else [] in
  let w_a := log w (progress ++ [WarnExtractAnnotation id e]) in
  let w_b := log w (if verbose then [WarnExtractShape e_b] else []) in
  Coco.annotation_step coco_data pdf_doc i (JObj annotation) w
    = (Ok (annotation', 0%nat), w_a)
  /\ Coco.annotations_loop coco_data pdf_doc i (JObj annotation :: other_annotations) w
     = ('(rest', updated_count) ←
          Coco.annotations_loop coco_data pdf_doc (S i) other_annotations;
        mret (annotation' :: rest', updated_count)) w_a
  /\ Labelme.shape_step pdf_doc_b page_num_b image_width image_height verbose
       (JObj shape) w
     = (Ok (shape', 0%nat), w_b)
  /\ Labelme.shapes_loop pdf_doc_b page_num_b image_width image_height verbose
       (JObj shape :: other_shapes) w
     = ('(rest', shapes_processed) ←
          Labelme.shapes_loop pdf_doc_b page_num_b image_width image_height
            verbose other_shapes;
        mret (shape' :: rest', shapes_processed)) w_b.
Proof.
  intros Himg Hbbox Hid Hpage Hfail Hpoints Hlen Hn Hfail_b
         annotation' shape' progress w_a w_b.
  pose proof (coco_text_query_failure_absorbed coco_data pdf_doc i annotation
                image_id bbox id page_num e w Himg Hbbox Hid Hpage Hfail) as Ha.
  pose proof (labelme_text_query_failure_absorbed pdf_doc_b page_num_b
                image_width image_height verbose shape points n e_b w
                Hpoints Hlen Hn Hfail_b) as Hb.
  split; [exact Ha|]. split.
  - cbn [Coco.annotations_loop]. by rewrite run_bind, Ha.
  - split; [exact Hb|].
    cbn [Labelme.shapes_loop]. by rewrite run_bind, Hb.
Qed.

Lemma text_query_failure_is_absorbed_witness :
  Coco.annotation_step (JObj []) damaged_doc 0
    (JObj [("id", JInt 11); ("image_id", JInt 1);
           ("bbox", JArr [JInt 10; JInt 20; JInt 30; JInt 40])]) empty_world
  = (Ok (JObj [("id", JInt 11); ("image_id", JInt 1);
               ("bbox", JArr [JInt 10; JInt 20; JInt 30; JInt 40]);
               (text_layer_key, JStr "")], 0%nat),
     log empty_world [WarnExtractAnnotation (JInt 11) FitzError])
  /\ Labelme.shape_step damaged_doc 0 (JInt 1200) (JInt 1600) true
       (JObj [("label", JStr "text"); ("points", corner_points)]) empty_world
     = (Ok (JObj [("label", JStr "text"); ("points", corner_points);
                  (text_layer_key, JStr "")], 0%nat),
        log empty_world [WarnExtractShape FitzError]).
Proof.
  pose proof (text_query_failure_is_absorbed (JObj []) damaged_doc 0
    [("id", JInt 11); ("image_id", JInt 1);
     ("bbox", JArr [JInt 10; JInt 20; JInt 30; JInt 40])]
    [] (JInt 1) (JArr [JInt 10; JInt 20; JInt 30; JInt 40]) (JInt 11)
    (PInt 0) FitzError
    damaged_doc 0 (JInt 1200) (JInt 1600) true
    [("label", JStr "text"); ("points", corner_points)] []
    corner_points 2%nat FitzError empty_world) as H.
  destruct H as (Ha & _ & Hb & _);
    [reflexivity | reflexivity | reflexivity | reflexivity | reflexivity
    | reflexivity | reflexivity | lia | reflexivity |].
  split; [exact Ha|exact Hb].
Defined.

(** C7 as stated fails on the warning: the Dialect B script run quietly
    absorbs the failure of the text query without printing anything. *)
Lemma quiet_failure_counterexample :
  let shape := JObj [("label", JStr "text"); ("points", corner_points)] in
  Labelme.extract_text_from_labelme_bbox damaged_doc 0 corner_points
    (JInt 1200) (JInt 1600) = Raise FitzError
  /\ Labelme.shape_step damaged_doc 0 (JInt 1200) (JInt 1600) false shape empty_world
     = (Ok (JObj [("label", JStr "text"); ("points", corner_points);
                  (text_layer_key, JStr "")], 0%nat),
        empty_world)
  /\ stdout (snd (Labelme.shape_step damaged_doc 0 (JInt 1200) (JInt 1600) false
                    shape empty_world)) = [].
Proof. by repeat split. Qed.

(** ** The Dialect B page loop *)

Lemma get_page_json_files_of_listing images_dir filenames w :
  dirs w !! images_dir = Some filenames ->
  Labelme.get_page_json_files images_dir w
  = (Ok (Labelme.sort_by_key (Labelme.collect_page_files images_dir filenames)), w).
Proof.
  intros Hdir. unfold Labelme.get_page_json_files.
  rewrite run_path_exists, bool_decide_eq_true_2 by (right; by rewrite Hdir).
  cbn [negb]. by rewrite run_listdir, Hdir.
Qed.


Lemma process_labelme_json_appends_only json_path pdf_doc page_num verbose :
  appends_only (Labelme.process_labelme_json json_path pdf_doc page_num verbose).
Proof.
  unfold Labelme.process_labelme_json.
  apply appends_only_try_except; [|frame].
  apply appends_only_bind; [frame|]. intros data.
  apply appends_only_bind; [frame|]. intros has_shapes.
  destruct (negb has_shapes); [frame|].
  apply appends_only_bind; [frame|]. intros iw.
  apply appends_only_bind; [frame|]. intros ih.
  destruct (_ || _); [frame|].
  apply appends_only_bind; [frame|]. intros shapes.
  apply appends_only_bind; [frame|]. intros items.
  apply appends_only_bind.
  - apply logs_only_appends_only, shapes_loop_logs_only.
  - intros [shapes' n]. frame.
Qed.

(** Whatever happens inside, the per-page call returns a number. *)
Lemma process_labelme_json_returns json_path pdf_doc page_num verbose w :
  exists z w',
    Labelme.process_labelme_json json_path pdf_doc page_num verbose w = (Ok z, w').
Proof.
  unfold Labelme.process_labelme_json, try_except.
  match goal with
  | |- context [match ?run with (_, _) => _ end] => destruct run as [[z|e] w']
  end; [by eauto|].
  rewrite run_when. by eauto.
Qed.

Lemma process_each_same_store pdf_doc verbose page_json_files :
  forall w1 w2, same_store w1 w2 ->
    same_store (process_each pdf_doc verbose page_json_files w1)
               (process_each pdf_doc verbose page_json_files w2).
Proof.
  induction page_json_files as [|[n path] rest IH]; intros w1 w2 Hw; [done|].
  cbn [process_each]. apply IH.
  by apply process_labelme_json_store_determined.
Qed.

(** The loop never aborts; it processes, in order, the entries whose index
    passes its test. *)
Lemma pages_loop_runs pdf_doc verbose page_json_files :
  forall total w, exists total' w',
    Labelme.pages_loop pdf_doc (page_count pdf_doc) verbose total page_json_files w
    = (Ok total', w')
    /\ same_store w'
         (process_each pdf_doc verbose
            (List.filter (below_page_count pdf_doc) page_json_files) w)
    /\ exists ms, stdout w' = (stdout w ++ ms)%list.
Proof.
  induction page_json_files as [|[n path] rest IH]; intros total w.
  - exists total, w. repeat split. exists []. by rewrite app_nil_r.
  - cbn [Labelme.pages_loop List.filter]. rewrite run_when.
    unfold below_page_count at 1. cbn [fst].
    destruct (Z.leb_spec (page_count pdf_doc) (n - 1)) as [Hbeyond|Hin].
    + destruct (Z.ltb_spec (n - 1) (page_count pdf_doc)) as [?|_]; [lia|].
      rewrite run_when.
      destruct (IH total (log (log w (if verbose then [Info "Processing page JSON"] else []))
                            (if verbose then [WarnPageBeyondDocument n (page_count pdf_doc)] else [])))
        as (total' & w' & Hrun & Hstore & ms & Hms).
      exists total', w'. split; [exact Hrun|]. split.
      * eapply same_store_trans; [exact Hstore|].
        apply process_each_same_store. by split.
      * rewrite Hms. simpl. rewrite <- !app_assoc. by eexists.
    + destruct (Z.ltb_spec (n - 1) (page_count pdf_doc)) as [_|?]; [|lia].
      rewrite run_bind.
      set (w0 := log w (if verbose then [Info "Processing page JSON"] else [])).
      destruct (process_labelme_json_returns path pdf_doc (n - 1) verbose w0)
        as (z & w1 & Hz).
      pose proof (process_labelme_json_store_determined path pdf_doc (n - 1)
                    verbose w0 w (same_store_log _ _)) as [_ Hsd].
      destruct (process_labelme_json_appends_only path pdf_doc (n - 1) verbose w0)
        as [ms1 Hms1].
      rewrite Hz in *. cbn [snd] in *.
      destruct (IH (if (0 <? z)%Z then total + z else total) w1)
        as (total' & w' & Hrun & Hstore & ms & Hms).
      exists total', w'. split; [exact Hrun|]. split.
      * cbn [process_each]. eapply same_store_trans; [exact Hstore|].
        by apply process_each_same_store.
      * rewrite Hms, Hms1. unfold w0. simpl. rewrite <- !app_assoc. by eexists.
Qed.

Lemma filter_in_page_range pdf_doc (page_json_files : list (Z * string)) :
  Forall (fun f => 1 <= fst f) page_json_files ->
  List.filter (in_page_range pdf_doc) page_json_files
  = List.filter (below_page_count pdf_doc) page_json_files.
Proof.
  induction 1 as [|f rest Hf _ IH]; [done|]. cbn [List.filter].
  unfold in_page_range at 1.
  destruct (Z.leb_spec 0 (fst f - 1)); [|lia]. cbn [andb].
  fold (below_page_count pdf_doc f). by rewrite IH.
Qed.

(** Once the folder, its [images] directory, at least one page file and the
    PDF are there, the run prints its headers (and the mismatch warning when
    the counts differ and the run is verbose) and enters the page loop. *)
Lemma labelme_run_reaches_loop
    (pdf_path layout_folder : string) (verbose : bool) (w : world)
    (pdf_doc : Document) (filenames : list string) :
  let images_dir := OsPath.join layout_folder "images" in
  let page_json_files :=
    Labelme.sort_by_key (Labelme.collect_page_files images_dir filenames) in
  is_Some (files w !! layout_folder) \/ is_Some (dirs w !! layout_folder) ->
  dirs w !! images_dir = Some filenames ->
  files w !! pdf_path = Some (FPdf pdf_doc) ->
  page_json_files <> [] ->
  exists ms,
    Labelme.process_pdf_layout_pair pdf_path layout_folder verbose w
    = (Labelme.pages_loop pdf_doc (page_count pdf_doc) verbose 0 page_json_files
       ≫= fun _ => when verbose (print (Info "SUCCESS: Processed shapes"));;
                   mret true)
        (log w (ms ++
                if negb (Z.of_nat (length page_json_files) =? page_count pdf_doc)%Z
                   && verbose
                then [WarnPageCountMismatch (page_count pdf_doc) (length page_json_files)]
                else [])).
Proof.
  intros images_dir page_json_files Hlayout Himages Hpdf Hfiles.
  unfold Labelme.process_pdf_layout_pair. fold images_dir.
  rewrite run_when, run_path_exists, !files_log, !dirs_log.
  rewrite bool_decide_eq_true_2 by done. cbn [negb].
  rewrite run_path_exists, !files_log, !dirs_log.
  rewrite bool_decide_eq_true_2 by (right; by rewrite Himages). cbn [negb].
  rewrite run_when, run_bind. unfold Labelme.get_page_json_files at 1.
  rewrite run_path_exists, !files_log, !dirs_log.
  rewrite bool_decide_eq_true_2 by (right; by rewrite Himages). cbn [negb].
  rewrite run_listdir, !dirs_log, Himages.
  cbn [mret M_ret]. fold page_json_files.
  destruct page_json_files as [|f rest] eqn:Hl; [done|]. rewrite <- Hl in *.
  rewrite run_when, run_try_except, run_fitz_open, !files_log, Hpdf.
  rewrite run_when. cbn [mret M_ret]. rewrite run_when.
  rewrite !log_log, !app_assoc. by eexists.
Qed.

(** C8, as the code has it.  A Dialect B group whose page files are numbered
    from 1: when the number of page files differs from the document's page
    count the run still returns success; every page file whose index [N - 1]
    lies in [0, pageCount) is processed, in ascending order, the others are
    skipped; the mismatch warning is printed when verbose. *)
Theorem page_count_mismatch_is_not_fatal
    (pdf_path layout_folder : string) (verbose : bool) (w : world)
    (pdf_doc : Document) (filenames : list string) :
  let images_dir := OsPath.join layout_folder "images" in
  let page_json_files :=
    Labelme.sort_by_key (Labelme.collect_page_files images_dir filenames) in
  is_Some (dirs w !! layout_folder) ->
  dirs w !! images_dir = Some filenames ->
  files w !! pdf_path = Some (FPdf pdf_doc) ->
  page_json_files <> [] ->
  Forall (fun f => 1 <= fst f) page_json_files ->
  Z.of_nat (length page_json_files) <> page_count pdf_doc ->
  exists w',
    Labelme.process_pdf_layout_pair pdf_path layout_folder verbose w = (Ok true, w')
    /\ same_store w'
         (process_each pdf_doc verbose
            (List.filter (in_page_range pdf_doc) page_json_files) w)
    /\ (verbose = true ->
        In (WarnPageCountMismatch (page_count pdf_doc) (length page_json_files))
           (stdout w')).
Proof.
  intros images_dir page_json_files Hlayout Himages Hpdf Hfiles Hnum Hmismatch.
  destruct (labelme_run_reaches_loop pdf_path layout_folder verbose w pdf_doc
              filenames (or_intror Hlayout) Himages Hpdf Hfiles) as [ms0 ->].
  fold images_dir page_json_files.
  destruct (Z.eqb_spec (Z.of_nat (length page_json_files)) (page_count pdf_doc))
    as [?|_]; [done|]. cbn [negb andb].
  rewrite run_bind.
  match goal with |- context [Labelme.pages_loop _ _ _ 0 _ ?u] => set (w0 := u) end.
  destruct (pages_loop_runs pdf_doc verbose page_json_files 0 w0)
    as (total & w1 & Hrun & Hstore & ms & Hms).
  rewrite Hrun, run_when. cbn [mret M_ret].
  eexists. split; [reflexivity|]. split.
  - rewrite filter_in_page_range by done.
    eapply same_store_trans; [apply same_store_log|].
    eapply same_store_trans; [exact Hstore|].
    apply process_each_same_store. by split.
  - intros ->. cbn [log stdout]. rewrite Hms. unfold w0. cbn [log stdout].
    rewrite !in_app_iff. cbn [In]. tauto.
Qed.

Lemma page_count_mismatch_is_not_fatal_witness :
  exists w',
    Labelme.process_pdf_layout_pair "pdfs/doc.pdf" "layouts/doc" true
      (layout_world one_page_doc ["page_3.json"; "page_1.json"]
         (labelme_page 1200 1600))
    = (Ok true, w')
    /\ In (WarnPageCountMismatch 1 2) (stdout w').
Proof.
  destruct (page_count_mismatch_is_not_fatal "pdfs/doc.pdf" "layouts/doc" true
              (layout_world one_page_doc ["page_3.json"; "page_1.json"]
                 (labelme_page 1200 1600))
              one_page_doc ["page_3.json"; "page_1.json"])
    as (w' & Hrun & _ & Hwarn).
  - by eexists.
  - reflexivity.
  - reflexivity.
  - by vm_compute.
  - vm_compute. repeat constructor; discriminate.
  - by vm_compute.
  - exists w'. split; [exact Hrun|]. by apply Hwarn.
Defined.

(** C8 as stated fails in two ways.  Run quietly, a group of two page files
    for a one-page document prints no warning at all.  And a page file
    numbered 0, whose index -1 lies outside [0, pageCount), is not skipped:
    it is processed against the last page of the document. *)
Lemma page_count_mismatch_counterexample :
  (let w := layout_world one_page_doc ["page_3.json"; "page_1.json"]
              (labelme_page 1200 1600) in
   let '(r, w') := Labelme.process_pdf_layout_pair "pdfs/doc.pdf" "layouts/doc" false w in
   r = Ok true /\ stdout w' = [])
  /\
  (let w := layout_world one_page_doc ["page_0.json"; "page_1.json"]
              (labelme_page 1200 1600) in
   let '(r, w') := Labelme.process_pdf_layout_pair "pdfs/doc.pdf" "layouts/doc" true w in
   in_page_range one_page_doc (0, "layouts/doc/images/page_0.json") = false
   /\ match files w' !! "layouts/doc/images/page_0.json" with
      | Some (FJson data) => map text_layer_of (shapes_of data)
      | _ => []
      end = [Some (JStr "hello")]).
Proof. split; vm_compute; by split. Qed.

(** ** Running a pipeline twice *)

Lemma annotation_step_value coco_data pdf_doc i annotation w :
  fst (Coco.annotation_step coco_data pdf_doc i annotation w)
  = annotation_value coco_data pdf_doc annotation.
Proof.
  unfold Coco.annotation_step. rewrite run_when.
  destruct annotation as [| | | | | |d];
    try (cbn [getitem_key]; by rewrite run_lift_raise).
  unfold annotation_value, annotation_outcome.
  destruct (getitem_key (JObj d) "image_id") as [image_id|e];
    [rewrite run_lift_ok|by rewrite run_lift_raise].
  destruct (getitem_key (JObj d) "bbox") as [bbox|e];
    [rewrite run_lift_ok|by rewrite run_lift_raise].
  cbn [mbind result_bind].
  destruct (Coco.get_page_number_from_image_id coco_data image_id) as [page_num|e];
    [rewrite run_lift_ok|by rewrite run_lift_raise].
  cbn [mbind result_bind]. unfold try_except.
  destruct (Coco.extract_text_from_bbox pdf_doc page_num bbox) as [text|e].
  - rewrite run_lift_ok. cbn [setitem_key]. rewrite run_lift_ok.
    destruct (50 <? String.length text)%nat; [|done].
    unfold when. rewrite run_bind, run_bind.
    assert (getitem_key (JObj (dict_set text_layer_key (JStr text) d)) "id"
            = getitem_key (JObj d) "id") as ->.
    { cbn [getitem_key]. by rewrite dict_lookup_set_ne. }
    destruct (getitem_key (JObj d) "id") as [id|e]; cbn [lift]; [done|].
    by rewrite run_lift_raise.
  - rewrite run_lift_raise.
    destruct (getitem_key (JObj d) "id") as [id|e'];
      [rewrite run_lift_ok|by rewrite run_lift_raise].
    rewrite run_print. cbn [setitem_key]. by rewrite run_lift_ok.
Qed.

Lemma shape_step_value pdf_doc page_num iw ih verbose shape w :
  fst (Labelme.shape_step pdf_doc page_num iw ih verbose shape w)
  = shape_value pdf_doc page_num iw ih shape.
Proof.
  unfold Labelme.shape_step.
  destruct shape as [| | | | s | l | d]; cbn [py_in shape_value];
    try by rewrite run_lift_raise.
  - rewrite run_lift_ok. destruct (contains s "points").
    + rewrite run_bind. cbn [getitem_key]. by rewrite run_lift_raise.
    + cbn [mret M_ret]. rewrite run_ret, run_when. cbn [setitem_key].
      by rewrite run_lift_raise.
  - rewrite run_lift_ok. destruct (existsb _ l).
    + rewrite run_bind. cbn [getitem_key]. by rewrite run_lift_raise.
    + cbn [mret M_ret]. rewrite run_ret, run_when. cbn [setitem_key].
      by rewrite run_lift_raise.
  - rewrite run_lift_ok. unfold shape_outcome. cbn [getitem_key].
    destruct (dict_lookup "points" d) as [points|].
    + rewrite bool_decide_eq_true_2 by done. rewrite run_bind, run_lift_ok.
      destruct (py_len points) as [n|e]; [|by rewrite run_lift_raise].
      rewrite run_lift_ok. cbn [mret M_ret mbind result_bind].
      destruct (2 <=? n)%nat.
      * unfold try_except. rewrite run_lift_ok.
        destruct (Labelme.extract_text_from_labelme_bbox _ _ _ _ _) as [text|e].
        -- rewrite run_lift_ok. cbn [setitem_key]. rewrite run_lift_ok.
           destruct (verbose && (30 <? String.length text)%nat);
             [by rewrite run_print|by rewrite run_when].
        -- rewrite run_lift_raise, run_when. cbn [setitem_key].
           by rewrite run_lift_ok.
      * rewrite run_when. cbn [setitem_key]. by rewrite run_lift_ok.
    + rewrite bool_decide_eq_false_2 by (by intros [? ?]).
      cbn [mret M_ret]. rewrite run_ret, run_when. cbn [setitem_key].
      by rewrite run_lift_ok.
Qed.

Lemma regions_value_settles (step step' : json -> result (json * nat)) :
  (forall x x' c, step x = Ok (x', c) -> step' x' = Ok (x', c)) ->
  forall l l' n, regions_value step l = Ok (l', n) ->
                 regions_value step' l' = Ok (l', n).
Proof.
  intros Hstep. induction l as [|x l IH]; intros l' n; cbn [regions_value].
  - by intros [= <- <-].
  - destruct (step x) as [[x' c]|e] eqn:Hx; [|done]. cbn [mbind result_bind].
    destruct (regions_value step l) as [[l0 n0]|e] eqn:Hl; [|done].
    cbn [mbind result_bind]. intros [= <- <-]. cbn [regions_value].
    rewrite (Hstep _ _ _ Hx). cbn [mbind result_bind].
    by rewrite (IH _ _ eq_refl).
Qed.

Lemma annotations_loop_value coco_data pdf_doc annotations :
  forall i w,
    fst (Coco.annotations_loop coco_data pdf_doc i annotations w)
    = regions_value (annotation_value coco_data pdf_doc) annotations.
Proof.
  induction annotations as [|a rest IH]; intros i w; [done|].
  cbn [Coco.annotations_loop regions_value]. rewrite run_bind.
  rewrite <- (annotation_step_value coco_data pdf_doc i a w).
  destruct (Coco.annotation_step coco_data pdf_doc i a w) as [[[a' c]|e] w']; [|done].
  cbn [fst mbind result_bind]. rewrite run_bind.
  rewrite <- (IH (S i) w').
  by destruct (Coco.annotations_loop coco_data pdf_doc (S i) rest w')
    as [[[rest' n]|e] w''].
Qed.

Lemma shapes_loop_value pdf_doc page_num iw ih verbose shapes :
  forall w,
    fst (Labelme.shapes_loop pdf_doc page_num iw ih verbose shapes w)
    = regions_value (shape_value pdf_doc page_num iw ih) shapes.
Proof.
  induction shapes as [|s rest IH]; intros w; [done|].
  cbn [Labelme.shapes_loop regions_value]. rewrite run_bind.
  rewrite <- (shape_step_value pdf_doc page_num iw ih verbose s w).
  destruct (Labelme.shape_step pdf_doc page_num iw ih verbose s w)
    as [[[s' c]|e] w']; [|done].
  cbn [fst mbind result_bind]. rewrite run_bind.
  rewrite <- (IH w').
  by destruct (Labelme.shapes_loop pdf_doc page_num iw ih verbose rest w')
    as [[[rest' n]|e] w''].
Qed.

Lemma text_layer_key_other (k : string) :
  k = "points" \/ k = "image_id" \/ k = "bbox" \/ k = "id" \/ k = "shapes"
  \/ k = "annotations" \/ k = "images" \/ k = "imageWidth" \/ k = "imageHeight" ->
  text_layer_key <> k.
Proof. intros H. unfold text_layer_key. intuition (subst; discriminate). Qed.

Lemma shape_value_settles pdf_doc page_num iw ih shape shape' c :
  shape_value pdf_doc page_num iw ih shape = Ok (shape', c) ->
  shape_value pdf_doc page_num iw ih shape' = Ok (shape', c).
Proof.
  destruct shape as [| | | | | |d]; try done. cbn [shape_value].
  destruct (shape_outcome pdf_doc page_num iw ih d) as [[text n]|e] eqn:Hout; [|done].
  cbn [mbind result_bind]. intros [= <- <-]. unfold attach. cbn [shape_value].
  assert (shape_outcome pdf_doc page_num iw ih (dict_set text_layer_key (JStr text) d)
          = Ok (text, n)) as ->.
  { rewrite <- Hout. unfold shape_outcome.
    rewrite dict_lookup_set_ne; [done|]. apply text_layer_key_other. tauto. }
  cbn [mbind result_bind]. unfold attach. by rewrite dict_set_set.
Qed.

Lemma annotation_value_settles coco_data coco_data' pdf_doc annotation annotation' c :
  (forall image_id, Coco.get_page_number_from_image_id coco_data' image_id
                    = Coco.get_page_number_from_image_id coco_data image_id) ->
  annotation_value coco_data pdf_doc annotation = Ok (annotation', c) ->
  annotation_value coco_data' pdf_doc annotation' = Ok (annotation', c).
Proof.
  intros Hsame. destruct annotation as [| | | | | |d]; try done.
  cbn [annotation_value].
  destruct (annotation_outcome coco_data pdf_doc d) as [[text n]|e] eqn:Hout; [|done].
  cbn [mbind result_bind]. intros [= <- <-]. unfold attach. cbn [annotation_value].
  assert (annotation_outcome coco_data' pdf_doc (dict_set text_layer_key (JStr text) d)
          = Ok (text, n)) as ->.
  { rewrite <- Hout. unfold annotation_outcome. cbn [getitem_key].
    rewrite !dict_lookup_set_ne by (apply text_layer_key_other; tauto).
    destruct (dict_lookup "image_id" d); [|done]. cbn [mbind result_bind].
    destruct (dict_lookup "bbox" d); [|done]. cbn [mbind result_bind].
    by rewrite Hsame. }
  cbn [mbind result_bind]. unfold attach. by rewrite dict_set_set.
Qed.

Lemma augment_page_settles pdf_doc page_num data data' :
  augment_page pdf_doc page_num data = Some data' ->
  augment_page pdf_doc page_num data' = Some data'.
Proof.
  unfold augment_page.
  destruct data as [| | | | | |d]; try done;
    try (by destruct (py_in _ _) as [[]|]).
  cbn [py_in get_default mbind result_bind].
  destruct (dict_lookup "shapes" d) as [shapes|] eqn:Hshapes.
  2:{ by rewrite bool_decide_eq_false_2 by (by intros [? ?]). }
  rewrite bool_decide_eq_true_2 by done.
  change (default (JArr []) (Some shapes)) with shapes.
  destruct (py_iter shapes) as [items|e] eqn:Hiter; [|done].
  destruct (py_eq _ _ || py_eq _ _) eqn:Hzero; [done|].
  destruct (regions_value _ items) as [[items' n]|e] eqn:Hloop; [|done].
  intros [= <-]. unfold Labelme.store_shapes. rewrite Hshapes.
  destruct shapes as [| | | | s | l | fields]; try done.
  - (* shapes is a string: iterating it had to yield nothing *)
    cbn [py_in get_default mbind result_bind]. rewrite Hshapes.
    rewrite bool_decide_eq_true_2 by done.
    match goal with |- context [default ?x (Some ?y)] =>
      change (default x (Some y)) with y end.
    rewrite Hiter, Hzero, Hloop.
    unfold Labelme.store_shapes. by rewrite ?Hshapes.
  - cbn [py_in get_default mbind result_bind].
    rewrite dict_lookup_set_eq.
    rewrite !dict_lookup_set_ne by done.
    rewrite bool_decide_eq_true_2 by done.
    match goal with |- context [default ?x (Some ?y)] =>
      change (default x (Some y)) with y end.
    cbn [py_iter]. rewrite Hzero.
    injection Hiter as <-.
    rewrite (regions_value_settles _ _ (shape_value_settles pdf_doc page_num _ _) _ _ _ Hloop).
    unfold Labelme.store_shapes. rewrite ?dict_lookup_set_eq. by rewrite ?dict_set_set.
  - cbn [py_in get_default mbind result_bind]. rewrite Hshapes.
    rewrite bool_decide_eq_true_2 by done.
    match goal with |- context [default ?x (Some ?y)] =>
      change (default x (Some y)) with y end.
    rewrite Hiter, Hzero, Hloop.
    unfold Labelme.store_shapes. by rewrite ?Hshapes.
Qed.

Lemma process_labelme_json_effect json_path pdf_doc page_num verbose w :
  let w' := snd (Labelme.process_labelme_json json_path pdf_doc page_num verbose w) in
  files w' = page_effect pdf_doc page_num json_path (files w) /\ dirs w' = dirs w.
Proof.
  unfold Labelme.process_labelme_json, try_except, page_effect.
  rewrite run_json_load.
  destruct (files w !! json_path) as [[data| |]|]; try (by rewrite run_when).
  unfold augment_page.
  destruct (py_in "shapes" data) as [[|]|e];
    [rewrite run_lift_ok|rewrite run_lift_ok
    |rewrite run_lift_raise, run_when; by split]; cbn [negb].
  2:{ by rewrite run_when. }
  destruct (get_default data "imageWidth" (JInt 0)) as [iw|e];
    [rewrite run_lift_ok|rewrite run_lift_raise, run_when; by split].
  destruct (get_default data "imageHeight" (JInt 0)) as [ih|e];
    [rewrite run_lift_ok|rewrite run_lift_raise, run_when; by split].
  destruct (py_eq iw (JInt 0) || py_eq ih (JInt 0)).
  { rewrite run_when. cbn [mret M_ret fst snd]. split; [|done].
    by destruct (get_default data "shapes" (JArr []) ≫= py_iter). }
  destruct (get_default data "shapes" (JArr [])) as [shapes|e];
    [rewrite run_lift_ok|rewrite run_lift_raise, run_when; by split].
  cbn [mbind result_bind].
  destruct (py_iter shapes) as [items|e];
    [rewrite run_lift_ok|rewrite run_lift_raise, run_when; by split].
  rewrite run_bind.
  rewrite <- (shapes_loop_value pdf_doc page_num iw ih verbose items w).
  destruct (shapes_loop_logs_only pdf_doc page_num iw ih verbose items)
    as (r & ms & Hloop). rewrite Hloop. cbn [fst].
  destruct r as [[items' n]|e]; [|by rewrite run_when].
  rewrite run_json_dump, run_when. cbn [mret M_ret fst snd]. done.
Qed.

Lemma page_effect_other pdf_doc page_num p q fs :
  q <> p -> page_effect pdf_doc page_num p fs !! q = fs !! q.
Proof.
  intros Hne. unfold page_effect.
  destruct (fs !! p) as [[data| |]|]; try done.
  destruct (augment_page pdf_doc page_num data); [|done].
  by rewrite lookup_insert_ne.
Qed.

Lemma page_effect_settled pdf_doc page_num p fs :
  settled pdf_doc page_num (page_effect pdf_doc page_num p fs !! p).
Proof.
  unfold page_effect.
  destruct (fs !! p) as [[data| |]|] eqn:Hp; try by rewrite Hp.
  destruct (augment_page pdf_doc page_num data) as [data'|] eqn:Haug.
  - rewrite lookup_insert_eq. cbn [settled].
    by rewrite (augment_page_settles _ _ _ _ Haug).
  - rewrite Hp. cbn [settled]. by rewrite Haug.
Qed.

Lemma page_effect_fixed pdf_doc page_num p fs :
  settled pdf_doc page_num (fs !! p) -> page_effect pdf_doc page_num p fs = fs.
Proof.
  unfold page_effect, settled.
  destruct (fs !! p) as [[data| |]|] eqn:Hp; try done.
  destruct (augment_page pdf_doc page_num data) as [data'|]; [|done].
  intros ->. by apply insert_id.
Qed.

Lemma pages_effect_other pdf_doc page_json_files p :
  ~ In p (map snd page_json_files) ->
  forall fs, pages_effect pdf_doc page_json_files fs !! p = fs !! p.
Proof.
  unfold pages_effect.
  induction page_json_files as [|f rest IH]; intros Hp fs; [done|].
  cbn [fold_left]. rewrite IH.
  - apply page_effect_other. intros ->. apply Hp. by left.
  - intros Hin. apply Hp. by right.
Qed.

Lemma pages_effect_settled pdf_doc page_json_files :
  one_number_per_path page_json_files ->
  forall fs,
    Forall (fun f => settled pdf_doc (fst f - 1)
                       (pages_effect pdf_doc page_json_files fs !! snd f))
           page_json_files.
Proof.
  induction page_json_files as [|f rest IH]; intros Hfun fs; [constructor|].
  assert (Hrest : one_number_per_path rest).
  { intros g h Hg Hh. apply Hfun; by right. }
  unfold pages_effect. cbn [fold_left].
  fold (pages_effect pdf_doc rest (page_effect pdf_doc (fst f - 1) (snd f) fs)).
  constructor; [|by apply IH].
  destruct (in_dec string_dec (snd f) (map snd rest)) as [Hin|Hout].
  - apply in_map_iff in Hin as (g & Hpath & Hg).
    pose proof (IH Hrest (page_effect pdf_doc (fst f - 1) (snd f) fs)) as Hall.
    rewrite List.Forall_forall in Hall. specialize (Hall g Hg).
    rewrite Hpath in Hall.
    by rewrite <- (Hfun f g (or_introl eq_refl) (or_intror Hg) (eq_sym Hpath)) in Hall.
  - rewrite pages_effect_other by done. apply page_effect_settled.
Qed.

Lemma pages_effect_fixed pdf_doc page_json_files fs :
  Forall (fun f => settled pdf_doc (fst f - 1) (fs !! snd f)) page_json_files ->
  pages_effect pdf_doc page_json_files fs = fs.
Proof.
  unfold pages_effect. induction 1 as [|f rest Hf _ IH]; [done|].
  cbn [fold_left]. by rewrite page_effect_fixed.
Qed.

Lemma pages_effect_idempotent pdf_doc page_json_files fs :
  one_number_per_path page_json_files ->
  pages_effect pdf_doc page_json_files (pages_effect pdf_doc page_json_files fs)
  = pages_effect pdf_doc page_json_files fs.
Proof. intros Hfun. by apply pages_effect_fixed, pages_effect_settled. Qed.

Lemma process_each_effect pdf_doc verbose page_json_files :
  forall w,
    files (process_each pdf_doc verbose page_json_files w)
    = pages_effect pdf_doc page_json_files (files w)
    /\ dirs (process_each pdf_doc verbose page_json_files w) = dirs w.
Proof.
  unfold pages_effect.
  induction page_json_files as [|[n path] rest IH]; intros w; [done|].
  cbn [process_each fold_left fst snd].
  destruct (process_labelme_json_effect path pdf_doc (n - 1) verbose w) as [Hf Hd].
  destruct (IH (snd (Labelme.process_labelme_json path pdf_doc (n - 1) verbose w)))
    as [Hf' Hd'].
  by rewrite Hf', Hd', Hf, Hd.
Qed.

Lemma labelme_run_effect pdf_path layout_folder verbose w :
  let w' := snd (Labelme.process_pdf_layout_pair pdf_path layout_folder verbose w) in
  files w' = labelme_effect pdf_path layout_folder (files w) (dirs w)
  /\ dirs w' = dirs w.
Proof.
  unfold labelme_effect.
  set (images_dir := OsPath.join layout_folder "images").
  destruct (decide (is_Some (files w !! layout_folder) \/ is_Some (dirs w !! layout_folder)))
    as [Hlayout|Hlayout].
  2:{ rewrite bool_decide_eq_false_2 by done.
      unfold Labelme.process_pdf_layout_pair.
      rewrite run_when, run_path_exists, !files_log, !dirs_log.
      rewrite bool_decide_eq_false_2 by done. cbn [negb]. by rewrite run_when. }
  rewrite bool_decide_eq_true_2 by done.
  destruct (dirs w !! images_dir) as [filenames|] eqn:Himages.
  2:{ unfold Labelme.process_pdf_layout_pair. fold images_dir.
      rewrite run_when, run_path_exists, !files_log, !dirs_log.
      rewrite bool_decide_eq_true_2 by done. cbn [negb].
      rewrite run_path_exists, !files_log, !dirs_log.
      case_bool_decide; cbn [negb]; [|by rewrite run_when].
      rewrite run_when, run_bind. unfold Labelme.get_page_json_files.
      rewrite run_path_exists, !files_log, !dirs_log.
      rewrite bool_decide_eq_true_2 by done. cbn [negb].
      by rewrite run_listdir, !dirs_log, Himages. }
  set (page_json_files :=
         Labelme.sort_by_key (Labelme.collect_page_files images_dir filenames)).
  destruct page_json_files as [|f rest] eqn:Hl.
  { unfold Labelme.process_pdf_layout_pair. fold images_dir.
    rewrite run_when, run_path_exists, !files_log, !dirs_log.
    rewrite bool_decide_eq_true_2 by done. cbn [negb].
    rewrite run_path_exists, !files_log, !dirs_log.
    rewrite bool_decide_eq_true_2 by (right; by rewrite Himages). cbn [negb].
    rewrite run_when, run_bind. unfold Labelme.get_page_json_files.
    rewrite run_path_exists, !files_log, !dirs_log.
    rewrite bool_decide_eq_true_2 by (right; by rewrite Himages). cbn [negb].
    rewrite run_listdir, !dirs_log, Himages. cbn [mret M_ret].
    fold page_json_files. rewrite Hl. by rewrite run_when. }
  destruct (files w !! pdf_path) as [[j|pdf_doc|]|] eqn:Hpdf.
  2:{ destruct (labelme_run_reaches_loop pdf_path layout_folder verbose w pdf_doc
                  filenames Hlayout Himages Hpdf) as [ms ->].
      { fold images_dir page_json_files. by rewrite Hl. }
      fold images_dir page_json_files. rewrite <- Hl. rewrite run_bind.
      match goal with |- context [Labelme.pages_loop _ _ _ 0 _ ?u] => set (w0 := u) end.
      destruct (pages_loop_runs pdf_doc verbose page_json_files 0 w0)
        as (total & w1 & Hrun & [Hf Hd] & _).
      rewrite Hrun, run_when. cbn [mret M_ret snd]. rewrite files_log, dirs_log.
      rewrite Hf, Hd.
      destruct (process_each_effect pdf_doc verbose
                  (List.filter (below_page_count pdf_doc) page_json_files) w0)
        as [-> ->].
      by unfold w0. }
  all: unfold Labelme.process_pdf_layout_pair; fold images_dir;
    rewrite run_when, run_path_exists, !files_log, !dirs_log;
    rewrite bool_decide_eq_true_2 by done; cbn [negb];
    rewrite run_path_exists, !files_log, !dirs_log;
    rewrite bool_decide_eq_true_2 by (right; by rewrite Himages); cbn [negb];
    rewrite run_when, run_bind; unfold Labelme.get_page_json_files;
    rewrite run_path_exists, !files_log, !dirs_log;
    rewrite bool_decide_eq_true_2 by (right; by rewrite Himages); cbn [negb];
    rewrite run_listdir, !dirs_log, Himages; cbn [mret M_ret];
    fold page_json_files; rewrite Hl;
    rewrite run_when, run_try_except, run_fitz_open, !files_log, Hpdf;
    by rewrite run_bind, run_when.
Qed.

Lemma rewrites_json_only_refl fs : rewrites_json_only fs fs.
Proof. intros p. by left. Qed.

Lemma rewrites_json_only_trans fs1 fs2 fs3 :
  rewrites_json_only fs1 fs2 -> rewrites_json_only fs2 fs3 ->
  rewrites_json_only fs1 fs3.
Proof.
  intros H12 H23 p.
  destruct (H12 p) as [E12|(j & j' & E1 & E2)], (H23 p) as [E23|(k & k' & E2' & E3)].
  - left. congruence.
  - right. exists k, k'. split; congruence.
  - right. exists j, j'. split; congruence.
  - right. exists j, k'. split; congruence.
Qed.

Lemma rewrites_json_only_insert fs p j j' :
  fs !! p = Some (FJson j) -> rewrites_json_only fs (<[p := FJson j']> fs).
Proof.
  intros Hp q. destruct (decide (p = q)) as [<-|Hne].
  - right. exists j, j'. by rewrite lookup_insert_eq.
  - left. by rewrite lookup_insert_ne.
Qed.

Lemma rewrites_json_only_exists fs fs' p :
  rewrites_json_only fs fs' -> is_Some (fs' !! p) <-> is_Some (fs !! p).
Proof.
  intros H. destruct (H p) as [->|(j & j' & -> & ->)]; [done|].
  split; by eexists.
Qed.

Lemma rewrites_json_only_pdf fs fs' p d :
  rewrites_json_only fs fs' -> fs !! p = Some (FPdf d) -> fs' !! p = Some (FPdf d).
Proof. intros H Hp. destruct (H p) as [->|(j & j' & E & _)]; congruence. Qed.

Lemma page_effect_rewrites_json_only pdf_doc page_num p fs :
  rewrites_json_only fs (page_effect pdf_doc page_num p fs).
Proof.
  unfold page_effect.
  destruct (fs !! p) as [[data| |]|] eqn:Hp; try apply rewrites_json_only_refl.
  destruct (augment_page pdf_doc page_num data); [|apply rewrites_json_only_refl].
  by eapply rewrites_json_only_insert.
Qed.

Lemma pages_effect_rewrites_json_only pdf_doc page_json_files :
  forall fs, rewrites_json_only fs (pages_effect pdf_doc page_json_files fs).
Proof.
  unfold pages_effect.
  induction page_json_files as [|f rest IH]; intros fs; cbn [fold_left].
  - apply rewrites_json_only_refl.
  - eapply rewrites_json_only_trans; [apply page_effect_rewrites_json_only|apply IH].
Qed.

Lemma labelme_effect_cases pdf_path layout_folder fs ds :
  labelme_effect pdf_path layout_folder fs ds = fs
  \/ exists pdf_doc filenames,
       (is_Some (fs !! layout_folder) \/ is_Some (ds !! layout_folder))
       /\ ds !! OsPath.join layout_folder "images" = Some filenames
       /\ Labelme.sort_by_key
            (Labelme.collect_page_files (OsPath.join layout_folder "images") filenames)
          <> []
       /\ fs !! pdf_path = Some (FPdf pdf_doc)
       /\ labelme_effect pdf_path layout_folder fs ds
          = pages_effect pdf_doc
              (List.filter (below_page_count pdf_doc)
                 (Labelme.sort_by_key
                    (Labelme.collect_page_files
                       (OsPath.join layout_folder "images") filenames))) fs.
Proof.
  unfold labelme_effect.
  case_bool_decide as Hlayout; [|by left].
  destruct (ds !! OsPath.join layout_folder "images") as [filenames|] eqn:Himages;
    [|by left].
  destruct (Labelme.sort_by_key _) as [|f rest] eqn:Hl; [by left|].
  destruct (fs !! pdf_path) as [[j|pdf_doc|]|] eqn:Hpdf; try by left.
  right. exists pdf_doc, filenames. rewrite Hl. by repeat split.
Qed.

Lemma labelme_effect_positive pdf_path layout_folder fs ds pdf_doc filenames :
  is_Some (fs !! layout_folder) \/ is_Some (ds !! layout_folder) ->
  ds !! OsPath.join layout_folder "images" = Some filenames ->
  Labelme.sort_by_key
    (Labelme.collect_page_files (OsPath.join layout_folder "images") filenames)
  <> [] ->
  fs !! pdf_path = Some (FPdf pdf_doc) ->
  labelme_effect pdf_path layout_folder fs ds
  = pages_effect pdf_doc
      (List.filter (below_page_count pdf_doc)
         (Labelme.sort_by_key
            (Labelme.collect_page_files
               (OsPath.join layout_folder "images") filenames))) fs.
Proof.
  intros Hlayout Himages Hl Hpdf. unfold labelme_effect.
  rewrite bool_decide_eq_true_2 by done. rewrite Himages, Hpdf.
  by destruct (Labelme.sort_by_key _).
Qed.

Lemma labelme_effect_idempotent pdf_path layout_folder fs ds :
  labelme_effect pdf_path layout_folder
    (labelme_effect pdf_path layout_folder fs ds) ds
  = labelme_effect pdf_path layout_folder fs ds.
Proof.
  destruct (labelme_effect_cases pdf_path layout_folder fs ds)
    as [E|(pdf_doc & filenames & Hlayout & Himages & Hl & Hpdf & E)];
    [by rewrite !E|].
  rewrite E.
  pose proof (pages_effect_rewrites_json_only pdf_doc
                (List.filter (below_page_count pdf_doc)
                   (Labelme.sort_by_key
                      (Labelme.collect_page_files
                         (OsPath.join layout_folder "images") filenames))) fs) as Hkind.
  rewrite (labelme_effect_positive _ _ _ _ pdf_doc filenames); try done.
  - apply pages_effect_idempotent, page_files_one_number_per_path.
  - destruct Hlayout as [?|?]; [left|by right].
    by apply (rewrites_json_only_exists _ _ _ Hkind).
  - by apply (rewrites_json_only_pdf _ _ _ _ Hkind).
Qed.

Lemma resolver_ignores_annotations d annotations image_id :
  Coco.get_page_number_from_image_id
    (JObj (dict_set "annotations" annotations d)) image_id
  = Coco.get_page_number_from_image_id (JObj d) image_id.
Proof.
  unfold Coco.get_page_number_from_image_id. cbn [get_default].
  by rewrite dict_lookup_set_ne.
Qed.

Lemma augment_group_settles pdf_doc coco_data coco_data' :
  augment_group pdf_doc coco_data = Some coco_data' ->
  augment_group pdf_doc coco_data' = Some coco_data'.
Proof.
  unfold augment_group.
  destruct coco_data as [| | | | | |d]; try done. cbn [get_default].
  destruct (dict_lookup "annotations" d) as [annotations|] eqn:Hann.
  2:{ cbn [default from_option py_len py_iter regions_value].
      unfold Coco.store_annotations at 1. rewrite Hann.
      intros [= <-]. cbn [get_default]. rewrite Hann.
      cbn [default from_option py_len py_iter regions_value].
      unfold Coco.store_annotations. by rewrite Hann. }
  change (default (JArr []) (Some annotations)) with annotations.
  destruct (py_len annotations) as [len|e] eqn:Hlen; [|done].
  destruct (py_iter annotations) as [items|e] eqn:Hiter; [|done].
  destruct (regions_value _ items) as [[items' n]|e] eqn:Hloop; [|done].
  intros [= <-]. unfold Coco.store_annotations. rewrite Hann.
  destruct annotations as [| | | | s | l | fields]; try done.
  - cbn [get_default]. rewrite Hann.
    change (default (JArr []) (Some (JStr s))) with (JStr s).
    rewrite Hlen, Hiter, Hloop. unfold Coco.store_annotations. by rewrite ?Hann.
  - cbn [get_default]. rewrite dict_lookup_set_eq.
    match goal with |- context [default ?x (Some ?y)] =>
      change (default x (Some y)) with y end.
    cbn [py_len py_iter]. injection Hiter as <-.
    rewrite (regions_value_settles _
               (annotation_value (JObj (dict_set "annotations" (JArr items') d)) pdf_doc)
               (fun x x' c => annotation_value_settles (JObj d) _ pdf_doc x x' c
                                (resolver_ignores_annotations d (JArr items')))
               _ _ _ Hloop).
    unfold Coco.store_annotations. rewrite ?dict_lookup_set_eq. by rewrite ?dict_set_set.
  - cbn [get_default]. rewrite Hann.
    change (default (JArr []) (Some (JObj fields))) with (JObj fields).
    rewrite Hlen, Hiter, Hloop. unfold Coco.store_annotations. by rewrite ?Hann.
Qed.

Lemma coco_run_effect pdf_path layout_folder w :
  let w' := snd (Coco.process_pdf_layout_pair pdf_path layout_folder w) in
  files w' = coco_effect pdf_path layout_folder (files w) (dirs w)
  /\ dirs w' = dirs w.
Proof.
  unfold coco_effect, Coco.process_pdf_layout_pair.
  rewrite run_print, run_path_exists, !files_log, !dirs_log.
  case_bool_decide as Hlayout; cbn [negb]; [|by rewrite run_print].
  rewrite run_bind. unfold Coco.find_coco_json. rewrite run_listdir, !dirs_log.
  destruct (dirs w !! layout_folder) as [names|]; [|done].
  cbn [mret M_ret mbind option_bind].
  destruct (Coco.select_coco_json layout_folder names) as [coco_json_path|];
    [|by rewrite run_print].
  rewrite run_print, run_try_except, run_json_load, !files_log.
  destruct (files w !! coco_json_path) as [[coco_data| |]|];
    try (rewrite run_bind, run_print; by destruct (files w !! pdf_path) as [[]|]).
  cbn [mret M_ret]. rewrite run_try_except, run_fitz_open, !files_log.
  destruct (files w !! pdf_path) as [[|pdf_doc|]|];
    try by rewrite run_bind, run_print.
  rewrite run_print. cbn [mret M_ret]. unfold augment_group.
  destruct (get_default coco_data "annotations" (JArr [])) as [annotations|e];
    [rewrite run_lift_ok|by rewrite run_lift_raise].
  destruct (py_len annotations) as [len|e];
    [rewrite run_lift_ok|by rewrite run_lift_raise].
  rewrite run_print.
  destruct (py_iter annotations) as [items|e];
    [rewrite run_lift_ok|by rewrite run_lift_raise].
  rewrite run_bind.
  match goal with |- context [Coco.annotations_loop _ _ _ _ ?u] => set (w0 := u) end.
  rewrite <- (annotations_loop_value coco_data pdf_doc items 0%nat w0).
  destruct (annotations_loop_logs_only coco_data pdf_doc items 0%nat)
    as (r & ms & Hloop). rewrite Hloop. cbn [fst].
  destruct r as [[items' n]|e]; [|done].
  unfold try_except. rewrite run_json_dump, run_print. by cbn.
Qed.

Lemma coco_effect_idempotent pdf_path layout_folder fs ds :
  coco_effect pdf_path layout_folder (coco_effect pdf_path layout_folder fs ds) ds
  = coco_effect pdf_path layout_folder fs ds.
Proof.
  assert (coco_effect pdf_path layout_folder fs ds = fs
          \/ exists coco_json_path coco_data coco_data' pdf_doc,
               (is_Some (fs !! layout_folder) \/ is_Some (ds !! layout_folder))
               /\ ds !! layout_folder ≫= Coco.select_coco_json layout_folder
                  = Some coco_json_path
               /\ fs !! coco_json_path = Some (FJson coco_data)
               /\ fs !! pdf_path = Some (FPdf pdf_doc)
               /\ augment_group pdf_doc coco_data = Some coco_data'
               /\ coco_effect pdf_path layout_folder fs ds
                  = <[coco_json_path := FJson coco_data']> fs)
    as [E|(path & data & data' & pdf_doc & Hlayout & Hpath & Hdata & Hpdf & Haug & E)].
  { unfold coco_effect. case_bool_decide as Hlayout; [|by left].
    destruct (ds !! layout_folder ≫= _) as [path|]; [|by left].
    destruct (fs !! path) as [[data| |]|] eqn:Hdata; try by left.
    destruct (fs !! pdf_path) as [[|pdf_doc|]|] eqn:Hpdf; try by left.
    destruct (augment_group pdf_doc data) as [data'|] eqn:Haug; [|by left].
    right. by exists path, data, data', pdf_doc. }
  { by rewrite !E. }
  rewrite E. unfold coco_effect. rewrite Hpath.
  assert (path <> pdf_path) as Hne by congruence.
  rewrite lookup_insert_eq, (lookup_insert_ne _ path pdf_path), Hpdf by done.
  rewrite (augment_group_settles _ _ _ Haug), insert_insert_eq.
  rewrite bool_decide_eq_true_2; [done|].
  destruct Hlayout as [Hfile|?]; [left|by right].
  destruct (decide (path = layout_folder)) as [<-|?].
  - rewrite lookup_insert_eq. by eexists.
  - by rewrite lookup_insert_ne.
Qed.

(** C9. Running either pipeline a second time on what the first run left
    behind changes no file and no directory: every region is assigned the
    same text again, and assigning the text-layer field to a region that
    already carries it overwrites the value without adding a key. *)
Theorem rerun_changes_nothing
    (pdf_path layout_folder : string) (verbose : bool) (w : world) :
  let once_a := snd (Coco.process_pdf_layout_pair pdf_path layout_folder w) in
  let twice_a := snd (Coco.process_pdf_layout_pair pdf_path layout_folder once_a) in
  let once_b := snd (Labelme.process_pdf_layout_pair pdf_path layout_folder verbose w) in
  let twice_b :=
    snd (Labelme.process_pdf_layout_pair pdf_path layout_folder verbose once_b) in
  same_store twice_a once_a
  /\ same_store twice_b once_b
  /\ (forall region text text',
        let once := dict_set text_layer_key (JStr text) region in
        let twice := dict_set text_layer_key (JStr text') once in
        dict_keys twice = dict_keys once
        /\ dict_lookup text_layer_key twice = Some (JStr text')).
Proof.
  intros once_a twice_a once_b twice_b. split; [|split].
  - destruct (coco_run_effect pdf_path layout_folder w) as [Hf Hd].
    destruct (coco_run_effect pdf_path layout_folder once_a) as [Hf' Hd'].
    fold once_a in Hf, Hd. fold twice_a in Hf', Hd'. split; [|done].
    by rewrite Hf', Hf, Hd, coco_effect_idempotent.
  - destruct (labelme_run_effect pdf_path layout_folder verbose w) as [Hf Hd].
    destruct (labelme_run_effect pdf_path layout_folder verbose once_b) as [Hf' Hd'].
    fold once_b in Hf, Hd. fold twice_b in Hf', Hd'. split; [|done].
    by rewrite Hf', Hf, Hd, labelme_effect_idempotent.
  - intros region text text' once twice. subst once twice. split.
    + rewrite dict_keys_set, dict_lookup_set_eq. by rewrite bool_decide_eq_true_2.
    + apply dict_lookup_set_eq.
Qed.

(** The two pipelines at work on concrete groups: the first run attaches the
    text of the page, the second run finds it there and writes it again. *)
Lemma coco_rerun_example :
  let once := snd (Coco.process_pdf_layout_pair "pdfs/doc.pdf" "layouts/doc" coco_world) in
  let twice := snd (Coco.process_pdf_layout_pair "pdfs/doc.pdf" "layouts/doc" once) in
  text_layers_at annotations_of "layouts/doc/coco.json" coco_world = [None]
  /\ text_layers_at annotations_of "layouts/doc/coco.json" once
     = [Some (JStr "second page")]
  /\ text_layers_at annotations_of "layouts/doc/coco.json" twice
     = [Some (JStr "second page")].
Proof. by vm_compute. Qed.

Lemma labelme_rerun_example :
  let start := layout_world one_page_doc ["page_1.json"] (labelme_page 1200 1600) in
  let once :=
    snd (Labelme.process_pdf_layout_pair "pdfs/doc.pdf" "layouts/doc" false start) in
  let twice :=
    snd (Labelme.process_pdf_layout_pair "pdfs/doc.pdf" "layouts/doc" false once) in
  text_layers_at shapes_of "layouts/doc/images/page_1.json" start = [None]
  /\ text_layers_at shapes_of "layouts/doc/images/page_1.json" once
     = [Some (JStr "hello")]
  /\ text_layers_at shapes_of "layouts/doc/images/page_1.json" twice
     = [Some (JStr "hello")].
Proof. by vm_compute. Qed.

(* ===================================================================== *)
(** * Further properties of the two scripts *)
(* ===================================================================== *)

(** ** What the region loops leave behind *)

Lemma annotation_value_attached coco_data pdf_doc annotation annotation' c :
  annotation_value coco_data pdf_doc annotation = Ok (annotation', c) ->
  attached annotation annotation' /\ (c <= 1)%nat.
Proof.
  destruct annotation as [| | | | | |d]; try done. cbn [annotation_value].
  destruct (annotation_outcome coco_data pdf_doc d) as [[text n]|e] eqn:Hout; [|done].
  cbn [mbind result_bind]. intros [= <- <-]. split; [by exists d, text|].
  revert Hout. unfold annotation_outcome.
  destruct (getitem_key (JObj d) "image_id") as [image_id|]; [|done].
  destruct (getitem_key (JObj d) "bbox") as [bbox|]; [|done].
  cbn [mbind result_bind].
  destruct (Coco.get_page_number_from_image_id coco_data image_id) as [pn|]; [|done].
  cbn [mbind result_bind].
  destruct (Coco.extract_text_from_bbox pdf_doc pn bbox) as [t|e].
  - destruct (50 <? String.length t)%nat;
      [destruct (getitem_key (JObj d) "id"); [|done]|];
      cbn [mbind result_bind]; intros [= <- <-]; lia.
  - destruct (getitem_key (JObj d) "id"); [|done].
    cbn [mbind result_bind]. intros [= <- <-]. lia.
Qed.

Lemma shape_value_attached pdf_doc page_num iw ih shape shape' c :
  shape_value pdf_doc page_num iw ih shape = Ok (shape', c) ->
  attached shape shape' /\ (c <= 1)%nat.
Proof.
  destruct shape as [| | | | | |d]; try done. cbn [shape_value].
  destruct (shape_outcome pdf_doc page_num iw ih d) as [[text n]|e] eqn:Hout; [|done].
  cbn [mbind result_bind]. intros [= <- <-]. split; [by exists d, text|].
  revert Hout. unfold shape_outcome.
  destruct (dict_lookup "points" d) as [points|]; [|intros [= <- <-]; lia].
  destruct (py_len points) as [len|]; [|done]. cbn [mbind result_bind].
  destruct (2 <=? len)%nat; [|intros [= <- <-]; lia].
  destruct (Labelme.extract_text_from_labelme_bbox _ _ _ _ _);
    intros [= <- <-]; lia.
Qed.

Lemma regions_value_attached (step : json -> result (json * nat)) :
  (forall x x' c, step x = Ok (x', c) -> attached x x' /\ (c <= 1)%nat) ->
  forall l l' n, regions_value step l = Ok (l', n) ->
                 Forall2 attached l l' /\ (n <= length l)%nat.
Proof.
  intros Hstep. induction l as [|x l IH]; intros l' n; cbn [regions_value].
  - intros [= <- <-]. split; [constructor|done].
  - destruct (step x) as [[x' c]|e] eqn:Hx; [|done]. cbn [mbind result_bind].
    destruct (regions_value step l) as [[l0 n0]|e] eqn:Hl; [|done].
    cbn [mbind result_bind]. intros [= <- <-].
    destruct (Hstep _ _ _ Hx) as [Hatt Hc], (IH _ _ eq_refl) as [Hall Hn].
    split; [by constructor|]. cbn [length]. lia.
Qed.

(** X1. When the Dialect A loop completes, it returns as many annotations as
    it was given, in the same order; each is the annotation object it was,
    with a string stored under the text-layer key and nothing else changed;
    [updated_count] does not exceed their number; files and directories are
    untouched by the loop. *)
Theorem annotations_loop_attaches_everywhere
    (coco_data : json) (pdf_doc : Document) (i : nat)
    (annotations annotations' : list json) (updated_count : nat) (w w' : world) :
  Coco.annotations_loop coco_data pdf_doc i annotations w
  = (Ok (annotations', updated_count), w') ->
  Forall2 attached annotations annotations'
  /\ (updated_count <= length annotations)%nat
  /\ same_store w' w.
Proof.
  intros Hrun.
  pose proof (annotations_loop_value coco_data pdf_doc annotations i w) as Hval.
  destruct (annotations_loop_logs_only coco_data pdf_doc annotations i)
    as (r & ms & Hlog).
  rewrite Hrun in Hval. rewrite Hlog in Hrun. injection Hrun as -> <-.
  cbn [fst] in Hval. symmetry in Hval.
  destruct (regions_value_attached _ (annotation_value_attached coco_data pdf_doc)
              _ _ _ Hval) as [Hall Hn].
  repeat split; done.
Qed.

Lemma annotations_loop_attaches_everywhere_witness :
  Forall2 attached
    [JObj [("id", JInt 11); ("image_id", JInt 1);
           ("bbox", JArr [JInt 10; JInt 20; JInt 30; JInt 40])]]
    [JObj [("id", JInt 11); ("image_id", JInt 1);
           ("bbox", JArr [JInt 10; JInt 20; JInt 30; JInt 40]);
           (text_layer_key, JStr "second page")]].
Proof.
  refine (proj1 (annotations_loop_attaches_everywhere coco_small_group two_page_doc 0
                   _ _ 1%nat empty_world
                   (log empty_world []) _)).
  reflexivity.
Defined.

(** X2. The same for the Dialect B loop over the shapes of a page file. *)
Theorem shapes_loop_attaches_everywhere
    (pdf_doc : Document) (page_num : Z) (image_width image_height : json)
    (verbose : bool) (shapes shapes' : list json) (shapes_processed : nat)
    (w w' : world) :
  Labelme.shapes_loop pdf_doc page_num image_width image_height verbose shapes w
  = (Ok (shapes', shapes_processed), w') ->
  Forall2 attached shapes shapes'
  /\ (shapes_processed <= length shapes)%nat
  /\ same_store w' w.
Proof.
  intros Hrun.
  pose proof (shapes_loop_value pdf_doc page_num image_width image_height
                verbose shapes w) as Hval.
  destruct (shapes_loop_logs_only pdf_doc page_num image_width image_height
              verbose shapes) as (r & ms & Hlog).
  rewrite Hrun in Hval. rewrite Hlog in Hrun. injection Hrun as -> <-.
  cbn [fst] in Hval. symmetry in Hval.
  destruct (regions_value_attached _
              (shape_value_attached pdf_doc page_num image_width image_height)
              _ _ _ Hval) as [Hall Hn].
  repeat split; done.
Qed.

Lemma shapes_loop_attaches_everywhere_witness :
  Forall2 attached
    [JObj [("label", JStr "text"); ("points", corner_points)]]
    [JObj [("label", JStr "text"); ("points", corner_points);
           (text_layer_key, JStr "hello")]].
Proof.
  refine (proj1 (shapes_loop_attaches_everywhere one_page_doc 0
                   (JInt 1200) (JInt 1600) false _ _ 1%nat empty_world
                   (log empty_world []) _)).
  reflexivity.
Defined.

(** ** Edge cases of the per-region steps *)

(** X3. A Dialect A annotation whose page index lies at or beyond the page
    count is not skipped: the empty string is attached, the annotation counts
    as updated, and no warning is printed; its [bbox] is not even looked at. *)
Theorem annotation_beyond_last_page_counts_as_updated
    (coco_data : json) (pdf_doc : Document) (i : nat)
    (annotation : list (string * json)) (image_id bbox : json)
    (page_num : pynum) (w : world) :
  dict_lookup "image_id" annotation = Some image_id ->
  dict_lookup "bbox" annotation = Some bbox ->
  Coco.get_page_number_from_image_id coco_data image_id = Ok page_num ->
  (inject_Z (page_count pdf_doc) <= num_val page_num)%Q ->
  Coco.annotation_step coco_data pdf_doc i (JObj annotation) w
  = (Ok (attach "" annotation, 1%nat),
     log w (if ((i mod 50 =? 0)%nat && (0 <? i)%nat)
            then [Info "Processed annotations..."] else [])).
Proof.
  intros Himg Hbbox Hpage Hbeyond.
  unfold Coco.annotation_step. rewrite run_when.
  cbn [getitem_key]. rewrite Himg, Hbbox. rewrite !run_lift_ok.
  rewrite Hpage, run_lift_ok. unfold try_except.
  rewrite (coco_extract_beyond_last_page _ _ _ Hbeyond), run_lift_ok.
  cbn [setitem_key]. by rewrite run_lift_ok.
Qed.

Lemma annotation_beyond_last_page_counts_as_updated_witness :
  Coco.annotation_step coco_group two_page_doc 0
    (JObj [("image_id", JInt 2); ("bbox", JNull)]) empty_world
  = (Ok (JObj [("image_id", JInt 2); ("bbox", JNull); (text_layer_key, JStr "")],
         1%nat), log empty_world []).
Proof.
  apply (annotation_beyond_last_page_counts_as_updated coco_group two_page_doc 0
           [("image_id", JInt 2); ("bbox", JNull)] (JInt 2) JNull (PInt 6)).
  - reflexivity.
  - reflexivity.
  - reflexivity.
  - by vm_compute.
Defined.

Lemma coco_extract_wrong_arity pdf_doc page_num page (items : list json) :
  (page_num < page_count pdf_doc)%Z ->
  getitem pdf_doc page_num = Ok page ->
  length items <> 4%nat ->
  Coco.extract_text_from_bbox pdf_doc (PInt page_num) (JArr items) = Raise ValueError.
Proof.
  intros Hlt Hpage Hlen. unfold Coco.extract_text_from_bbox.
  cbn [num_val]. rewrite Qle_bool_inject_Z.
  destruct (Z.leb_spec (page_count pdf_doc) page_num); [lia|].
  rewrite Hpage. cbn [mbind result_bind py_iter].
  by destruct items as [|? [|? [|? [|? [|? ?]]]]].
Qed.

(** X4. A Dialect A annotation on a page the document serves whose [bbox] is
    a list of other than four items: unpacking raises [ValueError], which the
    loop body absorbs; the empty string is attached, the annotation is not
    counted and a warning naming its id is printed. *)
Theorem annotation_with_wrong_bbox_arity
    (coco_data : json) (pdf_doc : Document) (i : nat)
    (annotation : list (string * json)) (image_id id : json) (items : list json)
    (page_num : Z) (page : Page) (w : world) :
  dict_lookup "image_id" annotation = Some image_id ->
  dict_lookup "bbox" annotation = Some (JArr items) ->
  dict_lookup "id" annotation = Some id ->
  Coco.get_page_number_from_image_id coco_data image_id = Ok (PInt page_num) ->
  (page_num < page_count pdf_doc)%Z ->
  getitem pdf_doc page_num = Ok page ->
  length items <> 4%nat ->
  Coco.annotation_step coco_data pdf_doc i (JObj annotation) w
  = (Ok (attach "" annotation, 0%nat),
     log w ((if ((i mod 50 =? 0)%nat && (0 <? i)%nat)
             then [Info "Processed annotations..."] else [])
            ++ [WarnExtractAnnotation id ValueError])).
Proof.
  intros Himg Hbbox Hid Hpage Hlt Hserved Hlen.
  by apply (coco_text_query_failure_absorbed coco_data pdf_doc i annotation
              image_id (JArr items) id (PInt page_num) ValueError w);
    [..|apply (coco_extract_wrong_arity _ _ page)].
Qed.

Lemma annotation_with_wrong_bbox_arity_witness :
  Coco.annotation_step coco_small_group two_page_doc 0
    (JObj [("id", JInt 11); ("image_id", JInt 1);
           ("bbox", JArr [JInt 10; JInt 20; JInt 30])]) empty_world
  = (Ok (JObj [("id", JInt 11); ("image_id", JInt 1);
               ("bbox", JArr [JInt 10; JInt 20; JInt 30]);
               (text_layer_key, JStr "")], 0%nat),
     log empty_world [WarnExtractAnnotation (JInt 11) ValueError]).
Proof.
  apply (annotation_with_wrong_bbox_arity coco_small_group two_page_doc 0
           [("id", JInt 11); ("image_id", JInt 1);
            ("bbox", JArr [JInt 10; JInt 20; JInt 30])]
           (JInt 1) (JInt 11) [JInt 10; JInt 20; JInt 30] 1
           (page_reading 600 800 "second page")).
  - reflexivity.
  - reflexivity.
  - reflexivity.
  - reflexivity.
  - reflexivity.
  - reflexivity.
  - cbn. lia.
Defined.

(** X5. A Dialect B shape object without ['points'], or whose ['points'] has
    fewer than two items, never reaches the extractor: the empty string is
    attached, the shape is not counted, and the warning about missing points
    is printed when verbose. *)
Theorem shape_without_two_points
    (pdf_doc : Document) (page_num : Z) (image_width image_height : json)
    (verbose : bool) (shape : list (string * json)) (w : world) :
  (dict_lookup "points" shape = None
   \/ exists points n, dict_lookup "points" shape = Some points
                       /\ py_len points = Ok n /\ (n < 2)%nat) ->
  Labelme.shape_step pdf_doc page_num image_width image_height verbose
    (JObj shape) w
  = (Ok (attach "" shape, 0%nat),
     log w (if verbose then [WarnShapeMissingPoints] else [])).
Proof.
  intros Hpoints. unfold Labelme.shape_step. cbn [py_in getitem_key].
  destruct Hpoints as [Hnone|(points & n & Hsome & Hlen & Hn)].
  - rewrite Hnone. rewrite bool_decide_eq_false_2 by (by intros [? ?]).
    rewrite run_lift_ok. cbn [mret M_ret]. rewrite run_ret, run_when.
    cbn [setitem_key]. by rewrite run_lift_ok.
  - rewrite Hsome. rewrite bool_decide_eq_true_2 by done.
    rewrite run_lift_ok, run_bind, run_lift_ok, Hlen, run_lift_ok.
    destruct (Nat.leb_spec 2 n); [lia|]. cbn [mret M_ret].
    rewrite run_when. cbn [setitem_key]. by rewrite run_lift_ok.
Qed.

Lemma shape_without_two_points_witness :
  Labelme.shape_step damaged_doc 0 (JInt 1200) (JInt 1600) true
    (JObj [("label", JStr "text"); ("points", JArr [JArr [JInt 1; JInt 2]])])
    empty_world
  = (Ok (JObj [("label", JStr "text"); ("points", JArr [JArr [JInt 1; JInt 2]]);
               (text_layer_key, JStr "")], 0%nat),
     log empty_world [WarnShapeMissingPoints]).
Proof.
  apply (shape_without_two_points damaged_doc 0 (JInt 1200) (JInt 1600) true
           [("label", JStr "text"); ("points", JArr [JArr [JInt 1; JInt 2]])]).
  right. exists (JArr [JArr [JInt 1; JInt 2]]), 1%nat.
  split; [reflexivity|]. split; [reflexivity|lia].
Defined.

(** ** The Dialect B extractor on its own *)

Lemma labelme_extract_runs_query pdf_doc page_num page px1 py1 px2 py2 iw ih :
  (page_num < page_count pdf_doc)%Z ->
  getitem pdf_doc page_num = Ok page ->
  ~ (num_val iw == 0)%Q ->
  ~ (num_val ih == 0)%Q ->
  Labelme.extract_text_from_labelme_bbox pdf_doc page_num
    (JArr [JArr [jnum px1; jnum py1]; JArr [jnum px2; jnum py2]])
    (jnum iw) (jnum ih)
  = (text ← get_text page
       (mkRect (Qmin (num_val px1) (num_val px2) * (width page / num_val iw))
               (Qmin (num_val py1) (num_val py2) * (height page / num_val ih))
               (Qmax (num_val px1) (num_val px2) * (width page / num_val iw))
               (Qmax (num_val py1) (num_val py2) * (height page / num_val ih)));
     Ok (strip text)).
Proof.
  intros Hlt Hpage Hw Hh.
  unfold Labelme.extract_text_from_labelme_bbox.
  destruct (Z.leb_spec (page_count pdf_doc) page_num) as [Hge|_]; [lia|].
  rewrite Hpage. cbn -[Qmin Qmax Qdiv Qmult strip].
  unfold Labelme.py_min, Labelme.py_max, Labelme.py_div.
  rewrite !as_num_jnum. cbn -[Qmin Qmax Qdiv Qmult strip].
  rewrite (Qeq_bool_false _ _ Hw). cbn -[Qmin Qmax Qdiv Qmult strip].
  by rewrite (Qeq_bool_false _ _ Hh).
Qed.

(** X6. Called on a page the document serves with a declared image width or
    height of zero, the Dialect B extractor itself raises
    [ZeroDivisionError]; only the guard of its caller keeps this from
    happening. *)
Theorem labelme_extract_divides_by_image_size
    (pdf_doc : Document) (page_num : Z) (page : Page)
    (px1 py1 px2 py2 image_width image_height : pynum) :
  (page_num < page_count pdf_doc)%Z ->
  getitem pdf_doc page_num = Ok page ->
  (num_val image_width == 0 \/ num_val image_height == 0)%Q ->
  Labelme.extract_text_from_labelme_bbox pdf_doc page_num
    (JArr [JArr [jnum px1; jnum py1]; JArr [jnum px2; jnum py2]])
    (jnum image_width) (jnum image_height)
  = Raise ZeroDivisionError.
Proof.
  intros Hlt Hpage Hzero.
  unfold Labelme.extract_text_from_labelme_bbox.
  destruct (Z.leb_spec (page_count pdf_doc) page_num) as [Hge|_]; [lia|].
  rewrite Hpage. cbn -[Qmin Qmax Qdiv Qmult strip].
  unfold Labelme.py_min, Labelme.py_max, Labelme.py_div.
  rewrite !as_num_jnum. cbn -[Qmin Qmax Qdiv Qmult strip].
  destruct (Qeq_bool (num_val image_width) 0) eqn:Ew; [done|].
  cbn -[Qmin Qmax Qdiv Qmult strip].
  destruct Hzero as [Hz|Hz]; apply Qeq_bool_iff in Hz; [congruence|].
  by rewrite Hz.
Qed.

Lemma labelme_extract_divides_by_image_size_witness :
  Labelme.extract_text_from_labelme_bbox one_page_doc 0 corner_points
    (JInt 1200) (JFloat 0)
  = Raise ZeroDivisionError.
Proof.
  apply (labelme_extract_divides_by_image_size one_page_doc 0
           (page_reading 600 800 "hello")
           (PInt 100) (PInt 100) (PInt 300) (PInt 300) (PInt 1200) (PFloat 0)).
  - reflexivity.
  - reflexivity.
  - right. reflexivity.
Defined.

Lemma scale_nonneg (size image_size : Q) :
  (0 <= size)%Q -> (0 < image_size)%Q -> (0 <= size / image_size)%Q.
Proof.
  intros Hs Hi. apply Qle_shift_div_l; [done|]. by rewrite Qmult_0_l.
Qed.

Lemma min_times_le_max_times (a b s : Q) :
  (0 <= s)%Q -> (Qmin a b * s <= Qmax a b * s)%Q.
Proof.
  intros Hs. apply Qmult_le_compat_r; [|done].
  apply Qle_trans with a; [apply Q.le_min_l|apply Q.le_max_l].
Qed.

(** X7. For a region on a page the document serves, with positive declared
    image size and a page of non-negative size: the rectangle handed to the
    text query has [x0 <= x1] and [y0 <= y1], and giving the two corner
    points in the other order queries an equal rectangle. *)
Theorem labelme_rect_is_normalised
    (pdf_doc : Document) (page_num : Z) (page : Page)
    (px1 py1 px2 py2 image_width image_height : pynum) :
  (page_num < page_count pdf_doc)%Z ->
  getitem pdf_doc page_num = Ok page ->
  (0 <= width page)%Q -> (0 <= height page)%Q ->
  (0 < num_val image_width)%Q -> (0 < num_val image_height)%Q ->
  let scale_x := (width page / num_val image_width)%Q in
  let scale_y := (height page / num_val image_height)%Q in
  let rect :=
    mkRect (Qmin (num_val px1) (num_val px2) * scale_x)
           (Qmin (num_val py1) (num_val py2) * scale_y)
           (Qmax (num_val px1) (num_val px2) * scale_x)
           (Qmax (num_val py1) (num_val py2) * scale_y) in
  let rect' :=
    mkRect (Qmin (num_val px2) (num_val px1) * scale_x)
           (Qmin (num_val py2) (num_val py1) * scale_y)
           (Qmax (num_val px2) (num_val px1) * scale_x)
           (Qmax (num_val py2) (num_val py1) * scale_y) in
  Labelme.extract_text_from_labelme_bbox pdf_doc page_num
    (JArr [JArr [jnum px1; jnum py1]; JArr [jnum px2; jnum py2]])
    (jnum image_width) (jnum image_height)
  = (text ← get_text page rect; Ok (strip text))
  /\ Labelme.extract_text_from_labelme_bbox pdf_doc page_num
       (JArr [JArr [jnum px2; jnum py2]; JArr [jnum px1; jnum py1]])
       (jnum image_width) (jnum image_height)
     = (text ← get_text page rect'; Ok (strip text))
  /\ rect_eq rect rect'
  /\ (x0 rect <= x1 rect)%Q /\ (y0 rect <= y1 rect)%Q.
Proof.
  intros Hlt Hpage Hw Hh Hiw Hih scale_x scale_y rect rect'.
  assert (~ (num_val image_width == 0)%Q) as Hiw0.
  { intros E. rewrite E in Hiw. by apply Qlt_irrefl in Hiw. }
  assert (~ (num_val image_height == 0)%Q) as Hih0.
  { intros E. rewrite E in Hih. by apply Qlt_irrefl in Hih. }
  split; [by apply labelme_extract_runs_query|].
  split; [by apply labelme_extract_runs_query|].
  unfold rect_eq, rect, rect', scale_x, scale_y. cbn [x0 y0 x1 y1]. repeat split.
  - by rewrite Q.min_comm.
  - by rewrite Q.min_comm.
  - by rewrite Q.max_comm.
  - by rewrite Q.max_comm.
  - by apply min_times_le_max_times, scale_nonneg.
  - by apply min_times_le_max_times, scale_nonneg.
Qed.

Lemma labelme_rect_is_normalised_witness :
  exists rect,
    Labelme.extract_text_from_labelme_bbox two_page_doc 0
      (JArr [JArr [JInt 300; JInt 100]; JArr [JInt 100; JInt 300]])
      (JInt 1200) (JInt 1600)
    = (text ← get_text (probe_page 600 800) rect; Ok (strip text))
    /\ (x0 rect <= x1 rect)%Q.
Proof.
  destruct (labelme_rect_is_normalised two_page_doc 0 (probe_page 600 800)
              (PInt 300) (PInt 100) (PInt 100) (PInt 300) (PInt 1200) (PInt 1600))
    as (Hrun & _ & _ & Hx & _);
    [reflexivity | reflexivity | by vm_compute | by vm_compute
    | by vm_compute | by vm_compute |].
  eexists. split; [exact Hrun|exact Hx].
Defined.

Lemma coco_extract_runs_query pdf_doc page_num page x y w h :
  (page_num < page_count pdf_doc)%Z ->
  getitem pdf_doc page_num = Ok page ->
  Coco.extract_text_from_bbox pdf_doc (PInt page_num)
    (JArr [jnum x; jnum y; jnum w; jnum h])
  = (text ← get_text page
       (mkRect (num_val x) (num_val y)
               (num_val x + num_val w)%Q (num_val y + num_val h)%Q);
     Ok (strip text)).
Proof.
  intros Hlt Hpage. unfold Coco.extract_text_from_bbox.
  cbn [num_val]. rewrite Qle_bool_inject_Z.
  destruct (Z.leb_spec (page_count pdf_doc) page_num) as [Hge|_]; [lia|].
  rewrite Hpage. cbn -[strip Qplus]. by rewrite !as_num_jnum.
Qed.

(** X8. The two dialects agree on a box of non-negative width and height:
    given as [bbox = [x, y, w, h]] to the Dialect A extractor, or as the
    corner points [[x, y], [x+w, y+h]] to the Dialect B extractor with the
    declared image size equal to the (non-zero) page size, it leads to text
    queries on equal rectangles. *)
Theorem dialects_agree_at_scale_one
    (pdf_doc : Document) (page_num : Z) (page : Page) (x y w h : Q) :
  (page_num < page_count pdf_doc)%Z ->
  getitem pdf_doc page_num = Ok page ->
  ~ (width page == 0)%Q -> ~ (height page == 0)%Q ->
  (0 <= w)%Q -> (0 <= h)%Q ->
  let rect_a := mkRect x y (x + w)%Q (y + h)%Q in
  let rect_b :=
    mkRect (Qmin x (x + w) * (width page / width page))
           (Qmin y (y + h) * (height page / height page))
           (Qmax x (x + w) * (width page / width page))
           (Qmax y (y + h) * (height page / height page)) in
  Coco.extract_text_from_bbox pdf_doc (PInt page_num)
    (JArr [JFloat x; JFloat y; JFloat w; JFloat h])
  = (text ← get_text page rect_a; Ok (strip text))
  /\ Labelme.extract_text_from_labelme_bbox pdf_doc page_num
       (JArr [JArr [JFloat x; JFloat y]; JArr [JFloat (x + w); JFloat (y + h)]])
       (JFloat (width page)) (JFloat (height page))
     = (text ← get_text page rect_b; Ok (strip text))
  /\ rect_eq rect_a rect_b.
Proof.
  intros Hlt Hpage Hw0 Hh0 Hw Hh rect_a rect_b.
  split.
  { apply (coco_extract_runs_query pdf_doc page_num page
             (PFloat x) (PFloat y) (PFloat w) (PFloat h)); done. }
  split.
  { apply (labelme_extract_runs_query pdf_doc page_num page
             (PFloat x) (PFloat y) (PFloat (x + w)) (PFloat (y + h))
             (PFloat (width page)) (PFloat (height page))); done. }
  assert (x <= x + w)%Q as Hx by (rewrite <- (Qplus_0_r x) at 1; by apply Qplus_le_r).
  assert (y <= y + h)%Q as Hy by (rewrite <- (Qplus_0_r y) at 1; by apply Qplus_le_r).
  unfold rect_eq, rect_a, rect_b. cbn [x0 y0 x1 y1 num_val].
  rewrite (Q.min_l _ _ Hx), (Q.min_l _ _ Hy), (Q.max_r _ _ Hx), (Q.max_r _ _ Hy).
  repeat split; field; done.
Qed.

Lemma dialects_agree_at_scale_one_witness :
  exists rect_a rect_b,
    Coco.extract_text_from_bbox two_page_doc (PInt 1)
      (JArr [JFloat 10; JFloat 20; JFloat 30; JFloat 40])
    = (text ← get_text (page_reading 600 800 "second page") rect_a; Ok (strip text))
    /\ Labelme.extract_text_from_labelme_bbox two_page_doc 1
         (JArr [JArr [JFloat 10; JFloat 20]; JArr [JFloat (10 + 30); JFloat (20 + 40)]])
         (JFloat 600) (JFloat 800)
       = (text ← get_text (page_reading 600 800 "second page") rect_b; Ok (strip text))
    /\ rect_eq rect_a rect_b.
Proof.
  eexists _, _.
  apply (dialects_agree_at_scale_one two_page_doc 1
           (page_reading 600 800 "second page") 10 20 30 40);
    [reflexivity | reflexivity | by vm_compute | by vm_compute
    | by vm_compute | by vm_compute].
Defined.

(** ** What a call may do to the world *)


(** The ways a Dialect B run can end. *)
Lemma labelme_run_outcome
    (pdf_path layout_folder : string) (verbose : bool) (w : world) :
  let images_dir := OsPath.join layout_folder "images" in
  exists r w',
    Labelme.process_pdf_layout_pair pdf_path layout_folder verbose w = (r, w')
    /\ dirs w' = dirs w
    /\ (r = Ok true
        \/ files w' = files w
           /\ (r = Ok false
               \/ r = Raise OSError
                  /\ dirs w !! images_dir = None
                  /\ is_Some (files w !! images_dir))).
Proof.
  intros images_dir.
  destruct (decide (is_Some (files w !! layout_folder) \/ is_Some (dirs w !! layout_folder)))
    as [Hlayout|Hlayout].
  2:{ unfold Labelme.process_pdf_layout_pair.
      rewrite run_when, run_path_exists, !files_log, !dirs_log.
      rewrite bool_decide_eq_false_2 by done. cbn [negb]. rewrite run_when.
      eexists _, _. split; [reflexivity|]. split; [done|]. right. split; [done|by left]. }
  destruct (dirs w !! images_dir) as [filenames|] eqn:Himages.
  2:{ unfold Labelme.process_pdf_layout_pair. fold images_dir.
      rewrite run_when, run_path_exists, !files_log, !dirs_log.
      rewrite bool_decide_eq_true_2 by done. cbn [negb].
      rewrite run_path_exists, !files_log, !dirs_log.
      case_bool_decide as Himg; cbn [negb].
      - rewrite run_when, run_bind. unfold Labelme.get_page_json_files.
        rewrite run_path_exists, !files_log, !dirs_log.
        rewrite bool_decide_eq_true_2 by done. cbn [negb].
        rewrite run_listdir, !dirs_log, Himages.
        eexists _, _. split; [reflexivity|]. split; [done|]. right. split; [done|].
        right. split; [done|]. split; [done|].
        destruct Himg as [?|Hdir]; [done|]. rewrite Himages in Hdir. by destruct Hdir.
      - rewrite run_when. eexists _, _. split; [reflexivity|]. split; [done|].
        right. split; [done|by left]. }
  set (page_json_files :=
         Labelme.sort_by_key (Labelme.collect_page_files images_dir filenames)).
  destruct page_json_files as [|f rest] eqn:Hl.
  { unfold Labelme.process_pdf_layout_pair. fold images_dir.
    rewrite run_when, run_path_exists, !files_log, !dirs_log.
    rewrite bool_decide_eq_true_2 by done. cbn [negb].
    rewrite run_path_exists, !files_log, !dirs_log.
    rewrite bool_decide_eq_true_2 by (right; by rewrite Himages). cbn [negb].
    rewrite run_when, run_bind. unfold Labelme.get_page_json_files.
    rewrite run_path_exists, !files_log, !dirs_log.
    rewrite bool_decide_eq_true_2 by (right; by rewrite Himages). cbn [negb].
    rewrite run_listdir, !dirs_log, Himages. cbn [mret M_ret].
    fold page_json_files. rewrite Hl, run_when.
    eexists _, _. split; [reflexivity|]. split; [done|]. right. split; [done|by left]. }
  destruct (files w !! pdf_path) as [[j|pdf_doc|]|] eqn:Hpdf.
  2:{ destruct (labelme_run_reaches_loop pdf_path layout_folder verbose w pdf_doc
                  filenames Hlayout Himages Hpdf) as [ms ->].
      { fold images_dir page_json_files. by rewrite Hl. }
      fold images_dir page_json_files. rewrite run_bind.
      match goal with |- context [Labelme.pages_loop _ _ _ 0 _ ?u] => set (w0 := u) end.
      destruct (pages_loop_runs pdf_doc verbose page_json_files 0 w0)
        as (total & w1 & Hrun & [Hf Hd] & _).
      rewrite Hrun, run_when. cbn [mret M_ret].
      eexists _, _. split; [reflexivity|]. split; [|by left].
      rewrite dirs_log, Hd.
      by destruct (process_each_effect pdf_doc verbose
                     (List.filter (below_page_count pdf_doc) page_json_files) w0)
        as [_ ->]. }
  all: unfold Labelme.process_pdf_layout_pair; fold images_dir;
    rewrite run_when, run_path_exists, !files_log, !dirs_log;
    rewrite bool_decide_eq_true_2 by done; cbn [negb];
    rewrite run_path_exists, !files_log, !dirs_log;
    rewrite bool_decide_eq_true_2 by (right; by rewrite Himages); cbn [negb];
    rewrite run_when, run_bind; unfold Labelme.get_page_json_files;
    rewrite run_path_exists, !files_log, !dirs_log;
    rewrite bool_decide_eq_true_2 by (right; by rewrite Himages); cbn [negb];
    rewrite run_listdir, !dirs_log, Himages; cbn [mret M_ret];
    fold page_json_files; rewrite Hl;
    rewrite run_when, run_try_except, run_fitz_open, !files_log, Hpdf;
    rewrite run_bind, run_when; cbn [mret M_ret];
    eexists _, _; (split; [reflexivity|]); (split; [done|]);
    right; (split; [done|by left]).
Qed.

(** X10. A Dialect B run either reports success, or leaves every file as it
    was and reports failure; the only exception that can escape it is the
    [OSError] of [os.listdir] when the [images] path exists without being a
    directory.  Directories are never changed. *)
Theorem labelme_run_reports_or_leaves
    (pdf_path layout_folder : string) (verbose : bool) (w : world) :
  let images_dir := OsPath.join layout_folder "images" in
  exists r w',
    Labelme.process_pdf_layout_pair pdf_path layout_folder verbose w = (r, w')
    /\ dirs w' = dirs w
    /\ (r = Ok true
        \/ files w' = files w
           /\ (r = Ok false
               \/ r = Raise OSError
                  /\ dirs w !! images_dir = None
                  /\ is_Some (files w !! images_dir))).
Proof. apply labelme_run_outcome. Qed.


Lemma coco_run_rewrites_json_only pdf_path layout_folder w :
  rewrites_json_only (files w)
    (files (snd (Coco.process_pdf_layout_pair pdf_path layout_folder w))).
Proof.
  destruct (coco_run_effect pdf_path layout_folder w) as [-> _].
  unfold coco_effect.
  case_bool_decide; [|apply rewrites_json_only_refl].
  destruct (dirs w !! layout_folder ≫= _) as [path|];
    [|apply rewrites_json_only_refl].
  destruct (files w !! path) as [[data| |]|] eqn:Hpath;
    try apply rewrites_json_only_refl.
  destruct (files w !! pdf_path) as [[|pdf_doc|]|];
    try apply rewrites_json_only_refl.
  destruct (augment_group pdf_doc data); [|apply rewrites_json_only_refl].
  by eapply rewrites_json_only_insert.
Qed.

Lemma labelme_run_rewrites_json_only pdf_path layout_folder verbose w :
  rewrites_json_only (files w)
    (files (snd (Labelme.process_pdf_layout_pair pdf_path layout_folder verbose w))).
Proof.
  destruct (labelme_run_effect pdf_path layout_folder verbose w) as [-> _].
  destruct (labelme_effect_cases pdf_path layout_folder (files w) (dirs w))
    as [->|(pdf_doc & filenames & _ & _ & _ & _ & ->)].
  - apply rewrites_json_only_refl.
  - apply pages_effect_rewrites_json_only.
Qed.


(** ** Quiet runs *)

Lemma silent_ret {A} (a : A) : silent (mret a : M A).
Proof. by intros w. Qed.

Lemma silent_lift {A} (r : result A) : silent (lift r).
Proof. by intros w. Qed.

Lemma silent_when_false (m : M unit) : silent (when false m).
Proof. by intros w. Qed.

Lemma silent_bind {A B} (m : M A) (f : A -> M B) :
  silent m -> (forall a, silent (f a)) -> silent (m ≫= f).
Proof.
  intros Hm Hf w. rewrite run_bind. specialize (Hm w).
  destruct (m w) as [[a|e] w']; cbn [snd] in *; [|done].
  by rewrite Hf.
Qed.

Lemma silent_try_except {A} (body : M A) (handler : exn -> M A) :
  silent body -> (forall e, silent (handler e)) -> silent (try_except body handler).
Proof.
  intros Hm Hh w. unfold try_except. specialize (Hm w).
  destruct (body w) as [[a|e] w']; cbn [snd] in *; [done|].
  by rewrite Hh.
Qed.

Lemma silent_path_exists p : silent (path_exists p).
Proof. by intros w. Qed.

Lemma silent_listdir p : silent (listdir p).
Proof. by intros w. Qed.

Lemma silent_json_load p : silent (json_load p).
Proof. by intros w. Qed.

Lemma silent_json_dump data p : silent (json_dump data p).
Proof. by intros w. Qed.

Lemma silent_fitz_open p : silent (fitz_open p).
Proof. by intros w. Qed.

(** Decompose a goal about silence along the shape of the program. *)
Ltac hush :=
  repeat first
    [ progress intros
    | progress cbn [andb negb]
    | apply silent_when_false
    | apply silent_bind
    | apply silent_try_except
    | apply silent_lift
    | apply silent_ret
    | apply silent_path_exists
    | apply silent_listdir
    | apply silent_json_load
    | apply silent_json_dump
    | apply silent_fitz_open
    | match goal with
      | |- silent (if ?b then _ else _) => destruct b
      | |- silent (match ?x with _ => _ end) => destruct x
      end ].

Lemma shapes_loop_silent pdf_doc page_num iw ih shapes :
  silent (Labelme.shapes_loop pdf_doc page_num iw ih false shapes).
Proof.
  induction shapes as [|s rest IH]; cbn [Labelme.shapes_loop].
  - apply silent_ret.
  - apply silent_bind; [unfold Labelme.shape_step; hush|].
    intros [s' c]. apply silent_bind; [apply IH|]. hush.
Qed.

Lemma process_labelme_json_silent json_path pdf_doc page_num :
  silent (Labelme.process_labelme_json json_path pdf_doc page_num false).
Proof.
  unfold Labelme.process_labelme_json.
  apply silent_try_except; [|hush].
  apply silent_bind; [hush|]. intros data.
  apply silent_bind; [hush|]. intros has_shapes.
  destruct (negb has_shapes); [hush|].
  apply silent_bind; [hush|]. intros iw.
  apply silent_bind; [hush|]. intros ih.
  destruct (_ || _); [hush|].
  apply silent_bind; [hush|]. intros shapes.
  apply silent_bind; [hush|]. intros items.
  apply silent_bind; [apply shapes_loop_silent|]. hush.
Qed.

Lemma pages_loop_silent pdf_doc pdf_page_count page_json_files :
  forall total,
    silent (Labelme.pages_loop pdf_doc pdf_page_count false total page_json_files).
Proof.
  induction page_json_files as [|[n path] rest IH]; intros total;
    cbn [Labelme.pages_loop]; [apply silent_ret|].
  apply silent_bind; [hush|]. intros _.
  destruct (_ <=? _)%Z.
  - apply silent_bind; [hush|]. intros _. apply IH.
  - apply silent_bind; [apply process_labelme_json_silent|]. intros z. apply IH.
Qed.

Lemma labelme_run_silent pdf_path layout_folder :
  silent (Labelme.process_pdf_layout_pair pdf_path layout_folder false).
Proof.
  unfold Labelme.process_pdf_layout_pair, Labelme.get_page_json_files.
  repeat first [apply pages_loop_silent | progress hush].
  rewrite andb_false_r. apply silent_when_false.
Qed.

(** X13. Run with [verbose = False], the Dialect B pipeline for one document
    prints nothing at all, whatever it finds and whatever fails. *)
Theorem labelme_quiet_run_prints_nothing
    (pdf_path layout_folder : string) (w : world) :
  stdout (snd (Labelme.process_pdf_layout_pair pdf_path layout_folder false w))
  = stdout w.
Proof. apply labelme_run_silent. Qed.

(** ** The page-file scan: order and pattern *)

Lemma insert_by_key_stable (n : Z) x l :
  List.filter (fun f => fst f =? n)%Z (Labelme.insert_by_key x l)
  = List.filter (fun f => fst f =? n)%Z (x :: l).
Proof.
  induction l as [|y l IH]; cbn [Labelme.insert_by_key]; [done|].
  destruct (Z.leb_spec (fst x) (fst y)) as [Hle|Hgt]; [done|].
  cbn [List.filter] in *. rewrite IH.
  destruct (Z.eqb_spec (fst y) n) as [Hy|Hy];
    destruct (Z.eqb_spec (fst x) n) as [Hx|Hx]; try done. lia.
Qed.

Lemma sort_by_key_stable (n : Z) l :
  List.filter (fun f => fst f =? n)%Z (Labelme.sort_by_key l)
  = List.filter (fun f => fst f =? n)%Z l.
Proof.
  induction l as [|x l IH]; cbn [Labelme.sort_by_key]; [done|].
  rewrite insert_by_key_stable. cbn [List.filter]. by rewrite IH.
Qed.

(** X14. On a directory that can be listed, [get_page_json_files] returns
    the collected page files in ascending order of their page number,
    neither losing nor duplicating any, and files that carry the same number
    (such as [page_1.json] and [page_01.json]) stay in listing order.  The
    world is left as it was. *)
Theorem page_files_in_stable_numeric_order
    (images_dir : string) (filenames : list string) (w : world) :
  dirs w !! images_dir = Some filenames ->
  exists page_json_files,
    Labelme.get_page_json_files images_dir w = (Ok page_json_files, w)
    /\ ascending page_json_files
    /\ Permutation (Labelme.collect_page_files images_dir filenames) page_json_files
    /\ forall n,
         List.filter (fun f => fst f =? n)%Z page_json_files
         = List.filter (fun f => fst f =? n)%Z
             (Labelme.collect_page_files images_dir filenames).
Proof.
  intros Hdir. eexists. split; [by apply get_page_json_files_of_listing|].
  split; [apply sort_by_key_ascending|].
  split; [apply sort_by_key_perm|]. intros n. apply sort_by_key_stable.
Qed.

Lemma page_files_in_stable_numeric_order_witness :
  exists page_json_files,
    Labelme.get_page_json_files "layouts/doc/images"
      (layout_world two_page_doc ["page_10.json"; "page_2.json"; "page_02.json"]
         (labelme_page 1200 1600))
    = (Ok page_json_files,
       layout_world two_page_doc ["page_10.json"; "page_2.json"; "page_02.json"]
         (labelme_page 1200 1600))
    /\ ascending page_json_files
    /\ Permutation
         (Labelme.collect_page_files "layouts/doc/images"
            ["page_10.json"; "page_2.json"; "page_02.json"]) page_json_files
    /\ forall n,
         List.filter (fun f => fst f =? n)%Z page_json_files
         = List.filter (fun f => fst f =? n)%Z
             (Labelme.collect_page_files "layouts/doc/images"
                ["page_10.json"; "page_2.json"; "page_02.json"]).
Proof.
  apply (page_files_in_stable_numeric_order "layouts/doc/images"
           ["page_10.json"; "page_2.json"; "page_02.json"]).
  reflexivity.
Defined.

(** Strings: slices, letter case and digits. *)

Lemma length_lower (s : string) : String.length (lower s) = String.length s.
Proof. induction s as [|c s IH]; cbn; [done|by rewrite IH]. Qed.

Lemma lower_app (a b : string) : lower (a ++ b) = lower a ++ lower b.
Proof.
  induction a as [|c a IH]; [done|].
  change (String c a ++ b) with (String c (a ++ b)). cbn [lower]. by rewrite IH.
Qed.

Lemma length_app (a b : string) :
  String.length (a ++ b) = (String.length a + String.length b)%nat.
Proof.
  induction a as [|c a IH]; [done|].
  change (String c a ++ b) with (String c (a ++ b)). cbn [String.length]. by rewrite IH.
Qed.

Lemma substring_all (s : string) : substring 0 (String.length s) s = s.
Proof. induction s as [|c s IH]; cbn; [done|by rewrite IH]. Qed.

Lemma slice_to_app (a b : string) : slice_to (String.length a) (a ++ b) = a.
Proof.
  unfold slice_to. induction a as [|c a IH]; [by destruct b|].
  change (String c a ++ b) with (String c (a ++ b)). cbn. by rewrite IH.
Qed.

Lemma slice_from_app (a b : string) : slice_from (String.length a) (a ++ b) = b.
Proof.
  unfold slice_from. rewrite length_app.
  replace (String.length a + String.length b - String.length a)%nat
    with (String.length b) by lia.
  induction a as [|c a IH]; [apply substring_all|].
  change (String c a ++ b) with (String c (a ++ b)). cbn. apply IH.
Qed.

Lemma slice_to_from (k : nat) (s : string) : slice_to k s ++ slice_from k s = s.
Proof.
  unfold slice_to, slice_from. revert k.
  induction s as [|c s IH]; intros [|k]; try done.
  - cbn [substring String.length]. rewrite Nat.sub_0_r.
    change ("" ++ ?x) with x. cbn. by rewrite substring_all.
  - cbn [substring String.length]. 
    change (String c ?a ++ ?b) with (String c (a ++ b)).
    replace (S (String.length s) - S k)%nat with (String.length s - k)%nat by lia.
    by rewrite IH.
Qed.

Lemma span_digits_spec (s d r : string) :
  span_digits s = (d, r) ->
  s = d ++ r /\ all_chars isdigit d = true
  /\ forall c r', r = String c r' -> isdigit c = false.
Proof.
  revert d r. induction s as [|c s IH]; intros d r; cbn [span_digits].
  - intros [= <- <-]. by repeat split.
  - destruct (isdigit c) eqn:Hc.
    + destruct (span_digits s) as [d' r'] eqn:Hs. intros [= <- <-].
      destruct (IH d' r' eq_refl) as (-> & Hd & Hr).
      repeat split; [|done]. cbn [all_chars]. by rewrite Hc, Hd.
    + intros [= <- <-]. repeat split. by intros c' r' [= <- <-].
Qed.

Lemma span_digits_app (d r : string) :
  all_chars isdigit d = true ->
  (forall c r', r = String c r' -> isdigit c = false) ->
  span_digits (d ++ r) = (d, r).
Proof.
  intros Hd Hr. induction d as [|c d IH].
  - change ("" ++ r) with r. destruct r as [|c r']; [done|].
    cbn [span_digits]. by rewrite (Hr c r').
  - change (String c d ++ r) with (String c (d ++ r)).
    cbn [all_chars] in Hd. apply andb_prop in Hd as [Hc Hd].
    cbn [span_digits]. by rewrite Hc, IH.
Qed.

Lemma lower_char_dot (c : ascii) : lower_char c = "."%char -> isdigit c = false.
Proof.
  destruct c as [[] [] [] [] [] [] [] []]; vm_compute; congruence.
Qed.

Lemma isdigit_value (c : ascii) : isdigit c = true -> 0 <= digit_value c.
Proof.
  unfold isdigit, digit_value. intros H. apply andb_prop in H as [H _].
  apply Nat.leb_le in H. lia.
Qed.

Lemma int_acc_nonneg (s : string) (acc : Z) :
  all_chars isdigit s = true -> 0 <= acc -> 0 <= int_acc acc s.
Proof.
  revert acc. induction s as [|c s IH]; intros acc Hs Hacc; cbn [int_acc]; [done|].
  cbn [all_chars] in Hs. apply andb_prop in Hs as [Hc Hs].
  apply IH; [done|]. pose proof (isdigit_value c Hc). lia.
Qed.

(** What [re.match(r'page_(\d+)\.json', filename, re.IGNORECASE)] accepts,
    and what it captures. *)
Lemma match_page_json_spec (filename digits : string) :
  Labelme.match_page_json filename = Some digits <->
  exists p e tail,
    filename = p ++ digits ++ e ++ tail
    /\ lower p = "page_" /\ digits <> "" /\ all_chars isdigit digits = true
    /\ lower e = ".json".
Proof.
  unfold Labelme.match_page_json. split.
  - destruct (String.eqb_spec (lower (slice_to 5 filename)) "page_") as [Hp|]; [|done].
    destruct (span_digits (slice_from 5 filename)) as [d r] eqn:Hspan.
    destruct (String.eqb_spec d "") as [|Hd]; [done|]. cbn [negb andb].
    destruct (String.eqb_spec (lower (slice_to 5 r)) ".json") as [He|]; [|done].
    intros [= <-]. apply span_digits_spec in Hspan as (Hrest & Hdigits & _).
    exists (slice_to 5 filename), (slice_to 5 r), (slice_from 5 r).
    rewrite slice_to_from, <- Hrest, slice_to_from. by repeat split.
  - intros (p & e & tail & -> & Hp & Hd & Hdigits & He).
    assert (String.length p = 5%nat) as Hlp
      by (rewrite <- length_lower, Hp; reflexivity).
    assert (String.length e = 5%nat) as Hle
      by (rewrite <- length_lower, He; reflexivity).
    rewrite <- Hlp, slice_to_app, slice_from_app, Hp. cbn [String.eqb Ascii.eqb].
    change (String.eqb "page_" "page_") with true. cbn iota.
    rewrite span_digits_app; [|done|].
    + rewrite string_eqb_false by done. cbn [negb andb].
      rewrite Hlp, <- Hle, slice_to_app, He. reflexivity.
    + intros c r' Hr. destruct e as [|c' e']; [done|].
      change (String c' e' ++ tail) with (String c' (e' ++ tail)) in Hr.
      injection Hr as <- _. cbn [lower] in He. injection He as Hc _.
      by apply lower_char_dot.
Qed.

(** X15. What the scan collects: exactly the listed names that end in
    [.json] in any letter case and begin with [page_] in any letter case, one
    or more decimal digits, and [.json] in any letter case, whatever follows.
    The page number is the value of the digits, so it is never negative, and
    the path is the directory joined with the name. *)
Theorem page_files_follow_prefix_pattern
    (images_dir : string) (filenames : list string) (w : world) :
  dirs w !! images_dir = Some filenames ->
  exists page_json_files,
    fst (Labelme.get_page_json_files images_dir w) = Ok page_json_files
    /\ (forall n path, In (n, path) page_json_files -> 0 <= n)
    /\ forall n path,
         In (n, path) page_json_files <->
         exists p digits e tail,
           In (p ++ digits ++ e ++ tail) filenames
           /\ lower p = "page_"
           /\ digits <> "" /\ all_chars isdigit digits = true
           /\ lower e = ".json"
           /\ endswith (lower (p ++ digits ++ e ++ tail)) ".json" = true
           /\ n = int_of_digits digits
           /\ path = OsPath.join images_dir (p ++ digits ++ e ++ tail).
Proof.
  intros Hdir. eexists.
  rewrite (get_page_json_files_of_listing _ _ _ Hdir). split; [done|].
  assert (Hin : forall f,
    In f (Labelme.sort_by_key (Labelme.collect_page_files images_dir filenames)) <->
    In f (Labelme.collect_page_files images_dir filenames)).
  { intros f. split; apply Permutation_in;
      [apply Permutation_sym|]; apply sort_by_key_perm. }
  split.
  - intros n path H. apply Hin, collect_page_files_elements in H
      as (name & g & _ & _ & Hm & [= -> _]).
    apply match_page_json_spec in Hm as (_ & _ & _ & _ & _ & _ & Hd & _).
    by apply int_acc_nonneg.
  - intros n path. rewrite Hin, collect_page_files_elements. split.
    + intros (name & g & Hname & Hjson & Hm & [= -> ->]).
      apply match_page_json_spec in Hm as (p & e & tail & -> & Hp & Hne & Hd & He).
      by exists p, g, e, tail.
    + intros (p & digits & e & tail & Hname & Hp & Hne & Hd & He & Hjson & -> & ->).
      exists (p ++ digits ++ e ++ tail), digits. repeat split; try done.
      apply match_page_json_spec. by exists p, e, tail.
Qed.

Lemma page_files_follow_prefix_pattern_witness :
  exists page_json_files,
    fst (Labelme.get_page_json_files "layouts/doc/images"
           (layout_world two_page_doc ["Page_007.JSON"; "index.json"]
              (labelme_page 1200 1600)))
    = Ok page_json_files
    /\ (forall n path, In (n, path) page_json_files -> 0 <= n)
    /\ forall n path,
         In (n, path) page_json_files <->
         exists p digits e tail,
           In (p ++ digits ++ e ++ tail) ["Page_007.JSON"; "index.json"]
           /\ lower p = "page_"
           /\ digits <> "" /\ all_chars isdigit digits = true
           /\ lower e = ".json"
           /\ endswith (lower (p ++ digits ++ e ++ tail)) ".json" = true
           /\ n = int_of_digits digits
           /\ path = OsPath.join "layouts/doc/images" (p ++ digits ++ e ++ tail).
Proof.
  apply (page_files_follow_prefix_pattern "layouts/doc/images"
           ["Page_007.JSON"; "index.json"]).
  reflexivity.
Defined.

(** ** The choice of the Dialect A group file *)

Lemma filter_head {A} (p : A -> bool) (l : list A) :
  match List.filter p l with
  | [] => Forall (fun x => p x = false) l
  | c :: _ =>
      exists before after,
        l = (before ++ c :: after)%list
        /\ Forall (fun x => p x = false) before /\ p c = true
  end.
Proof.
  induction l as [|x l IH]; cbn [List.filter]; [constructor|].
  destruct (p x) eqn:Hx.
  - by exists [], l.
  - destruct (List.filter p l) as [|c cs].
    + by constructor.
    + destruct IH as (before & after & -> & Hb & Hc).
      exists (x :: before), after. repeat split; [by constructor|done].
Qed.

Lemma filter_twice {A} (p q : A -> bool) (l : list A) :
  List.filter q (List.filter p l) = List.filter (fun x => p x && q x) l.
Proof.
  induction l as [|x l IH]; cbn [List.filter]; [done|].
  destruct (p x); cbn [List.filter andb]; [by rewrite IH|done].
Qed.

(** X16. On a folder that can be listed, [find_coco_json] returns [None]
    exactly when no listed name ends in [.json] (lower case only).
    Otherwise it returns the folder joined with a listed [.json] name: the
    first one whose name contains [coco] or [annotations] in any letter
    case, and the first [.json] name of all when there is no such name.  The
    world is left as it was. *)
Theorem find_coco_json_prefers_coco_names
    (layout_folder : string) (names : list string) (w : world) :
  dirs w !! layout_folder = Some names ->
  let is_json f := endswith f ".json" in
  let named_coco f := contains (lower f) "coco" || contains (lower f) "annotations" in
  exists chosen,
    Coco.find_coco_json layout_folder w = (Ok chosen, w)
    /\ match chosen with
       | None => Forall (fun f => is_json f = false) names
       | Some path =>
           exists before f after,
             names = (before ++ f :: after)%list
             /\ path = OsPath.join layout_folder f
             /\ is_json f = true
             /\ if named_coco f
                then Forall (fun g => is_json g && named_coco g = false) before
                else Forall (fun g => is_json g = false) before
                     /\ Forall (fun g => is_json g && named_coco g = false) after
       end.
Proof.
  intros Hdir is_json named_coco. unfold Coco.find_coco_json.
  rewrite run_listdir, Hdir. eexists. split; [reflexivity|].
  unfold Coco.select_coco_json. rewrite filter_twice.
  pose proof (filter_head (fun x => is_json x && named_coco x) names) as Hcand.
  pose proof (filter_head is_json names) as Hjson.
  unfold is_json, named_coco in *. cbn beta in *.
  destruct (List.filter _ names) as [|c cs].
  - destruct (List.filter _ names) as [|f fs]; [exact Hjson|].
    destruct Hjson as (before & after & -> & Hb & Hf).
    exists before, f, after. repeat split; [done|].
    apply Forall_app in Hcand as [_ Hcand].
    apply Forall_cons in Hcand as [Hc Hafter].
    rewrite Hf in Hc. cbn [andb] in Hc. by rewrite Hc.
  - destruct Hcand as (before & after & -> & Hb & Hc).
    apply andb_prop in Hc as [Hj Hn].
    exists before, c, after. repeat split; [done|]. by rewrite Hn.
Qed.

Lemma find_coco_json_prefers_coco_names_witness :
  exists chosen,
    Coco.find_coco_json "layouts/doc"
      (mkWorld ∅ (<["layouts/doc" := ["notes.txt"; "index.json"; "COCO_export.json"]]> ∅) [])
    = (Ok chosen,
       mkWorld ∅ (<["layouts/doc" := ["notes.txt"; "index.json"; "COCO_export.json"]]> ∅) [])
    /\ match chosen with
       | None => Forall (fun f => endswith f ".json" = false)
                   ["notes.txt"; "index.json"; "COCO_export.json"]
       | Some path =>
           exists before f after,
             ["notes.txt"; "index.json"; "COCO_export.json"] = (before ++ f :: after)%list
             /\ path = OsPath.join "layouts/doc" f
             /\ endswith f ".json" = true
             /\ if contains (lower f) "coco" || contains (lower f) "annotations"
                then Forall (fun g => endswith g ".json"
                                      && (contains (lower g) "coco"
                                          || contains (lower g) "annotations") = false)
                       before
                else Forall (fun g => endswith g ".json" = false) before
                     /\ Forall (fun g => endswith g ".json"
                                         && (contains (lower g) "coco"
                                             || contains (lower g) "annotations") = false)
                          after
       end.
Proof.
  apply (find_coco_json_prefers_coco_names "layouts/doc"
           ["notes.txt"; "index.json"; "COCO_export.json"]).
  reflexivity.
Defined.

(** ** The extracted text is stripped *)

Lemma lstrip_head (s : string) (c : ascii) (rest : string) :
  lstrip s = String c rest -> isspace c = false.
Proof.
  induction s as [|a s IH]; cbn [lstrip]; [done|].
  destruct (isspace a) eqn:Ha; [done|]. by intros [= <- _].
Qed.

Lemma lstrip_suffix (s : string) : exists ws, s = ws ++ lstrip s.
Proof.
  induction s as [|a s [ws IH]]; cbn [lstrip]; [by exists ""|].
  destruct (isspace a).
  - exists (String a ws). change (String a ws ++ ?x) with (String a (ws ++ x)).
    by rewrite <- IH.
  - by exists "".
Qed.

Lemma list_ascii_of_string_app (a b : string) :
  list_ascii_of_string (a ++ b)
  = (list_ascii_of_string a ++ list_ascii_of_string b)%list.
Proof.
  induction a as [|c a IH]; [done|].
  change (String c a ++ b) with (String c (a ++ b)). cbn. by rewrite IH.
Qed.

Lemma list_ascii_of_reverse_string (s : string) :
  list_ascii_of_string (reverse_string s) = rev (list_ascii_of_string s).
Proof. unfold reverse_string. apply list_ascii_of_string_of_list_ascii. Qed.

Lemma strip_no_outer_whitespace (s : string) :
  (forall c rest, strip s = String c rest -> isspace c = false)
  /\ (forall init c, strip s = init ++ String c "" -> isspace c = false).
Proof.
  unfold strip, rstrip.
  set (t := lstrip s). set (u := lstrip (reverse_string t)). split.
  - intros c rest Hrev.
    destruct (lstrip_suffix (reverse_string t)) as [ws Hws]. fold u in Hws.
    apply (f_equal list_ascii_of_string) in Hws, Hrev.
    rewrite list_ascii_of_reverse_string in Hrev.
    rewrite list_ascii_of_reverse_string, list_ascii_of_string_app in Hws.
    apply (f_equal (@rev ascii)) in Hws.
    rewrite rev_involutive, rev_app_distr, Hrev in Hws. cbn in Hws.
    apply (lstrip_head s c
             (string_of_list_ascii
                (list_ascii_of_string rest ++ rev (list_ascii_of_string ws)))).
    fold t. rewrite <- (string_of_list_ascii_of_string t), Hws. reflexivity.
  - intros init c Hrev.
    apply (f_equal list_ascii_of_string) in Hrev.
    rewrite list_ascii_of_reverse_string, list_ascii_of_string_app in Hrev.
    apply (f_equal (@rev ascii)) in Hrev.
    rewrite rev_involutive, rev_app_distr in Hrev. cbn in Hrev.
    apply (lstrip_head (reverse_string t) c
             (string_of_list_ascii (rev (list_ascii_of_string init)))).
    fold u. rewrite <- (string_of_list_ascii_of_string u), Hrev. reflexivity.
Qed.

Lemma coco_extract_is_stripped pdf_doc page_num bbox text :
  Coco.extract_text_from_bbox pdf_doc page_num bbox = Ok text ->
  text = "" \/ exists raw, text = strip raw.
Proof.
  unfold Coco.extract_text_from_bbox.
  destruct (Qle_bool _ _); [intros [= <-]; by left|].
  destruct (match page_num with PInt i => _ | PFloat _ => _ end) as [page|];
    cbn [mbind result_bind]; [|done].
  destruct (py_iter bbox) as [items|]; cbn [mbind result_bind]; [|done].
  destruct items as [|x [|y [|width [|height [|]]]]]; try done.
  destruct (as_num x); cbn [mbind result_bind]; [|done].
  destruct (as_num y); cbn [mbind result_bind]; [|done].
  destruct (as_num width); cbn [mbind result_bind]; [|done].
  destruct (as_num height); cbn [mbind result_bind]; [|done].
  destruct (get_text page _) as [raw|]; cbn [mbind result_bind]; [|done].
  intros [= <-]. right. by exists raw.
Qed.

Lemma labelme_extract_is_stripped pdf_doc page_num points iw ih text :
  Labelme.extract_text_from_labelme_bbox pdf_doc page_num points iw ih = Ok text ->
  text = "" \/ exists raw, text = strip raw.
Proof.
  unfold Labelme.extract_text_from_labelme_bbox.
  destruct (_ <=? _)%Z; [intros [= <-]; by left|].
  repeat match goal with
         | |- (?m ≫= _) = Ok _ -> _ =>
             destruct m; cbn [mbind result_bind]; [|done]
         end.
  intros [= <-]. right. by eexists.
Qed.

(** X17. Whatever text either extractor returns, it neither begins nor ends
    with a whitespace character: the text read from the page is stripped
    before it is returned. *)
Theorem extracted_text_has_no_outer_whitespace
    (pdf_doc : Document) (page : pynum) (page_num : Z)
    (bbox points image_width image_height : json) (text : string) :
  Coco.extract_text_from_bbox pdf_doc page bbox = Ok text
  \/ Labelme.extract_text_from_labelme_bbox
       pdf_doc page_num points image_width image_height = Ok text ->
  (forall c rest, text = String c rest -> isspace c = false)
  /\ (forall init c, text = init ++ String c "" -> isspace c = false).
Proof.
  intros Hrun.
  assert (text = "" \/ exists raw, text = strip raw) as [->|[raw ->]].
  { destruct Hrun;
      eauto using coco_extract_is_stripped, labelme_extract_is_stripped. }
  - split; [done|]. by intros [|? []] c.
  - apply strip_no_outer_whitespace.
Qed.

Lemma extracted_text_has_no_outer_whitespace_witness :
  (forall c rest, "hello" = String c rest -> isspace c = false)
  /\ (forall init c, "hello" = init ++ String c "" -> isspace c = false).
Proof.
  apply (extracted_text_has_no_outer_whitespace
           (document_of_pages [page_reading 600 800 "  hello  "]) (PInt 0) 0
           (JArr [JInt 10; JInt 20; JInt 30; JInt 40]) JNull JNull JNull "hello").
  left. reflexivity.
Defined.

(** ** The page resolver and the parts of a file name *)

Lemma rfind_none (c : ascii) (s : string) :
  all_chars (fun a => negb (Ascii.eqb a c)) s = true -> rfind c s = None.
Proof.
  induction s as [|a s IH]; cbn [all_chars rfind]; [done|].
  intros H. apply andb_prop in H as [Ha Hs]. rewrite IH by done.
  by destruct (Ascii.eqb a c).
Qed.

Lemma rfind_app (c : ascii) (a b : string) (i : nat) :
  rfind c b = Some i -> rfind c (a ++ b) = Some (String.length a + i)%nat.
Proof.
  intros Hb. induction a as [|x a IH]; [done|].
  change (String x a ++ b) with (String x (a ++ b)). cbn [rfind]. by rewrite IH.
Qed.

Lemma rfind_app_none (c : ascii) (a b : string) :
  rfind c a = None -> rfind c b = None -> rfind c (a ++ b) = None.
Proof.
  intros Ha Hb. induction a as [|x a IH]; [done|].
  change (String x a ++ b) with (String x (a ++ b)). cbn [rfind] in *.
  destruct (rfind c a); [done|]. rewrite IH by done.
  by destruct (Ascii.eqb x c).
Qed.

Lemma rfind_here (c : ascii) (s : string) :
  rfind c s = None -> rfind c (String c s) = Some 0%nat.
Proof. intros H. cbn [rfind]. by rewrite H, Ascii.eqb_refl. Qed.

Lemma get_app_length (a : string) (c : ascii) (b : string) :
  String.get (String.length a) (a ++ String c b) = Some c.
Proof.
  induction a as [|x a IH]; [done|].
  change (String x a ++ ?y) with (String x (a ++ y)). exact IH.
Qed.

Lemma has_non_dot_app (s pre post : string) :
  OsPath.has_non_dot (pre ++ s ++ post) (String.length pre) (String.length s)
  = negb (all_chars (fun c => Ascii.eqb c ".") s).
Proof.
  revert pre. induction s as [|c s IH]; intros pre; [done|].
  change (String c s ++ post) with (String c (s ++ post)).
  cbn [String.length OsPath.has_non_dot all_chars].
  rewrite get_app_length. unfold OsPath.extsep.
  destruct (Ascii.eqb c ".") eqn:Hc; [|done]. cbn [andb].
  specialize (IH (pre ++ String c "")).
  rewrite append_assoc, length_app in IH.
  change (String c "" ++ ?x) with (String c x) in IH.
  cbn [String.length] in IH. by rewrite Nat.add_1_r in IH.
Qed.

Lemma all_chars_weaken (p q : ascii -> bool) (s : string) :
  (forall c, p c = true -> q c = true) ->
  all_chars p s = true -> all_chars q s = true.
Proof.
  intros Hpq. induction s as [|c s IH]; cbn [all_chars]; [done|].
  intros H. apply andb_prop in H as [Hc Hs]. by rewrite (Hpq c Hc), IH.
Qed.

Lemma all_chars_app (p : ascii -> bool) (a b : string) :
  all_chars p (a ++ b) = all_chars p a && all_chars p b.
Proof.
  induction a as [|c a IH]; [done|].
  change (String c a ++ b) with (String c (a ++ b)). cbn [all_chars].
  by rewrite IH, andb_assoc.
Qed.

(** [os.path.basename] drops a directory part. *)
Lemma basename_of_joined (dir name : string) :
  all_chars (fun c => negb (Ascii.eqb c "/")) name = true ->
  OsPath.basename (dir ++ "/" ++ name) = name.
Proof.
  intros Hname. unfold OsPath.basename, OsPath.sep.
  change ("/" ++ name) with (String "/" name).
  rewrite (rfind_app _ dir _ 0) by (by apply rfind_here, rfind_none).
  rewrite Nat.add_0_r.
  change (String "/" name) with ("/" ++ name). rewrite <- append_assoc.
  replace (S (String.length dir)) with (String.length (dir ++ "/"))
    by (rewrite length_app; cbn; lia).
  apply slice_from_app.
Qed.

(** [os.path.splitext] on a plain name with an extension. *)
Lemma splitext_of_plain (stem ext : string) :
  all_chars (fun c => negb (Ascii.eqb c "/")) stem = true ->
  all_chars (fun c => Ascii.eqb c ".") stem = false ->
  all_chars (fun c => negb (Ascii.eqb c "/") && negb (Ascii.eqb c ".")) ext = true ->
  OsPath.splitext (stem ++ "." ++ ext) = (stem, "." ++ ext).
Proof.
  intros Hstem Hdots Hext. unfold OsPath.splitext, OsPath.sep, OsPath.extsep.
  assert (rfind "/" ext = None) as Hext_sep.
  { apply rfind_none. revert Hext. apply all_chars_weaken.
    intros c H. by apply andb_prop in H as [-> _]. }
  assert (rfind "." ext = None) as Hext_dot.
  { apply rfind_none. revert Hext. apply all_chars_weaken.
    intros c H. by apply andb_prop in H as [_ ->]. }
  change ("." ++ ext) with (String "." ext).
  rewrite (rfind_app_none "/");
    [|by apply rfind_none|by (cbn [rfind]; rewrite Hext_sep)].
  rewrite (rfind_app "." stem _ 0) by (by apply rfind_here).
  rewrite Nat.add_0_r, Nat.sub_0_r. cbn [Nat.leb andb].
  pose proof (has_non_dot_app stem "" (String "." ext)) as Hnd.
  change ("" ++ ?x) with x in Hnd. cbn [String.length] in Hnd.
  rewrite Hnd, Hdots. cbn [negb].
  by rewrite slice_to_app, slice_from_app.
Qed.

Lemma resolver_on_matching_record
    (d : list (string * json)) (before after : list json)
    (image : list (string * json)) (id : json) (filename : string)
    (image_id : Z) :
  default (JArr []) (dict_lookup "images" d) = JArr (before ++ JObj image :: after) ->
  Forall (other_record (JInt image_id)) before ->
  dict_lookup "id" image = Some id ->
  py_eq id (JInt image_id) = true ->
  dict_lookup "file_name" image = Some (JStr filename) ->
  Coco.get_page_number_from_image_id (JObj d) (JInt image_id)
  = let numbers :=
      filter_chars isdigit (fst (OsPath.splitext (OsPath.basename filename))) in
    Ok (PInt (if String.eqb numbers "" then image_id - 1
              else int_of_digits numbers - 1)).
Proof.
  intros Himages Hbefore Hid Heq Hname.
  unfold Coco.get_page_number_from_image_id.
  cbn [get_default]. rewrite Himages. cbn [py_iter mbind result_bind].
  rewrite page_number_loop_skips by done.
  cbn [Coco.page_number_loop getitem_key]. rewrite Hid.
  cbn [mbind result_bind]. rewrite Heq, Hname. cbn [mbind result_bind].
  cbn zeta.
  by destruct (String.eqb (filter_chars isdigit _) "").
Qed.

(** X18. Only the digits of the file name's stem count for the page index:
    for a matching image record whose file name is an optional directory
    part, a stem and an extension, the resolver returns the number formed by
    the digits of the stem, minus 1 (or [image_id - 1] when the stem has no
    digit), whatever digits the directory part and the extension contain. *)
Theorem resolver_reads_stem_digits_only
    (d : list (string * json)) (before after : list json)
    (image : list (string * json)) (id : json) (image_id : Z)
    (directory stem ext : string) :
  default (JArr []) (dict_lookup "images" d) = JArr (before ++ JObj image :: after) ->
  Forall (other_record (JInt image_id)) before ->
  dict_lookup "id" image = Some id ->
  py_eq id (JInt image_id) = true ->
  dict_lookup "file_name" image
  = Some (JStr (directory ++ "/" ++ stem ++ "." ++ ext)) ->
  all_chars (fun c => negb (Ascii.eqb c "/")) stem = true ->
  all_chars (fun c => Ascii.eqb c ".") stem = false ->
  all_chars (fun c => negb (Ascii.eqb c "/") && negb (Ascii.eqb c ".")) ext = true ->
  Coco.get_page_number_from_image_id (JObj d) (JInt image_id)
  = Ok (PInt (if String.eqb (filter_chars isdigit stem) "" then image_id - 1
              else int_of_digits (filter_chars isdigit stem) - 1)).
Proof.
  intros Himages Hbefore Hid Heq Hname Hstem Hdots Hext.
  rewrite (resolver_on_matching_record d before after image id _ image_id)
    by done.
  cbn zeta. rewrite basename_of_joined.
  - by rewrite splitext_of_plain.
  - rewrite all_chars_app, Hstem. cbn [andb].
    change ("." ++ ext) with (String "." ext). cbn [all_chars].
    revert Hext. apply all_chars_weaken.
    intros c H. by apply andb_prop in H as [-> _].
Qed.

Lemma resolver_reads_stem_digits_only_witness :
  Coco.get_page_number_from_image_id
    (JObj [("images",
            JArr [JObj [("id", JInt 1);
                        ("file_name", JStr "scans2024/page_3.jp2")]])])
    (JInt 1)
  = Ok (PInt 2).
Proof.
  apply (resolver_reads_stem_digits_only
           [("images",
             JArr [JObj [("id", JInt 1);
                         ("file_name", JStr "scans2024/page_3.jp2")]])]
           [] [] [("id", JInt 1); ("file_name", JStr "scans2024/page_3.jp2")]
           (JInt 1) 1 "scans2024" "page_3" "jp2"); try reflexivity.
  constructor.
Defined.

(** ** The batch *)

Lemma labelme_pairs_loop_outcome pdf_directory layout_directory verbose pdf_files :
  forall success_count w,
  exists r w',
    Labelme.pairs_loop pdf_directory layout_directory verbose success_count
      pdf_files w = (r, w')
    /\ dirs w' = dirs w
    /\ rewrites_json_only (files w) (files w')
    /\ ((exists n, r = Ok n) \/ r = Raise OSError).
Proof.
  induction pdf_files as [|pdf_file rest IH]; intros success_count w;
    cbn [Labelme.pairs_loop].
  - eexists _, _. split; [reflexivity|]. split; [done|].
    split; [apply rewrites_json_only_refl|]. left. by eexists.
  - cbn zeta. rewrite run_bind.
    match goal with
    | |- context [Labelme.process_pdf_layout_pair ?p ?l verbose w] =>
        pose proof (labelme_run_rewrites_json_only p l verbose w) as Hjson;
        destruct (labelme_run_outcome p l verbose w) as (r & w1 & Hrun & Hd & Hr)
    end.
    rewrite Hrun in Hjson |- *. cbn [snd] in Hjson.
    assert (r = Raise OSError \/ exists b, r = Ok b) as [->|[b ->]].
    { destruct Hr as [->|[_ [->|[-> _]]]]; eauto. }
    + eexists _, _. split; [reflexivity|]. split; [done|]. split; [done|by right].
    + match goal with
      | |- context [Labelme.pairs_loop _ _ _ ?n rest w1] =>
          destruct (IH n w1) as (r' & w' & -> & Hd' & Hjson' & Hr')
      end.
      eexists _, _. split; [reflexivity|]. split; [congruence|].
      split; [by eapply rewrites_json_only_trans|done].
Qed.

Lemma coco_pairs_loop_outcome pdf_directory layout_directory pdf_files :
  forall success_count w,
  exists r w',
    Coco.pairs_loop pdf_directory layout_directory success_count pdf_files w
    = (r, w')
    /\ dirs w' = dirs w
    /\ rewrites_json_only (files w) (files w').
Proof.
  induction pdf_files as [|pdf_file rest IH]; intros success_count w;
    cbn [Coco.pairs_loop].
  - eexists _, _. split; [reflexivity|]. split; [done|].
    apply rewrites_json_only_refl.
  - cbn zeta. rewrite run_bind.
    match goal with
    | |- context [Coco.process_pdf_layout_pair ?p ?l w] =>
        pose proof (coco_run_rewrites_json_only p l w) as Hjson;
        destruct (coco_run_effect p l w) as [_ Hd];
        destruct (Coco.process_pdf_layout_pair p l w) as [[b|e] w1]
    end; cbn [snd] in Hjson, Hd.
    + match goal with
      | |- context [Coco.pairs_loop _ _ ?n rest w1] =>
          destruct (IH n w1) as (r' & w' & -> & Hd' & Hjson')
      end.
      eexists _, _. split; [reflexivity|]. split; [congruence|].
      by eapply rewrites_json_only_trans.
    + eexists _, _. split; [reflexivity|]. by split.
Qed.

Lemma filter_not_nil {A} (p : A -> bool) (l : list A) (x : A) (xs : list A) :
  List.filter p l = x :: xs -> Exists (fun a => p a = true) l.
Proof.
  intros H. apply List.Exists_exists. exists x.
  apply filter_In. rewrite H. by left.
Qed.



Lemma labelme_pairs_loop_silent pdf_directory layout_directory pdf_files :
  forall success_count,
    silent (Labelme.pairs_loop pdf_directory layout_directory false
              success_count pdf_files).
Proof.
  induction pdf_files as [|pdf_file rest IH]; intros success_count;
    cbn [Labelme.pairs_loop]; [apply silent_ret|].
  cbn zeta. apply silent_bind; [apply labelme_run_silent|]. intros b. apply IH.
Qed.

(** X21. With [--quiet] the Dialect B batch prints at most one line, and
    only when it gives up with status 1 (a directory is missing or no PDF is
    listed); every other run prints nothing. *)
Theorem labelme_quiet_batch_prints_fatal_only
    (pdf_directory layout_directory : string) (w : world) :
  let run := Labelme.main pdf_directory layout_directory true w in
  stdout (snd run) = stdout w
  \/ fst run = Ok 1 /\ exists m, stdout (snd run) = (stdout w ++ [m])%list.
Proof.
  unfold Labelme.main. cbn zeta. cbn [negb].
  rewrite run_path_exists.
  case_bool_decide as Hpdf; cbn [negb].
  2:{ rewrite run_print. right. split; [done|]. by eexists. }
  rewrite run_path_exists.
  case_bool_decide as Hlayout; cbn [negb].
  2:{ rewrite run_print. right. split; [done|]. by eexists. }
  rewrite !run_when, !log_nil, run_listdir.
  destruct (dirs w !! pdf_directory) as [names|]; [|by left].
  destruct (List.filter _ names) as [|f fs].
  { rewrite run_print. right. split; [done|]. by eexists. }
  rewrite run_when, log_nil, run_bind.
  match goal with
  | |- context [Labelme.pairs_loop ?a ?b false ?n ?l w] =>
      pose proof (labelme_pairs_loop_silent a b l n w) as Hs;
      destruct (Labelme.pairs_loop a b false n l w) as [[k|e] w']
  end; cbn [snd] in Hs; left; exact Hs.
Qed.
